(** * Payment reconciliation of the chama wallet application

    A shallow embedding of the three pieces of code that move money into the
    internal wallet ledger:

    - [PaystackCallback]: supabase/functions/paystack-callback/index.ts,
      the webhook handler called by the payment processor;
    - [ManualCredit]: the manual-credit-payment edge function, the repair
      path that credits a transaction from its reference;
    - [Reconciler]: src/hooks/useStuckPaymentReconciliation.tsx, the query
      that finds stuck pending payments.

    JavaScript numbers are IEEE binary64 values, modelled by Rocq's primitive
    [float]: every arithmetic operation below rounds exactly as the code's
    does.  The hosted database is a record of tables (lists of rows); every
    call of the database client appends to a trace of calls and consumes one
    entry of a fault schedule, which says whether the service answers that
    call with an error.  Handlers run in a state-and-exception monad over
    that world, so that what was written before a [throw] stays written, as
    in the code, where no write is transactional.

    Rows and response bodies travel as JSON, which has neither NaN nor an
    infinity.  A number that the code lets be null ([available_balance])
    is kept as JSON carries it, null when it is not finite.  Amounts and
    balances are kept as the binary64 values that the handlers compute:
    what the service does with the null sent for a non-finite one is
    decided by the table definitions, which are not part of the repository. *)

From Stdlib Require Import ZArith NArith List String Ascii Bool Lia.
From Stdlib Require Import DecimalString Uint63.
From Stdlib Require Import Floats.PrimFloat Floats.FloatOps Floats.SpecFloat.
Import ListNotations.
#[local] Set Warnings "-inexact-float".
Local Open Scope string_scope.

(** ** JavaScript values: numbers, strings, one regular expression *)

Module Js.

Definition number := float.

Definition is_digit (c : ascii) : bool :=
  let n := nat_of_ascii c in (48 <=? n)%nat && (n <=? 57)%nat.

(** Strings hold UTF-8 text.  The white space of [\s], which is also what
    [parseFloat] skips, is ECMAScript's WhiteSpace and LineTerminator:
    U+0009 to U+000D, U+0020, U+00A0, U+1680, U+2000 to U+200A, U+2028,
    U+2029, U+202F, U+205F, U+3000 and U+FEFF.  [space_width s] is the
    number of bytes of the white space character that [s] starts with, 0
    when it starts with none. *)
Definition space_width (s : string) : nat :=
  match s with
  | String a s1 =>
      let a := N_of_ascii a in
      if ((9 <=? a) && (a <=? 13) || (a =? 32))%N then 1%nat else
      match s1 with
      | String b s2 =>
          let b := N_of_ascii b in
          if ((a =? 194) && (b =? 160))%N then 2%nat else
          match s2 with
          | String c _ =>
              let c := N_of_ascii c in
              if ((a =? 225) && (b =? 154) && (c =? 128)
                  || (a =? 226) && (b =? 128)
                     && ((128 <=? c) && (c <=? 138)
                         || (c =? 168) || (c =? 169) || (c =? 175))
                  || (a =? 226) && (b =? 129) && (c =? 159)
                  || (a =? 227) && (b =? 128) && (c =? 128)
                  || (a =? 239) && (b =? 187) && (c =? 191))%N
              then 3%nat else 0%nat
          | EmptyString => 0%nat
          end
      | EmptyString => 0%nat
      end
  | EmptyString => 0%nat
  end.

(** The input without the white space it starts with; [skip] bytes of the
    white space character being passed are still to be dropped. *)
Fixpoint trim_start (skip : nat) (s : string) {struct s} : string :=
  match skip with
  | S skip' =>
      match s with
      | String _ s' => trim_start skip' s'
      | EmptyString => EmptyString
      end
  | O =>
      match space_width s, s with
      | S skip', String _ s' => trim_start skip' s'
      | _, _ => s
      end
  end.

Definition to_lower (c : ascii) : ascii :=
  let n := nat_of_ascii c in
  if (65 <=? n)%nat && (n <=? 90)%nat then ascii_of_nat (n + 32) else c.

Definition digit_value (c : ascii) : N := N.of_nat (nat_of_ascii c - 48).

Fixpoint span (p : ascii -> bool) (s : string) : string * string :=
  match s with
  | String c s' =>
      if p c then let '(a, b) := span p s' in (String c a, b) else ("", s)
  | EmptyString => ("", "")
  end.

Fixpoint digits_value (acc : N) (s : string) : N :=
  match s with
  | String c s' => digits_value (10 * acc + digit_value c) s'
  | EmptyString => acc
  end.

Definition string_of_N (n : N) : string := NilZero.string_of_uint (N.to_uint n).

(** [hay.includes(needle)] *)
Fixpoint includes (needle hay : string) : bool :=
  prefix needle hay ||
  match hay with
  | String _ hay' => includes needle hay'
  | EmptyString => false
  end.

(** *** Numbers from and to decimal text *)

Definition float_of_Z (z : Z) : number :=
  SF2Prim (binary_normalize prec emax z 0 false).

(** The binary64 value nearest to [(-1)^neg * n * 10^e10], ties to even. *)
Definition float_of_decimal (neg : bool) (n : N) (e10 : Z) : number :=
  match n with
  | N0 => if neg then (-0)%float else 0%float
  | Npos p =>
      if (0 <=? e10)%Z
      then float_of_Z ((if neg then Z.neg p else Z.pos p) * 10 ^ e10)
      else SF2Prim (SFdiv prec emax (S754_finite neg p 0)
                      (S754_finite false (Z.to_pos (10 ^ (- e10))) 0))
  end.

Definition parse_exponent (s : string) : Z :=
  match s with
  | String c s' =>
      if (Ascii.eqb c "e" || Ascii.eqb c "E")%bool then
        let '(neg, s'') :=
          match s' with
          | String "+" t => (false, t)
          | String "-" t => (true, t)
          | _ => (false, s')
          end in
        let '(ds, _) := span is_digit s'' in
        match ds with
        | EmptyString => 0%Z
        | _ => let v := Z.of_N (digits_value 0 ds) in if neg then (- v)%Z else v
        end
      else 0%Z
  | EmptyString => 0%Z
  end.

(** [parseFloat(input)]: the value of the longest prefix of the trimmed
    input that is a decimal literal, NaN when there is none. *)
Definition parseFloat (input : string) : number :=
  let s := trim_start 0 input in
  let '(neg, s) :=
    match s with
    | String "+" t => (false, t)
    | String "-" t => (true, t)
    | _ => (false, s)
    end in
  if prefix "Infinity" s then (if neg then neg_infinity else infinity) else
  let '(ip, s1) := span is_digit s in
  let '(fp, s2) :=
    match s1 with
    | String "." t => span is_digit t
    | _ => ("", s1)
    end in
  match ip ++ fp with
  | EmptyString => nan
  | ds => float_of_decimal neg (digits_value 0 ds)
            (parse_exponent s2 - Z.of_nat (length fp))
  end.

(** [Number::toString] of a finite x >= 1e21, which is always in exponent
    notation: the fewest digits [s] (k of them) such that [s * 10^(n-k)]
    rounds to x, the nearest to x among them.  [X] is the exact integer
    value of x. *)
Definition num_digits (X : Z) : Z := Z.of_nat (length (string_of_N (Z.to_N X))).

Definition shortest_candidates (x : number) (X : Z) (k : Z) : list (Z * Z) :=
  let D := num_digits X in
  let lo := (X / 10 ^ (D - k))%Z in
  let ok (sn : Z * Z) :=
    let '(s, n) := sn in
    ((10 ^ (k - 1) <=? s)%Z && (s <? 10 ^ k)%Z
     && Leibniz.eqb (float_of_Z (s * 10 ^ (n - k))) x)%bool in
  filter ok [(lo, D); ((lo + 1)%Z, D); ((10 ^ (k - 1))%Z, (D + 1)%Z)].

Definition closer (X k : Z) (a b : Z * Z) : Z * Z :=
  let dist (sn : Z * Z) := Z.abs (fst sn * 10 ^ (snd sn - k) - X) in
  match (dist a ?= dist b)%Z with
  | Lt => a
  | Gt => b
  | Eq => if Z.even (fst a) then a else b
  end.

Fixpoint shortest_digits (fuel : nat) (x : number) (X : Z) (k : Z) : Z * Z * Z :=
  match fuel with
  | O => (X, num_digits X, num_digits X)
  | S fuel' =>
      match shortest_candidates x X k with
      | c :: cs => let '(s, n) := fold_left (closer X k) cs c in (s, n, k)
      | [] => shortest_digits fuel' x X (k + 1)
      end
  end.

(** A value that is a number or null, as [JSON.stringify] writes it: JSON
    has neither NaN nor an infinity, for which [null] is written, and no
    negative zero, which is written 0. *)
Definition JSON_number (x : option number) : option number :=
  match x with
  | Some v => if is_finite v then Some (if is_zero v then 0%float else v) else None
  | None => None
  end.

Definition toString_large (x : number) : string :=
  match Prim2SF x with
  | S754_finite _ m e =>
      let X := (Z.pos m * 2 ^ e)%Z in
      let '(s, n, k) := shortest_digits 17 x X 1 in
      let ds := string_of_N (Z.to_N s) in
      let ex := "e+" ++ string_of_N (Z.to_N (n - 1)) in
      match ds with
      | String d EmptyString => String d ex
      | String d rest => String d ("." ++ rest ++ ex)
      | EmptyString => ex
      end
  | _ => "Infinity"
  end.

Definition pad3 (ds : string) : string :=
  match length ds with
  | 1%nat => "00" ++ ds
  | 2%nat => "0" ++ ds
  | _ => ds
  end.

(** [x.toFixed(2)]: the integer n nearest to 100*|x| (the larger on a tie),
    written with a point before its last two digits; the number's own text
    when it is not finite or is at least 1e21. *)
Definition toFixed2 (x : number) : string :=
  match Prim2SF x with
  | S754_nan => "NaN"
  | S754_infinity s => if s then "-Infinity" else "Infinity"
  | S754_zero _ => "0.00"
  | S754_finite s m e =>
      let sgn := if s then "-" else "" in
      if (1e21 <=? abs x)%float then sgn ++ toString_large (abs x) else
      let n := if (0 <=? e)%Z then (100 * Z.pos m * 2 ^ e)%Z
               else ((200 * Z.pos m + 2 ^ (- e)) / 2 ^ (1 - e))%Z in
      let ds := pad3 (string_of_N (Z.to_N n)) in
      sgn ++ substring 0 (length ds - 2) ds ++ "." ++ substring (length ds - 2) 2 ds
  end.

(** *** A backtracking matcher for the handler's regular expression

    A matcher consumes a prefix of its input and hands the rest, with the
    text captured so far by group 1, to its continuation; when the
    continuation fails it tries its next way of matching, in the order
    ECMAScript prescribes (alternatives left to right, [+] longest first). *)

Definition capture := option string.
Definition Matcher := string -> capture -> (string -> capture -> option capture) -> option capture.

Fixpoint lit_ci (w : string) : Matcher :=
  fun s c k =>
    match w with
    | EmptyString => k s c
    | String a w' =>
        match s with
        | String b s' =>
            if Ascii.eqb (to_lower a) (to_lower b) then lit_ci w' s' c k else None
        | EmptyString => None
        end
    end.

Fixpoint plus_class (p : ascii -> bool) (s : string) (c : capture)
    (k : string -> capture -> option capture) : option capture :=
  match s with
  | String a s' =>
      if p a then
        match plus_class p s' c k with
        | Some r => Some r
        | None => k s' c
        end
      else None
  | EmptyString => None
  end.

(** [\s+], longest first.  [spaces skip s] has matched at least one white
    space character, of which [skip] bytes are still to be passed. *)
Fixpoint spaces (skip : nat) (s : string) (c : capture)
    (k : string -> capture -> option capture) {struct s} : option capture :=
  match skip with
  | S skip' =>
      match s with
      | String _ s' => spaces skip' s' c k
      | EmptyString => None
      end
  | O =>
      let more :=
        match space_width s, s with
        | S skip', String _ s' => spaces skip' s' c k
        | _, _ => None
        end in
      match more with
      | Some r => Some r
      | None => k s c
      end
  end.

Definition plus_space : Matcher :=
  fun s c k =>
    match space_width s, s with
    | S skip, String _ s' => spaces skip s' c k
    | _, _ => None
    end.

Definition seq (m1 m2 : Matcher) : Matcher :=
  fun s c k => m1 s c (fun s' c' => m2 s' c' k).

Definition alt (m1 m2 : Matcher) : Matcher :=
  fun s c k =>
    match m1 s c k with
    | Some r => Some r
    | None => m2 s c k
    end.

Definition group1 (m : Matcher) : Matcher :=
  fun s c k =>
    m s c (fun s' _ => k s' (Some (substring 0 (length s - length s') s))).

Definition amount_char (c : ascii) : bool :=
  is_digit c || Ascii.eqb c "," || Ascii.eqb c ".".

(** [/balance is\s+(?:Ksh|KES|Ksh\s+)([0-9,.]+)/i] *)
Definition balance_regex : Matcher :=
  seq (lit_ci "balance is")
   (seq plus_space
    (seq (alt (lit_ci "Ksh")
          (alt (lit_ci "KES")
               (seq (lit_ci "Ksh") plus_space)))
         (group1 (plus_class amount_char)))).

(** [s.match(re)] for a regular expression without the g flag: the
    leftmost match; the result is its group 1. *)
Fixpoint regex_match (re : Matcher) (s : string) : option capture :=
  match re s None (fun _ c => Some c) with
  | Some c => Some c
  | None =>
      match s with
      | String _ s' => regex_match re s'
      | EmptyString => None
      end
  end.

(** [s.replace(/,/g, '')] *)
Fixpoint remove_commas (s : string) : string :=
  match s with
  | String c s' => if Ascii.eqb c "," then remove_commas s' else String c (remove_commas s')
  | EmptyString => EmptyString
  end.

End Js.

(** ** The processor's webhook events, as the handler destructures them *)

Module Paystack.

Record Customer := { email : string }.

(** [data] of a [charge.success] event; [amount] is in minor units. *)
Record ChargeSuccess := {
  cs_reference : string;
  cs_amount : Js.number;
  cs_customer : Customer;
  cs_channel : string;
  cs_paid_at : string
}.

(** [data] of a [charge.failed] event; [gateway_response] is a string or
    absent (any falsy value counts as absent), and [customer], which the
    handler never reads, may be absent too. *)
Record ChargeFailed := {
  cf_reference : string;
  cf_gateway_response : option string;
  cf_channel : string;
  cf_customer : option Customer
}.

(** The envelope [{event, data}] after [JSON.parse].  The last two are the
    events on which the handler throws before its first call:
    [charge_success_no_customer] is a [charge.success] event whose [data],
    or whose [data.customer], is null or missing (lines 49-65 read the
    customer's email); [charge_failed_unreadable] is a [charge.failed]
    event whose [data] is null or missing (lines 199-205 destructure it),
    or whose [gateway_response] is neither a string nor falsy (line 217
    calls its [match]). *)
Inductive CallbackData :=
| charge_success (data : ChargeSuccess)
| charge_failed (data : ChargeFailed)
| other_event (event : string)
| charge_success_no_customer
| charge_failed_unreadable.

End Paystack.

(** ** The hosted database and its client *)

Module Db.

(** The [error] object of a client call.  [is_Error] records whether it is
    an instance of JavaScript's [Error], which the manual credit function
    tests before it reads the message. *)
Record PgError := { code : string; message : string; is_Error : bool }.

(** What [.single()] answers when the rows found are not exactly one. *)
Definition PGRST116 : PgError :=
  {| code := "PGRST116";
     message := "JSON object requested, multiple (or no) rows returned";
     is_Error := false |}.

(** [callback_data]: the envelope, for a failed charge spread with two more
    keys.  The client sends every row as JSON: [available_balance], which is
    a number or null, is kept as [JSON_number] leaves it. *)
Inductive StoredCallback :=
| Envelope (callbackData : Paystack.CallbackData)
| EnvelopeWith (callbackData : Paystack.CallbackData)
    (available_balance : option Js.number) (original_message : option string).

(** A row of [mpesa_transactions].  [created_at] is in milliseconds since
    the epoch; [metadata_transaction_id] is [metadata?.transaction_id]. *)
Module Tx.
Record t := mk {
  checkout_request_id : string;
  user_id : string;
  chama_id : option string;
  purpose : string;
  metadata_transaction_id : option string;
  amount : Js.number;
  status : string;
  transaction_type : string;
  created_at : Z;
  result_code : option Z;
  result_desc : option string;
  mpesa_receipt_number : option string;
  transaction_date : option string;
  callback_data : option StoredCallback;
  updated_at : option string
}.
End Tx.

(** A row of [user_central_wallets]. *)
Module Wallet.
Record t := mk {
  user_id : string;
  balance : Js.number;
  updated_at : option string
}.
End Wallet.

(** A row of [wallet_transactions]. *)
Module WalletTx.
Record t := mk {
  user_id : string;
  type : string;
  amount : Js.number;
  description : string;
  status : string;
  reference_id : string;
  payment_method : string;
  currency : option string
}.
End WalletTx.

(** A row of [chama_notifications]. *)
Module Notification.
Inductive Data :=
| success_data (amount : Js.number) (channel reference timestamp : string)
| failure_data (amount : Js.number) (channel reference : string)
    (available_balance : option Js.number) (reason : option string).
Record t := mk {
  user_id : string;
  chama_id : option string;
  type : string;
  title : string;
  message : string;
  data : Data
}.
End Notification.

(** The arguments of one [collect_platform_fee] remote call. *)
Module Fee.
Record t := mk {
  p_user_id : string;
  p_fee_type : string;
  p_amount : Js.number;
  p_source_transaction_id : option string;
  p_payment_reference : string
}.
End Fee.

Record DB := {
  mpesa_transactions : list Tx.t;
  user_central_wallets : list Wallet.t;
  wallet_transactions : list WalletTx.t;
  chama_notifications : list Notification.t;
  platform_fees : list Fee.t
}.

Inductive Op := Select | Insert | Update | Rpc.

(** One call of the client: which table or remote function, which verb. *)
Record Call := { target : string; op : Op }.

(** The world a handler runs in: the tables, the faults the service will
    answer the coming calls with (none once the schedule is used up), and
    the calls made so far. *)
Record World := {
  db : DB;
  faults : list (option PgError);
  calls : list Call
}.

Inductive Thrown :=
| JsError (message : string)
| PgThrown (error : PgError).

Inductive Outcome (A : Type) :=
| Returned (a : A)
| Threw (e : Thrown).
Arguments Returned {A} a.
Arguments Threw {A} e.

Definition M (A : Type) : Type := World -> Outcome A * World.

Definition ret {A} (a : A) : M A := fun w => (Returned a, w).

Definition bind {A B} (m : M A) (k : A -> M B) : M B :=
  fun w =>
    match m w with
    | (Returned a, w') => k a w'
    | (Threw e, w') => (Threw e, w')
    end.

Definition throw {A} (e : Thrown) : M A := fun w => (Threw e, w).

Definition try_catch {A} (m : M A) (handler : Thrown -> A) : World -> A * World :=
  fun w =>
    match m w with
    | (Returned a, w') => (a, w')
    | (Threw e, w') => (handler e, w')
    end.

Definition read_db : M DB := fun w => (Returned (db w), w).

Definition modify_db (f : DB -> DB) : M unit :=
  fun w => (Returned tt, {| db := f (db w); faults := faults w; calls := calls w |}).

(** Every client call is recorded and takes the next fault of the schedule. *)
Definition request (c : Call) : M (option PgError) :=
  fun w =>
    (Returned (hd None (faults w)),
     {| db := db w; faults := tl (faults w); calls := calls w ++ [c] |}).

Module Import Notations.
Declare Scope db_scope.
Delimit Scope db_scope with db.
Notation "x <- m ;; k" := (bind m (fun x => k))
  (at level 61, m at next level, right associativity) : db_scope.
Notation "' pat <- m ;; k" := (bind m (fun x => match x with pat => k end))
  (at level 61, pat pattern, m at next level, right associativity) : db_scope.
End Notations.
Local Open Scope db_scope.

Record Table (R : Type) := {
  name : string;
  rows : DB -> list R;
  with_rows : list R -> DB -> DB
}.
Arguments name {R} _.
Arguments rows {R} _ _.
Arguments with_rows {R} _ _ _.

Definition mpesa_transactions_table : Table Tx.t :=
  {| name := "mpesa_transactions";
     rows := mpesa_transactions;
     with_rows := fun l d =>
       {| mpesa_transactions := l;
          user_central_wallets := user_central_wallets d;
          wallet_transactions := wallet_transactions d;
          chama_notifications := chama_notifications d;
          platform_fees := platform_fees d |} |}.

Definition user_central_wallets_table : Table Wallet.t :=
  {| name := "user_central_wallets";
     rows := user_central_wallets;
     with_rows := fun l d =>
       {| mpesa_transactions := mpesa_transactions d;
          user_central_wallets := l;
          wallet_transactions := wallet_transactions d;
          chama_notifications := chama_notifications d;
          platform_fees := platform_fees d |} |}.

Definition wallet_transactions_table : Table WalletTx.t :=
  {| name := "wallet_transactions";
     rows := wallet_transactions;
     with_rows := fun l d =>
       {| mpesa_transactions := mpesa_transactions d;
          user_central_wallets := user_central_wallets d;
          wallet_transactions := l;
          chama_notifications := chama_notifications d;
          platform_fees := platform_fees d |} |}.

Definition chama_notifications_table : Table Notification.t :=
  {| name := "chama_notifications";
     rows := chama_notifications;
     with_rows := fun l d =>
       {| mpesa_transactions := mpesa_transactions d;
          user_central_wallets := user_central_wallets d;
          wallet_transactions := wallet_transactions d;
          chama_notifications := l;
          platform_fees := platform_fees d |} |}.

(** The remote function [collect_platform_fee] is outside the repository:
    a call that the service accepts is kept in [platform_fees]. *)
Definition collect_platform_fee : Table Fee.t :=
  {| name := "collect_platform_fee";
     rows := platform_fees;
     with_rows := fun l d =>
       {| mpesa_transactions := mpesa_transactions d;
          user_central_wallets := user_central_wallets d;
          wallet_transactions := wallet_transactions d;
          chama_notifications := chama_notifications d;
          platform_fees := l |} |}.

(** [.select(..).eq(..)]: all the rows that satisfy the filter. *)
Definition select {R} (T : Table R) (p : R -> bool) : M (option (list R) * option PgError) :=
  f <- request {| target := name T; op := Select |} ;;
  match f with
  | Some e => ret (None, Some e)
  | None => d <- read_db ;; ret (Some (filter p (rows T d)), None)
  end.

(** [.select(..).eq(..).single()]: the row when exactly one satisfies the
    filter, the error PGRST116 otherwise. *)
Definition select_single {R} (T : Table R) (p : R -> bool) : M (option R * option PgError) :=
  f <- request {| target := name T; op := Select |} ;;
  match f with
  | Some e => ret (None, Some e)
  | None =>
      d <- read_db ;;
      match filter p (rows T d) with
      | [r] => ret (Some r, None)
      | _ => ret (None, Some PGRST116)
      end
  end.

(** [.update(..).eq(..)]: every row that satisfies the filter is changed;
    no row satisfying it is not an error. *)
Definition update {R} (T : Table R) (p : R -> bool) (f : R -> R) : M (option PgError) :=
  e <- request {| target := name T; op := Update |} ;;
  match e with
  | Some e => ret (Some e)
  | None =>
      _ <- modify_db (fun d =>
             with_rows T (map (fun r => if p r then f r else r) (rows T d)) d) ;;
      ret None
  end.

(** [.insert(row)]: the row is added as it was sent. *)
Definition insert {R} (T : Table R) (r : R) : M (option PgError) :=
  e <- request {| target := name T; op := Insert |} ;;
  match e with
  | Some e => ret (Some e)
  | None => _ <- modify_db (fun d => with_rows T (rows T d ++ [r]) d) ;; ret None
  end.

(** [.insert(row).select().single()]: one call, answering the new row. *)
Definition insert_select_single {R} (T : Table R) (r : R) : M (option R * option PgError) :=
  e <- insert T r ;;
  match e with
  | Some e => ret (None, Some e)
  | None => ret (Some r, None)
  end.

(** [.rpc(fn, args)] *)
Definition rpc {R} (T : Table R) (args : R) : M (option PgError) :=
  e <- request {| target := name T; op := Rpc |} ;;
  match e with
  | Some e => ret (Some e)
  | None => _ <- modify_db (fun d => with_rows T (rows T d ++ [args]) d) ;; ret None
  end.

End Db.

(** ** HTTP requests and responses *)

Module Http.

Record Request := {
  method : string;
  x_paystack_signature : option string;
  body : string
}.

(** A body: none, a text, or the object given to [JSON.stringify]. *)
Inductive Body :=
| Null
| Text (s : string)
| Credited (success : bool) (message : string) (amount newBalance : Js.number)
| Failure (success : bool) (error : string).

Record Response := {
  status : Z;
  content : Body;
  headers : list (string * string)
}.

End Http.

(** ** supabase/functions/paystack-callback/index.ts *)

Module PaystackCallback.
Import Js Paystack Db Db.Notations Http.
Local Open Scope db_scope.

Definition corsHeaders : list (string * string) :=
  [("Access-Control-Allow-Origin", "*");
   ("Access-Control-Allow-Headers",
    "authorization, x-client-info, apikey, content-type, x-paystack-signature")].

(** [Deno.env]: the database URL and key are asserted present by the code
    and play no part below; the signing secret may be missing. *)
Record Env := { PAYSTACK_SECRET_KEY : option string }.

Definition amountPaid (amount : number) : number := (amount / 100)%float.
Definition platformFee (amountPaid : number) : number := (amountPaid * 0.025)%float.
Definition netAmount (amountPaid platformFee : number) : number :=
  (amountPaid - platformFee)%float.

(** [x || null] on an optional string: the empty string is falsy. *)
Definition or_null (x : option string) : option string :=
  match x with
  | Some EmptyString => None
  | _ => x
  end.

Definition same_signature (hash : string) (signature : option string) : bool :=
  match signature with
  | Some s => hash =? s
  | None => false
  end.

(** The four-way conditionals on [channel] of the two template strings. *)
Definition deposit_source (channel : string) : string :=
  if channel =? "mobile_money" then "M-Pesa"
  else if channel =? "bank" then "Bank Transfer"
  else if channel =? "card" then "Card"
  else "Paystack".

Definition payment_source (channel : string) : string :=
  if channel =? "mobile_money" then "M-Pesa/Airtel Money"
  else if channel =? "bank" then "Bank Transfer"
  else if channel =? "card" then "Card Payment"
  else "Paystack".

Definition by_reference (reference : string) (t : Tx.t) : bool :=
  Tx.checkout_request_id t =? reference.

Definition by_user (user_id : string) (w : Wallet.t) : bool :=
  Wallet.user_id w =? user_id.

(** The object given to [.update] in the success branch. *)
Definition mark_success (channel reference paid_at : string)
    (callbackData : CallbackData) (now : string) (t : Tx.t) : Tx.t :=
  {| Tx.checkout_request_id := Tx.checkout_request_id t;
     Tx.user_id := Tx.user_id t;
     Tx.chama_id := Tx.chama_id t;
     Tx.purpose := Tx.purpose t;
     Tx.metadata_transaction_id := Tx.metadata_transaction_id t;
     Tx.amount := Tx.amount t;
     Tx.status := "success";
     Tx.transaction_type := Tx.transaction_type t;
     Tx.created_at := Tx.created_at t;
     Tx.result_code := Some 0%Z;
     Tx.result_desc := Some ("Payment via " ++ channel ++ " successful");
     Tx.mpesa_receipt_number := Some reference;
     Tx.transaction_date := Some paid_at;
     Tx.callback_data := Some (Envelope callbackData);
     Tx.updated_at := Some now |}.

(** The object given to [.update] in the failure branch, as the client
    sends it. *)
Definition mark_failed (userMessage : string) (callbackData : CallbackData)
    (availableBalance : option number) (gateway_response : option string)
    (now : string) (t : Tx.t) : Tx.t :=
  {| Tx.checkout_request_id := Tx.checkout_request_id t;
     Tx.user_id := Tx.user_id t;
     Tx.chama_id := Tx.chama_id t;
     Tx.purpose := Tx.purpose t;
     Tx.metadata_transaction_id := Tx.metadata_transaction_id t;
     Tx.amount := Tx.amount t;
     Tx.status := "failed";
     Tx.transaction_type := Tx.transaction_type t;
     Tx.created_at := Tx.created_at t;
     Tx.result_code := Some 1%Z;
     Tx.result_desc := Some userMessage;
     Tx.mpesa_receipt_number := Tx.mpesa_receipt_number t;
     Tx.transaction_date := Tx.transaction_date t;
     Tx.callback_data :=
       Some (EnvelopeWith callbackData (JSON_number availableBalance)
               gateway_response);
     Tx.updated_at := Some now |}.

Definition set_balance (balance : number) (now : string) (w : Wallet.t) : Wallet.t :=
  {| Wallet.user_id := Wallet.user_id w;
     Wallet.balance := balance;
     Wallet.updated_at := Some now |}.

(** [gateway_response || 'Payment failed'] *)
Definition parsedMessage (gateway_response : option string) : string :=
  match gateway_response with
  | None | Some EmptyString => "Payment failed"
  | Some s => s
  end.

(** [balanceMatch]: the match of the balance pattern, as its group 1. *)
Definition balanceMatch (parsedMessage : string) : option capture :=
  regex_match balance_regex parsedMessage.

(** [null], or the number parsed from group 1 without its commas. *)
Definition availableBalance (parsedMessage : string) : option number :=
  match balanceMatch parsedMessage with
  | Some (Some EmptyString) | Some None | None => None
  | Some (Some g) => Some (parseFloat (remove_commas g))
  end.

Definition userMessage (parsedMessage channel : string)
    (availableBalance : option number) : string :=
  match availableBalance with
  | Some b =>
      "💳 Payment failed: Insufficient "
      ++ (if channel =? "mobile_money" then "mobile money" else "account")
      ++ " balance" ++ String "010" "💼 Available balance: KES " ++ toFixed2 b
      ++ String "010" "🔁 Please top up your account or try a smaller amount."
  | None =>
      if channel =? "mobile_money" then
        "💳 " ++ (if channel =? "mobile_money" then "Mobile Money" else "Payment")
        ++ " transaction failed" ++ String "010" parsedMessage
        ++ String "010" "🔁 Please try again or contact your provider."
      else parsedMessage
  end.

Section Handler.

(** [createHmac('sha512', key).update(body).digest('hex')] *)
Variable hmac_sha512_hex : string -> string -> string.
(** [JSON.parse(body)] read as an envelope; [None] when it throws. *)
Variable JSON_parse : string -> option CallbackData.
(** [new Date().toISOString()] *)
Variable now : string.

(** Lines 100-180: get or create the central wallet, then credit it. *)
Definition credit_central_wallet (transaction : Tx.t)
    (reference channel paid_at : string) (platformFee netAmount : number) : M unit :=
  '(centralWallet, centralWalletFetchError) <-
    select_single user_central_wallets_table (by_user (Tx.user_id transaction)) ;;
  centralWallet <-
    match centralWallet with
    | Some w => ret (Some w)
    | None =>
        '(newWallet, createWalletError) <-
          insert_select_single user_central_wallets_table
            {| Wallet.user_id := Tx.user_id transaction;
               Wallet.balance := 0%float;
               Wallet.updated_at := None |} ;;
        match createWalletError with
        | Some _ => ret None
        | None => ret newWallet
        end
    end ;;
  match centralWallet with
  | None => ret tt
  | Some centralWallet =>
      walletUpdateError <-
        update user_central_wallets_table (by_user (Tx.user_id transaction))
          (set_balance (Wallet.balance centralWallet + netAmount)%float now) ;;
      match walletUpdateError with
      | Some _ => ret tt
      | None =>
          _ <- insert wallet_transactions_table
                 {| WalletTx.user_id := Tx.user_id transaction;
                    WalletTx.type := "deposit";
                    WalletTx.amount := netAmount;
                    WalletTx.description :=
                      deposit_source channel ++ " deposit (Fee: KES "
                      ++ toFixed2 platformFee ++ ")";
                    WalletTx.status := "completed";
                    WalletTx.reference_id := reference;
                    WalletTx.payment_method := channel;
                    WalletTx.currency := Some "KES" |} ;;
          _ <- insert chama_notifications_table
                 {| Notification.user_id := Tx.user_id transaction;
                    Notification.chama_id := or_null (Tx.chama_id transaction);
                    Notification.type := "payment_success";
                    Notification.title := "💰 Payment Successful";
                    Notification.message :=
                      "KES " ++ toFixed2 netAmount ++ " added via "
                      ++ payment_source channel;
                    Notification.data :=
                      Notification.success_data netAmount channel reference paid_at |} ;;
          ret tt
      end
  end.

(** Lines 48-197: the branch for [charge.success]. *)
Definition on_charge_success (callbackData : CallbackData) (data : ChargeSuccess)
    : M unit :=
  let reference := cs_reference data in
  let channel := cs_channel data in
  let paid_at := cs_paid_at data in
  let amountPaid := amountPaid (cs_amount data) in
  let platformFee := platformFee amountPaid in
  let netAmount := netAmount amountPaid platformFee in
  '(transaction, txError) <-
    select_single mpesa_transactions_table (by_reference reference) ;;
  updateError <-
    update mpesa_transactions_table (by_reference reference)
      (mark_success channel reference paid_at callbackData now) ;;
  match transaction with
  | None => ret tt
  | Some transaction =>
      _ <- (if (Tx.purpose transaction =? "other")
               || (Tx.purpose transaction =? "wallet_topup")
            then credit_central_wallet transaction reference channel paid_at
                   platformFee netAmount
            else ret tt) ;;
      feeError <-
        rpc collect_platform_fee
          {| Fee.p_user_id := Tx.user_id transaction;
             Fee.p_fee_type := "transaction";
             Fee.p_amount := platformFee;
             Fee.p_source_transaction_id := Tx.metadata_transaction_id transaction;
             Fee.p_payment_reference := reference |} ;;
      ret tt
  end.

(** Lines 198-273: the branch for [charge.failed]. *)
Definition on_charge_failed (callbackData : CallbackData) (data : ChargeFailed)
    : M unit :=
  let reference := cf_reference data in
  let gateway_response := cf_gateway_response data in
  let channel := cf_channel data in
  let parsedMessage := parsedMessage gateway_response in
  let availableBalance := availableBalance parsedMessage in
  let userMessage := userMessage parsedMessage channel availableBalance in
  _ <- update mpesa_transactions_table (by_reference reference)
         (mark_failed userMessage callbackData availableBalance gateway_response now) ;;
  '(transaction, _) <-
    select_single mpesa_transactions_table (by_reference reference) ;;
  match transaction with
  | None => ret tt
  | Some transaction =>
      if Tx.user_id transaction =? "" then ret tt else
      _ <- insert chama_notifications_table
             {| Notification.user_id := Tx.user_id transaction;
                Notification.chama_id := or_null (Tx.chama_id transaction);
                Notification.type := "payment_failed";
                Notification.title := "❌ Payment Failed";
                Notification.message := userMessage;
                Notification.data :=
                  Notification.failure_data (Tx.amount transaction) channel
                    reference (JSON_number availableBalance) gateway_response |} ;;
      ret tt
  end.

Definition ok_response : Response :=
  {| status := 200; content := Text "OK"; headers := corsHeaders |}.

(** The body of the [try] block, lines 17-275. *)
Definition process (env : Env) (req : Request) : M Response :=
  match PAYSTACK_SECRET_KEY env with
  | None | Some EmptyString =>
      ret {| status := 500; content := Text "Configuration error"; headers := [] |}
  | Some paystackSecretKey =>
      let signature := x_paystack_signature req in
      let body := body req in
      let hash := hmac_sha512_hex paystackSecretKey body in
      if negb (same_signature hash signature) then
        ret {| status := 401; content := Text "Invalid signature"; headers := [] |}
      else
        match JSON_parse body with
        | None => throw (JsError "SyntaxError")
        | Some callbackData =>
            _ <- match callbackData with
                 | charge_success data => on_charge_success callbackData data
                 | charge_success_no_customer => throw (JsError "TypeError")
                 | charge_failed data => on_charge_failed callbackData data
                 | charge_failed_unreadable => throw (JsError "TypeError")
                 | other_event _ => ret tt
                 end ;;
            ret ok_response
        end
  end.

(** The function given to [serve]. *)
Definition serve (env : Env) (req : Request) : World -> Response * World :=
  if method req =? "OPTIONS" then
    fun w => ({| status := 200; content := Null; headers := corsHeaders |}, w)
  else
    try_catch (process env req) (fun _ => ok_response).

End Handler.

End PaystackCallback.

(** ** The manual-credit-payment function *)

Module ManualCredit.
Import Js Db Db.Notations Http.
Local Open Scope db_scope.

Definition corsHeaders : list (string * string) :=
  [("Access-Control-Allow-Origin", "*");
   ("Access-Control-Allow-Headers",
    "authorization, x-client-info, apikey, content-type")].

Definition jsonHeaders : list (string * string) :=
  corsHeaders ++ [("Content-Type", "application/json")].

Definition platformFee (amount : number) : number := (amount * 0.025)%float.
Definition netAmount (amount platformFee : number) : number :=
  (amount - platformFee)%float.

Definition by_reference (reference : string) (t : Tx.t) : bool :=
  Tx.checkout_request_id t =? reference.

Definition by_user (user_id : string) (w : Wallet.t) : bool :=
  Wallet.user_id w =? user_id.

Definition set_balance (balance : number) (now : string) (w : Wallet.t) : Wallet.t :=
  {| Wallet.user_id := Wallet.user_id w;
     Wallet.balance := balance;
     Wallet.updated_at := Some now |}.

(** The object given to the final [.update]. *)
Definition mark_success (reference now : string) (t : Tx.t) : Tx.t :=
  {| Tx.checkout_request_id := Tx.checkout_request_id t;
     Tx.user_id := Tx.user_id t;
     Tx.chama_id := Tx.chama_id t;
     Tx.purpose := Tx.purpose t;
     Tx.metadata_transaction_id := Tx.metadata_transaction_id t;
     Tx.amount := Tx.amount t;
     Tx.status := "success";
     Tx.transaction_type := Tx.transaction_type t;
     Tx.created_at := Tx.created_at t;
     Tx.result_code := Some 0%Z;
     Tx.result_desc := Some "Payment verified and credited manually";
     Tx.mpesa_receipt_number := Some reference;
     Tx.transaction_date := Some now;
     Tx.callback_data := Tx.callback_data t;
     Tx.updated_at := Some now |}.

(** [error instanceof Error ? error.message : 'Unknown error occurred'] *)
Definition errorMessage (error : Thrown) : string :=
  match error with
  | JsError message => message
  | PgThrown e => if is_Error e then Db.message e else "Unknown error occurred"
  end.

Section Handler.

(** [await req.json()] destructured to its [reference]; [None] when it
    throws. *)
Variable req_json : string -> option string.
(** The message of the error that it throws then: the parser's own, or
    that of the destructuring. *)
Variable req_json_error : string -> string.
(** [new Date().toISOString()] *)
Variable now : string.

(** The body of the [try] block, lines 14-115. *)
Definition process (req : Request) : M Response :=
  match req_json (body req) with
  | None => throw (JsError (req_json_error (body req)))
  | Some reference =>
      '(transaction, txError) <-
        select_single mpesa_transactions_table (by_reference reference) ;;
      match txError, transaction with
      | None, Some transaction =>
          let amount := Tx.amount transaction in
          let platformFee := platformFee amount in
          let netAmount := netAmount amount platformFee in
          '(wallet, walletFetchError) <-
            select_single user_central_wallets_table
              (by_user (Tx.user_id transaction)) ;;
          wallet <-
            match wallet with
            | Some w => ret w
            | None =>
                '(newWallet, createWalletError) <-
                  insert_select_single user_central_wallets_table
                    {| Wallet.user_id := Tx.user_id transaction;
                       Wallet.balance := 0%float;
                       Wallet.updated_at := None |} ;;
                match createWalletError, newWallet with
                | Some e, _ => throw (PgThrown e)
                | None, Some w => ret w
                | None, None => throw (JsError "TypeError")
                end
            end ;;
          walletUpdateError <-
            update user_central_wallets_table (by_user (Tx.user_id transaction))
              (set_balance (Wallet.balance wallet + netAmount)%float now) ;;
          match walletUpdateError with
          | Some e => throw (PgThrown e)
          | None =>
              _ <- insert wallet_transactions_table
                     {| WalletTx.user_id := Tx.user_id transaction;
                        WalletTx.type := "deposit";
                        WalletTx.amount := netAmount;
                        WalletTx.description :=
                          "Wallet top-up via Paystack (Fee: KES "
                          ++ toFixed2 platformFee ++ ")";
                        WalletTx.status := "completed";
                        WalletTx.reference_id := reference;
                        WalletTx.payment_method := "paystack";
                        WalletTx.currency := None |} ;;
              _ <- update mpesa_transactions_table (by_reference reference)
                     (mark_success reference now) ;;
              ret {| status := 200;
                     content := Credited true "Payment credited successfully"
                                  netAmount (Wallet.balance wallet + netAmount)%float;
                     headers := jsonHeaders |}
          end
      | _, _ => throw (JsError "Transaction not found")
      end
  end.

(** The function given to [serve]. *)
Definition serve (req : Request) : World -> Response * World :=
  if method req =? "OPTIONS" then
    fun w => ({| status := 200; content := Null; headers := corsHeaders |}, w)
  else
    try_catch (process req)
      (fun error =>
         {| status := 400;
            content := Failure false (errorMessage error);
            headers := jsonHeaders |}).

End Handler.

End ManualCredit.

(** ** src/hooks/useStuckPaymentReconciliation.tsx *)

Module Reconciler.
Import Js Db Db.Notations.
Local Open Scope db_scope.

Record User := { id : string }.

(** The filter of the query: the four conditions chained on the builder.
    [fiveMinutesAgo] and [created_at] are in milliseconds since the epoch. *)
Definition is_stuck (user : User) (fiveMinutesAgo : Z) (t : Tx.t) : bool :=
  (Tx.user_id t =? id user)
  && (Tx.transaction_type t =? "paystack")
  && (Tx.status t =? "pending")
  && (Tx.created_at t <? fiveMinutesAgo)%Z.

(** [queryFn]; [Date_now] is [Date.now()]. *)
Definition queryFn (user : option User) (Date_now : Z) : M (list Tx.t) :=
  match user with
  | None => ret []
  | Some user =>
      let fiveMinutesAgo := (Date_now - 5 * 60 * 1000)%Z in
      '(data, error) <-
        select mpesa_transactions_table (is_stuck user fiveMinutesAgo) ;;
      match error with
      | Some e => throw (PgThrown e)
      | None =>
          ret match data with
              | Some rows => rows
              | None => []
              end
      end
  end.

End Reconciler.

(** * Properties *)

Import Js Paystack Db Http.

(** ** Fixtures used to run the handlers on concrete inputs *)

Module Sample.

(** A stand-in for the keyed hash: any function of key and body will do
    where a statement holds for every such function. *)
Definition hmac (key body : string) : string := key ++ ":" ++ body.

Definition success_event : CallbackData :=
  charge_success
    {| cs_reference := "ref_1";
       cs_amount := 10000%float;
       cs_customer := {| email := "member@example.org" |};
       cs_channel := "mobile_money";
       cs_paid_at := "2024-05-01T10:00:00.000Z" |}.

Definition failed_event (gateway_response : string) : CallbackData :=
  charge_failed
    {| cf_reference := "ref_1";
       cf_gateway_response := Some gateway_response;
       cf_channel := "mobile_money";
       cf_customer := Some {| email := "member@example.org" |} |}.

(** A payment of KES 1.53. *)
Definition small_event : CallbackData :=
  charge_success
    {| cs_reference := "ref_1";
       cs_amount := 153%float;
       cs_customer := {| email := "member@example.org" |};
       cs_channel := "mobile_money";
       cs_paid_at := "2024-05-01T10:00:00.000Z" |}.

(** U+00A0, the no-break space. *)
Definition nbsp : string := String "194" (String "160" "").

Definition parse (body : string) : option CallbackData :=
  if body =? "success" then Some success_event
  else if body =? "airtel" then
    Some (failed_event "Your Airtel Money balance is Ksh 35.00")
  else if body =? "mpesa" then
    Some (failed_event "Your M-Pesa balance is KES 35.00")
  else if body =? "small" then Some small_event
  else if body =? "no customer" then Some charge_success_no_customer
  else if body =? "dot" then
    Some (failed_event "Your Airtel Money balance is Ksh .")
  else if body =? "no-break space" then
    Some (failed_event ("Your Airtel Money balance is Ksh" ++ nbsp ++ "35.00"))
  else None.

(** The message of the parser for a body that is no JSON text. *)
Definition parse_error (body : string) : string :=
  "Unexpected end of JSON input".

Definition now : string := "2024-05-01T10:00:05.000Z".

Definition env : PaystackCallback.Env :=
  {| PaystackCallback.PAYSTACK_SECRET_KEY := Some "sk_test" |}.

Definition signed (body : string) : Request :=
  {| method := "POST";
     x_paystack_signature := Some (hmac "sk_test" body);
     body := body |}.

Definition pending (purpose : string) (amount : number) : Tx.t :=
  Tx.mk "ref_1" "user_1" None purpose None amount "pending" "paystack"
    1714557300000 None None None None None None.

Definition world (purpose : string) (amount balance : number)
    (faults : list (option PgError)) : World :=
  {| db := {| mpesa_transactions := [pending purpose amount];
              user_central_wallets := [Wallet.mk "user_1" balance None];
              wallet_transactions := [];
              chama_notifications := [];
              platform_fees := [] |};
     faults := faults;
     calls := [] |}.

(** A transaction that a [charge.success] event has settled. *)
Definition settled (purpose : string) (amount : number) : Tx.t :=
  PaystackCallback.mark_success "mobile_money" "ref_1" "2024-05-01T10:00:00.000Z"
    success_event now (pending purpose amount).

Definition settled_world (purpose : string) (amount balance : number)
    (faults : list (option PgError)) : World :=
  {| db := {| mpesa_transactions := [settled purpose amount];
              user_central_wallets := [Wallet.mk "user_1" balance None];
              wallet_transactions := [];
              chama_notifications := [];
              platform_fees := [] |};
     faults := faults;
     calls := [] |}.

(** The sample world with a second member and the wallet of that member. *)
Definition two_members (purpose : string) (amount balance : number)
    (faults : list (option PgError)) : World :=
  {| db := {| mpesa_transactions :=
                [pending purpose amount;
                 Tx.mk "ref_2" "user_2" None purpose None amount "pending" "paystack"
                   1714557300000 None None None None None None];
              user_central_wallets :=
                [Wallet.mk "user_1" balance None; Wallet.mk "user_2" 70%float None];
              wallet_transactions := [];
              chama_notifications := [];
              platform_fees := [] |};
     faults := faults;
     calls := [] |}.

Definition outage : PgError :=
  {| code := "503"; message := "service unavailable"; is_Error := false |}.

End Sample.

(** ** Auxiliary definitions of the statements on rounding *)

Module Rounding.
Import PaystackCallback.
Local Open Scope float_scope.

(** The binary64 value of an amount of [A] minor units (exact below 2^53). *)
Definition minor_units (A : Z) : number := of_uint63 (Uint63.of_Z A).

(** [x] is [y] or one of its two neighbours among the binary64 values. *)
Definition within_one_ulp (x y : number) : bool :=
  (x =? y) || (x =? next_up y) || (x =? next_down y).

(** The two identities on fee and net amount, up to one unit in the last
    place, for the amount paid that the handler derives from [amount]. *)
Definition fee_check (amount : number) : bool :=
  let a := amountPaid amount in
  let fee := platformFee a in
  let net := netAmount a fee in
  within_one_ulp (fee + net) a && within_one_ulp net (a * 0.975).

(** [fee_check] on the [2^k] integer amounts from [lo] on. *)
Fixpoint check_range (k : nat) (lo : Z) : bool :=
  match k with
  | O => fee_check (minor_units lo)
  | S k' => check_range k' lo && check_range k' (lo + 2 ^ Z.of_nat k')
  end.

End Rounding.

(** ** Vocabulary of the statements on crediting *)

Module Ledger.

(** The transaction that the lookup by reference hands to a handler in the
    world [w]: the [data] of the [.single()] query. *)
Definition looked_up (reference : string) (w : World) : option Tx.t :=
  match fst (select_single mpesa_transactions_table
               (PaystackCallback.by_reference reference) w) with
  | Returned (Some transaction, _) => Some transaction
  | _ => None
  end.

(** The wallet table after a credit of [net] to [user_id] in which every
    call succeeds: the balance read from the user's wallet when there is
    exactly one, from a wallet created with balance 0 otherwise, plus
    [net], written to every wallet of the user. *)
Definition credit_wallets (now user_id : string) (net : number)
    (wallets : list Wallet.t) : list Wallet.t :=
  match filter (PaystackCallback.by_user user_id) wallets with
  | [wallet] =>
      map (fun r => if PaystackCallback.by_user user_id r
                    then PaystackCallback.set_balance
                           (Wallet.balance wallet + net)%float now r
                    else r) wallets
  | _ =>
      map (fun r => if PaystackCallback.by_user user_id r
                    then PaystackCallback.set_balance (0 + net)%float now r
                    else r)
        (wallets ++ [ {| Wallet.user_id := user_id;
                         Wallet.balance := 0%float;
                         Wallet.updated_at := None |} ])
  end.

(** The ledger row and the notification written by the callback handler. *)
Definition deposit_row (transaction : Tx.t) (data : ChargeSuccess) : WalletTx.t :=
  let a := PaystackCallback.amountPaid (cs_amount data) in
  let fee := PaystackCallback.platformFee a in
  {| WalletTx.user_id := Tx.user_id transaction;
     WalletTx.type := "deposit";
     WalletTx.amount := PaystackCallback.netAmount a fee;
     WalletTx.description :=
       PaystackCallback.deposit_source (cs_channel data) ++ " deposit (Fee: KES "
       ++ toFixed2 fee ++ ")";
     WalletTx.status := "completed";
     WalletTx.reference_id := cs_reference data;
     WalletTx.payment_method := cs_channel data;
     WalletTx.currency := Some "KES" |}.

Definition success_notification (transaction : Tx.t) (data : ChargeSuccess)
    : Notification.t :=
  let a := PaystackCallback.amountPaid (cs_amount data) in
  let net := PaystackCallback.netAmount a (PaystackCallback.platformFee a) in
  {| Notification.user_id := Tx.user_id transaction;
     Notification.chama_id := PaystackCallback.or_null (Tx.chama_id transaction);
     Notification.type := "payment_success";
     Notification.title := "💰 Payment Successful";
     Notification.message :=
       "KES " ++ toFixed2 net ++ " added via "
       ++ PaystackCallback.payment_source (cs_channel data);
     Notification.data :=
       Notification.success_data net (cs_channel data) (cs_reference data)
         (cs_paid_at data) |}.

(** The ledger row written by the manual credit function. *)
Definition manual_row (transaction : Tx.t) (reference : string) : WalletTx.t :=
  let fee := ManualCredit.platformFee (Tx.amount transaction) in
  {| WalletTx.user_id := Tx.user_id transaction;
     WalletTx.type := "deposit";
     WalletTx.amount := ManualCredit.netAmount (Tx.amount transaction) fee;
     WalletTx.description :=
       "Wallet top-up via Paystack (Fee: KES " ++ toFixed2 fee ++ ")";
     WalletTx.status := "completed";
     WalletTx.reference_id := reference;
     WalletTx.payment_method := "paystack";
     WalletTx.currency := None |}.

End Ledger.

(** ** Tactics that run a handler: unfold the client, split on what it reads *)

Ltac unfold_client :=
  unfold select_single, Db.select, update, insert_select_single, insert, rpc,
    bind, ret, throw, request, read_db, modify_db in *.

Ltac split_step :=
  match goal with
  | |- context [match ?x with _ => _ end] =>
      lazymatch x with
      | context [match _ with _ => _ end] => fail
      | _ => destruct x eqn:?; cbn
      end
  end.

Ltac split_cases := repeat split_step.


(** ** Vocabulary of the statements on what the handlers keep *)

Module History.

(** What identifies a transaction and is set when the payment is started. *)
Definition tx_identity (t : Tx.t) :=
  (Tx.checkout_request_id t, Tx.user_id t, Tx.chama_id t, Tx.purpose t,
   Tx.metadata_transaction_id t, Tx.amount t, Tx.transaction_type t, Tx.created_at t).

(** [d'] continues [d]: the same transactions in the same order, each with
    its identity; wallet transactions, notifications and collected fees
    with rows added at the end only; wallets with their owners, and new
    ones at the end only. *)
Definition continues (d d' : DB) : Prop :=
  map tx_identity (mpesa_transactions d') = map tx_identity (mpesa_transactions d)
  /\ (exists rows, wallet_transactions d' = (wallet_transactions d ++ rows)%list)
  /\ (exists rows, chama_notifications d' = (chama_notifications d ++ rows)%list)
  /\ (exists rows, platform_fees d' = (platform_fees d ++ rows)%list)
  /\ (exists owners,
        map Wallet.user_id (user_central_wallets d')
        = (map Wallet.user_id (user_central_wallets d) ++ owners)%list).

(** A computation of the client keeps the history. *)
Definition keeps_history {A} (m : M A) : Prop :=
  forall w, continues (db w) (db (snd (m w))).

(** The arguments with which the callback handler calls
    [collect_platform_fee] for the transaction found. *)
Definition fee_record (transaction : Tx.t) (data : ChargeSuccess) : Fee.t :=
  {| Fee.p_user_id := Tx.user_id transaction;
     Fee.p_fee_type := "transaction";
     Fee.p_amount :=
       PaystackCallback.platformFee (PaystackCallback.amountPaid (cs_amount data));
     Fee.p_source_transaction_id := Tx.metadata_transaction_id transaction;
     Fee.p_payment_reference := cs_reference data |}.

End History.

(** ** Vocabulary of the statements on the captured balance text *)

Module Text.

(** Every character of [s] satisfies [p]. *)
Fixpoint all_chars (p : ascii -> bool) (s : string) : bool :=
  match s with
  | String c s' => p c && all_chars p s'
  | EmptyString => true
  end.

(** Some character of [s] satisfies [p]. *)
Fixpoint some_char (p : ascii -> bool) (s : string) : bool :=
  match s with
  | String c s' => p c || some_char p s'
  | EmptyString => false
  end.

End Text.
(** ** Preflight requests *)

(** C10. An OPTIONS request is answered at once by both functions with the
    CORS headers and no body, whatever its signature header and body are,
    whatever the secret is, and whatever the hash and the parsers would
    compute: the world is left as it was, so no database call is made and
    no row is changed. *)
Theorem options_answered_without_effect :
  forall hmac_sha512_hex JSON_parse req_json req_json_error now env signature body w,
    let req := {| method := "OPTIONS";
                  x_paystack_signature := signature;
                  body := body |} in
    PaystackCallback.serve hmac_sha512_hex JSON_parse now env req w
    = ({| status := 200; content := Null;
          headers := PaystackCallback.corsHeaders |}, w)
    /\ ManualCredit.serve req_json req_json_error now req w
       = ({| status := 200; content := Null;
             headers := ManualCredit.corsHeaders |}, w).
Proof.
  intros. split; reflexivity.
Qed.

(** ** Status codes of the callback handler *)

Lemma same_signature_true (hash : string) (signature : option string) :
  PaystackCallback.same_signature hash signature = true <-> signature = Some hash.
Proof.
  unfold PaystackCallback.same_signature. destruct signature as [s|].
  - rewrite String.eqb_eq. split; [intros -> | intros [= ->]]; reflexivity.
  - split; discriminate.
Qed.

Lemma same_signature_false (hash : string) (signature : option string) :
  signature <> Some hash -> PaystackCallback.same_signature hash signature = false.
Proof.
  intros H. destruct (PaystackCallback.same_signature hash signature) eqn:E; auto.
  apply same_signature_true in E. contradiction.
Qed.

Lemma not_options (req : Request) :
  method req <> "OPTIONS" -> (method req =? "OPTIONS") = false.
Proof. intros H. now apply String.eqb_neq. Qed.

(** What [process] hands back when the signature is right: the OK response
    or an exception, never another response. *)
Lemma process_verified hmac_sha512_hex JSON_parse now env req key w :
  PaystackCallback.PAYSTACK_SECRET_KEY env = Some key -> key <> "" ->
  x_paystack_signature req = Some (hmac_sha512_hex key (body req)) ->
  forall r w',
    PaystackCallback.process hmac_sha512_hex JSON_parse now env req w = (Returned r, w') ->
    r = PaystackCallback.ok_response.
Proof.
  intros Hk Hne Hs r w'. unfold PaystackCallback.process. rewrite Hk.
  destruct key as [|c key]; [contradiction|].
  assert (Hsig : PaystackCallback.same_signature
                   (hmac_sha512_hex (String c key) (body req))
                   (x_paystack_signature req) = true)
    by now apply same_signature_true.
  rewrite Hsig. cbn [negb].
  destruct (JSON_parse (body req)) as [cb|]; [|discriminate].
  unfold bind.
  destruct cb as [d|d|e| |].
  - destruct (PaystackCallback.on_charge_success now (charge_success d) d w) as [[[]|] ?];
      unfold ret; congruence.
  - destruct (PaystackCallback.on_charge_failed now (charge_failed d) d w) as [[[]|] ?];
      unfold ret; congruence.
  - unfold ret; congruence.
  - unfold throw; discriminate.
  - unfold throw; discriminate.
Qed.

(** C2. For a request that is not OPTIONS: no secret (absent or empty)
    gives 500; a configured secret and a signature header that is not the
    hash of the body give 401 and leave the world untouched (no call, no
    row changed); a right signature gives 200 with body OK, also when the
    body does not parse or anything later throws. *)
Theorem callback_status_codes :
  forall hmac_sha512_hex JSON_parse now env req w,
    method req <> "OPTIONS" ->
    let '(resp, w') := PaystackCallback.serve hmac_sha512_hex JSON_parse now env req w in
    (PaystackCallback.PAYSTACK_SECRET_KEY env = None
     \/ PaystackCallback.PAYSTACK_SECRET_KEY env = Some "" ->
     status resp = 500%Z /\ w' = w)
    /\ (forall key,
          PaystackCallback.PAYSTACK_SECRET_KEY env = Some key -> key <> "" ->
          x_paystack_signature req <> Some (hmac_sha512_hex key (body req)) ->
          status resp = 401%Z /\ w' = w)
    /\ (forall key,
          PaystackCallback.PAYSTACK_SECRET_KEY env = Some key -> key <> "" ->
          x_paystack_signature req = Some (hmac_sha512_hex key (body req)) ->
          status resp = 200%Z /\ content resp = Text "OK").
Proof.
  intros hm jp now env req w Hm.
  destruct (PaystackCallback.serve hm jp now env req w) as [resp w'] eqn:E.
  unfold PaystackCallback.serve in E. rewrite (not_options _ Hm) in E.
  unfold try_catch in E.
  repeat split.
  - destruct H as [H|H]; unfold PaystackCallback.process in E; rewrite H in E;
      unfold ret in E; injection E as <- <-; reflexivity.
  - destruct H as [H|H]; unfold PaystackCallback.process in E; rewrite H in E;
      unfold ret in E; injection E as <- <-; reflexivity.
  - unfold PaystackCallback.process in E. rewrite H in E.
    destruct key; [contradiction|].
    rewrite (same_signature_false _ _ H1) in E. cbn [negb] in E.
    unfold ret in E. injection E as <- <-. reflexivity.
  - unfold PaystackCallback.process in E. rewrite H in E.
    destruct key; [contradiction|].
    rewrite (same_signature_false _ _ H1) in E. cbn [negb] in E.
    unfold ret in E. injection E as <- <-. reflexivity.
  - destruct (PaystackCallback.process hm jp now env req w) as [[r|e] w1] eqn:P.
    + apply (process_verified _ _ _ _ _ _ _ H H0 H1) in P. subst r.
      injection E as <- <-. reflexivity.
    + injection E as <- <-. reflexivity.
  - destruct (PaystackCallback.process hm jp now env req w) as [[r|e] w1] eqn:P.
    + apply (process_verified _ _ _ _ _ _ _ H H0 H1) in P. subst r.
      injection E as <- <-. reflexivity.
    + injection E as <- <-. reflexivity.
Qed.

(** A request signed with another key: 401, and the world is untouched. *)
Lemma callback_status_codes_witness :
  let req := {| method := "POST";
                x_paystack_signature := Some (Sample.hmac "sk_other" "success");
                body := "success" |} in
  let w := Sample.world "wallet_topup" 100%float 50%float [] in
  let '(resp, w') :=
    PaystackCallback.serve Sample.hmac Sample.parse Sample.now Sample.env req w in
  status resp = 401%Z /\ w' = w.
Proof.
  intros req w.
  pose proof (callback_status_codes Sample.hmac Sample.parse Sample.now Sample.env req w
                ltac:(discriminate)) as H.
  destruct (PaystackCallback.serve Sample.hmac Sample.parse Sample.now Sample.env req w)
    as [resp w'].
  destruct H as (_ & H & _).
  apply (H "sk_test" eq_refl ltac:(discriminate) ltac:(cbn; discriminate)).
Defined.

(** ** The stuck-payment query *)

Section StuckPayments.
Import Reconciler.

Lemma is_stuck_spec (user : User) (fiveMinutesAgo : Z) (t : Tx.t) :
  is_stuck user fiveMinutesAgo t = true <->
  Tx.user_id t = id user /\ Tx.transaction_type t = "paystack"
  /\ Tx.status t = "pending" /\ (Tx.created_at t < fiveMinutesAgo)%Z.
Proof.
  unfold is_stuck. rewrite !andb_true_iff, !String.eqb_eq, Z.ltb_lt. tauto.
Qed.

(** C7. When the service answers the query, a poll of an authenticated
    user returns a transaction exactly when it is a row of the table owned
    by that user, of type paystack, of status pending, and created strictly
    before five minutes before the time of the query; a transaction created
    four minutes before it is not returned.  The query changes no row. *)
Theorem stuck_payments_query :
  forall user Date_now w,
    hd None (faults w) = None ->
    exists stuckPayments w',
      queryFn (Some user) Date_now w = (Returned stuckPayments, w')
      /\ db w' = db w
      /\ (forall t,
            In t stuckPayments <->
            In t (mpesa_transactions (db w))
            /\ Tx.user_id t = id user
            /\ Tx.transaction_type t = "paystack"
            /\ Tx.status t = "pending"
            /\ (Tx.created_at t < Date_now - 5 * 60 * 1000)%Z)
      /\ (forall t,
            Tx.created_at t = (Date_now - 4 * 60 * 1000)%Z ->
            ~ In t stuckPayments).
Proof.
  intros user Date_now w Hf.
  unfold queryFn, select, bind, request, read_db, ret. rewrite Hf. cbn.
  eexists. eexists. split; [reflexivity|]. split; [reflexivity|]. split.
  - intros t. rewrite filter_In, is_stuck_spec. tauto.
  - intros t Ht Hin. apply filter_In in Hin as [_ Hin].
    apply is_stuck_spec in Hin. lia.
Qed.

Lemma stuck_payments_query_witness :
  exists stuckPayments w',
    queryFn (Some {| id := "user_1" |}) 1714557700000
      (Sample.world "wallet_topup" 100%float 50%float []) = (Returned stuckPayments, w')
    /\ In (Sample.pending "wallet_topup" 100%float) stuckPayments.
Proof.
  destruct (stuck_payments_query {| id := "user_1" |} 1714557700000
              (Sample.world "wallet_topup" 100%float 50%float []) eq_refl)
    as (rows & w' & E & _ & H & _).
  exists rows, w'. split; [exact E|].
  apply H. cbn. repeat split; auto.
Defined.

End StuckPayments.

(** ** The balance heuristic of the failure branch *)

Section BalanceHeuristic.
Import PaystackCallback.

Lemma prefix_app (n b : string) : prefix n (n ++ b) = true.
Proof.
  induction n as [|c n IH]; cbn.
  - now destruct b.
  - destruct (ascii_dec c c) as [_|Hc]; [exact IH | contradiction].
Qed.

Lemma append_assoc (a b c : string) : (a ++ b) ++ c = a ++ (b ++ c).
Proof. induction a as [|x a IH]; cbn; [reflexivity | now rewrite IH]. Qed.

Lemma includes_prefix (n hay : string) : prefix n hay = true -> includes n hay = true.
Proof. intros H. destruct hay; cbn [includes]; rewrite H; reflexivity. Qed.

Lemma includes_app (n a b : string) : includes n (a ++ n ++ b) = true.
Proof.
  induction a as [|c a IH].
  - cbn [append]. apply includes_prefix, prefix_app.
  - cbn [append includes]. rewrite IH. apply orb_true_r.
Qed.

(** Whenever the regular expression matches, the number parsed from its
    group is kept as the available balance and the message shown to the
    user prints it with two decimals after "KES ". *)
Lemma matched_balance_is_reported (message channel g : string) :
  balanceMatch message = Some (Some g) -> g <> "" ->
  availableBalance message = Some (parseFloat (remove_commas g))
  /\ includes ("KES " ++ toFixed2 (parseFloat (remove_commas g)))
       (userMessage message channel (availableBalance message)) = true.
Proof.
  intros Hm Hg. unfold availableBalance. rewrite Hm.
  destruct g as [|c g]; [contradiction|]. split; [reflexivity|].
  unfold userMessage.
  set (b := toFixed2 _).
  set (head := "💳 Payment failed: Insufficient "
               ++ (if channel =? "mobile_money" then "mobile money" else "account")
               ++ " balance" ++ String "010" "💼 Available balance: ").
  set (tail := String "010" "🔁 Please top up your account or try a smaller amount.").
  replace (_ ++ _ ++ _ ++ _ ++ b ++ tail) with (head ++ ("KES " ++ b) ++ tail).
  2:{ unfold head. rewrite !append_assoc. reflexivity. }
  apply includes_app.
Qed.

(** The example of the specification: the Airtel Money text yields the
    balance 35 and a message that contains "KES 35.00". *)
Lemma airtel_balance_example :
  let message := parsedMessage (Some "Your Airtel Money balance is Ksh 35.00") in
  balanceMatch message = Some (Some "35.00")
  /\ availableBalance message = Some 35%float
  /\ includes "KES 35.00"
       (userMessage message "mobile_money" (availableBalance message)) = true.
Proof. repeat split. Qed.

(** White space is that of [\s]: a no-break space after "Ksh" is matched
    by the third alternative, and the balance 35 is extracted. *)
Lemma no_break_space_example :
  let message :=
    parsedMessage (Some ("Your Airtel Money balance is Ksh" ++ Sample.nbsp ++ "35.00")) in
  balanceMatch message = Some (Some "35.00")
  /\ availableBalance message = Some 35%float
  /\ JSON_number (availableBalance message) = Some 35%float.
Proof. repeat split. Qed.

(** A captured text without a digit: the balance is NaN for the message to
    the user, and null in what is stored. *)
Lemma balance_without_digit_example :
  let message := parsedMessage (Some "Your Airtel Money balance is Ksh .") in
  balanceMatch message = Some (Some ".")
  /\ availableBalance message = Some nan
  /\ JSON_number (availableBalance message) = None
  /\ includes "KES NaN"
       (userMessage message "mobile_money" (availableBalance message)) = true.
Proof. repeat split. Qed.

(** C8, at a gateway text of the stated form with the currency written KES:
    the regular expression allows white space after "Ksh" only, so nothing
    matches, no balance is extracted, and the user gets the generic mobile
    money message around the gateway text instead of the insufficient
    balance message; the handler stores and notifies a null balance. *)
Theorem kes_balance_not_extracted :
  let gateway_response := "Your M-Pesa balance is KES 35.00" in
  let message := parsedMessage (Some gateway_response) in
  balanceMatch message = None
  /\ availableBalance message = None
  /\ includes "Available balance"
       (userMessage message "mobile_money" (availableBalance message)) = false
  /\ map Notification.data
       (chama_notifications
          (db (snd (serve Sample.hmac Sample.parse Sample.now Sample.env
                      (Sample.signed "mpesa")
                      (Sample.world "wallet_topup" 100%float 50%float [])))))
     = [Notification.failure_data 100%float "mobile_money" "ref_1" None
          (Some gateway_response)].
Proof. repeat split. Qed.

End BalanceHeuristic.

(** ** Running the handlers: frame lemmas *)

Lemma filter_update {R} (p : R -> bool) (f : R -> R) (l : list R) :
  (forall r, p (f r) = p r) ->
  filter p (map (fun r => if p r then f r else r) l) = map f (filter p l).
Proof.
  intros Hp. induction l as [|r l IH]; cbn; [reflexivity|].
  destruct (p r) eqn:E; cbn.
  - rewrite Hp, E, IH. reflexivity.
  - rewrite E, IH. reflexivity.
Qed.

(** Crediting the central wallet never touches [mpesa_transactions], and
    only adds to the trace of calls. *)
Lemma credit_keeps_transactions now transaction reference channel paid_at fee net w :
  let w' := snd (PaystackCallback.credit_central_wallet now transaction reference
                   channel paid_at fee net w) in
  mpesa_transactions (db w') = mpesa_transactions (db w)
  /\ exists rest, calls w' = (calls w ++ rest)%list.
Proof.
  unfold PaystackCallback.credit_central_wallet. unfold_client. cbn.
  split_cases; cbn; split; try reflexivity;
    rewrite <- ?app_assoc; eexists; reflexivity.
Qed.

(** A verified [charge.success] request runs the success branch and is
    answered OK. *)
Lemma serve_charge_success hmac_sha512_hex JSON_parse now env req key data w :
  method req <> "OPTIONS" ->
  PaystackCallback.PAYSTACK_SECRET_KEY env = Some key -> key <> "" ->
  x_paystack_signature req = Some (hmac_sha512_hex key (body req)) ->
  JSON_parse (body req) = Some (charge_success data) ->
  PaystackCallback.serve hmac_sha512_hex JSON_parse now env req w
  = (PaystackCallback.ok_response,
     snd (PaystackCallback.on_charge_success now (charge_success data) data w)).
Proof.
  intros Hm Hk Hne Hs Hp.
  unfold PaystackCallback.serve. rewrite (not_options _ Hm).
  unfold try_catch, PaystackCallback.process. rewrite Hk.
  destruct key as [|c key]; [contradiction|].
  rewrite (proj2 (same_signature_true _ _) Hs). cbn [negb]. rewrite Hp.
  unfold bind, ret.
  destruct (PaystackCallback.on_charge_success now (charge_success data) data w)
    as [[[]|e] w']; reflexivity.
Qed.

Lemma charge_success_update now callbackData data w :
  let reference := cs_reference data in
  let w' := snd (PaystackCallback.on_charge_success now callbackData data w) in
  (exists rest,
     calls w' = (calls w ++ [ {| target := "mpesa_transactions"; op := Select |};
                              {| target := "mpesa_transactions"; op := Update |} ]
                 ++ rest)%list)
  /\ (nth 1 (faults w) None = None ->
      mpesa_transactions (db w')
      = map (fun t => if PaystackCallback.by_reference reference t
                      then PaystackCallback.mark_success (cs_channel data) reference
                             (cs_paid_at data) callbackData now t
                      else t)
          (mpesa_transactions (db w))).
Proof.
  intros reference w'. subst w' reference.
  unfold PaystackCallback.on_charge_success, PaystackCallback.credit_central_wallet.
  unfold_client. unfold hd, tl.
  destruct (faults w) as [|f0 [|f1 fs]] eqn:Hf; cbn;
    split_cases;
    (split;
     [ eexists; repeat rewrite <- app_assoc; cbn; reflexivity
     | try (intros _; reflexivity); try discriminate ]).
Qed.

(** ** The status update of the success branch *)

(** A verified [charge.success] event without customer is answered OK
    before any call is made: reading the customer's email throws. *)
Lemma serve_no_customer hmac_sha512_hex JSON_parse now env req key w :
  method req <> "OPTIONS" ->
  PaystackCallback.PAYSTACK_SECRET_KEY env = Some key -> key <> "" ->
  x_paystack_signature req = Some (hmac_sha512_hex key (body req)) ->
  JSON_parse (body req) = Some charge_success_no_customer ->
  PaystackCallback.serve hmac_sha512_hex JSON_parse now env req w
  = (PaystackCallback.ok_response, w).
Proof.
  intros Hm Hk Hne Hs Hp.
  unfold PaystackCallback.serve. rewrite (not_options _ Hm).
  unfold try_catch, PaystackCallback.process. rewrite Hk.
  destruct key as [|c key]; [contradiction|].
  rewrite (proj2 (same_signature_true _ _) Hs). cbn [negb]. rewrite Hp.
  reflexivity.
Qed.

(** C6, as stated, fails on a verified [charge.success] event that carries
    no customer: the handler reads the customer's email before the lookup,
    which throws; the event is answered 200, no call is made and the
    transaction stays pending. *)
Lemma event_without_customer_is_not_recorded :
  let w := Sample.world "wallet_topup" 100%float 50%float [] in
  let '(resp, w') :=
    PaystackCallback.serve Sample.hmac Sample.parse Sample.now Sample.env
      (Sample.signed "no customer") w in
  Sample.parse "no customer" = Some charge_success_no_customer
  /\ status resp = 200%Z
  /\ calls w' = []
  /\ map Tx.status (mpesa_transactions (db w')) = ["pending"].
Proof. repeat split. Qed.

(** C6, amended.  For every verified [charge.success] event that carries a
    customer the handler, right after the lookup by reference and whatever
    that lookup answered (a row, no row, or an error), issues the update of
    the rows with that reference; when the service accepts the update, each
    of those rows gets status success, result code 0, the description
    "Payment via <channel> successful", the reference as receipt number,
    the payment time as transaction date, the callback payload and the time
    of the update, and keeps its other columns; the other rows are left as
    they are.  For an event without customer nothing is issued: the world
    is left as it was. *)
Theorem status_update_is_unconditional :
  forall hmac_sha512_hex JSON_parse now env req key w,
    method req <> "OPTIONS" ->
    PaystackCallback.PAYSTACK_SECRET_KEY env = Some key -> key <> "" ->
    x_paystack_signature req = Some (hmac_sha512_hex key (body req)) ->
    let w' := snd (PaystackCallback.serve hmac_sha512_hex JSON_parse now env req w) in
    (forall data,
       JSON_parse (body req) = Some (charge_success data) ->
       (exists rest,
          calls w' = (calls w ++ [ {| target := "mpesa_transactions"; op := Select |};
                                   {| target := "mpesa_transactions"; op := Update |} ]
                      ++ rest)%list)
       /\ (nth 1 (faults w) None = None ->
           mpesa_transactions (db w')
           = map (fun t =>
                    if Tx.checkout_request_id t =? cs_reference data
                    then {| Tx.checkout_request_id := Tx.checkout_request_id t;
                            Tx.user_id := Tx.user_id t;
                            Tx.chama_id := Tx.chama_id t;
                            Tx.purpose := Tx.purpose t;
                            Tx.metadata_transaction_id := Tx.metadata_transaction_id t;
                            Tx.amount := Tx.amount t;
                            Tx.status := "success";
                            Tx.transaction_type := Tx.transaction_type t;
                            Tx.created_at := Tx.created_at t;
                            Tx.result_code := Some 0%Z;
                            Tx.result_desc :=
                              Some ("Payment via " ++ cs_channel data ++ " successful");
                            Tx.mpesa_receipt_number := Some (cs_reference data);
                            Tx.transaction_date := Some (cs_paid_at data);
                            Tx.callback_data := Some (Envelope (charge_success data));
                            Tx.updated_at := Some now |}
                    else t)
               (mpesa_transactions (db w))))
    /\ (JSON_parse (body req) = Some charge_success_no_customer -> w' = w).
Proof.
  intros hm jp now env req key w Hm Hk Hne Hs w'. subst w'. split.
  - intros data Hp.
    rewrite (serve_charge_success _ _ _ _ _ _ _ _ Hm Hk Hne Hs Hp).
    exact (charge_success_update now (charge_success data) data w).
  - intros Hp. rewrite (serve_no_customer _ _ _ _ _ _ _ Hm Hk Hne Hs Hp). reflexivity.
Qed.

(** The lookup is answered with an error, and the row is updated all the
    same: every column that the update sets is read. *)
Lemma status_update_is_unconditional_witness :
  mpesa_transactions
    (db (snd (PaystackCallback.serve Sample.hmac Sample.parse Sample.now Sample.env
                (Sample.signed "success")
                (Sample.world "wallet_topup" 100%float 50%float
                   [Some Sample.outage]))))
  = [ Tx.mk "ref_1" "user_1" None "wallet_topup" None 100%float "success" "paystack"
        1714557300000 (Some 0%Z) (Some "Payment via mobile_money successful")
        (Some "ref_1") (Some "2024-05-01T10:00:00.000Z")
        (Some (Envelope Sample.success_event)) (Some Sample.now) ].
Proof.
  rewrite (proj2 (proj1 (status_update_is_unconditional Sample.hmac Sample.parse
                           Sample.now Sample.env (Sample.signed "success") "sk_test"
                           (Sample.world "wallet_topup" 100%float 50%float
                              [Some Sample.outage])
                           ltac:(discriminate) eq_refl ltac:(discriminate) eq_refl)
                   {| cs_reference := "ref_1";
                      cs_amount := 10000%float;
                      cs_customer := {| email := "member@example.org" |};
                      cs_channel := "mobile_money";
                      cs_paid_at := "2024-05-01T10:00:00.000Z" |}
                   eq_refl)
            eq_refl).
  reflexivity.
Defined.

(** ** Failures of the manual credit function *)

(** C9. For a request that is not OPTIONS, an answer 400 carries
    [{success: false, error}] and comes with no change to the transactions
    and no wallet transaction written.  With the transaction found, the
    answer is 400 whenever the wallet has to be created and the creation
    fails, and whenever the balance update fails, be the wallet fetched or
    just created: the ledger insert and the status update are reached only
    after the balance update has succeeded.  Calls are counted from 0 in
    the fault schedule: call 0 looks the transaction up, call 1 fetches the
    wallet, call 2 updates the balance of a fetched wallet or else creates
    the wallet, whose balance call 3 then updates. *)
Theorem manual_credit_failure :
  forall req_json req_json_error now req w,
    method req <> "OPTIONS" ->
    let '(resp, w') := ManualCredit.serve req_json req_json_error now req w in
    (status resp = 400%Z ->
     (exists error, content resp = Failure false error)
     /\ mpesa_transactions (db w') = mpesa_transactions (db w)
     /\ wallet_transactions (db w') = wallet_transactions (db w))
    /\ (forall reference tx,
          req_json (body req) = Some reference ->
          hd None (faults w) = None ->
          filter (ManualCredit.by_reference reference) (mpesa_transactions (db w)) = [tx] ->
          let fetched :=
            match nth 1 (faults w) None,
                  filter (ManualCredit.by_user (Tx.user_id tx))
                    (user_central_wallets (db w)) with
            | None, [wallet] => true
            | _, _ => false
            end in
          (fetched = true -> nth 2 (faults w) None <> None -> status resp = 400%Z)
          /\ (fetched = false -> nth 2 (faults w) None <> None -> status resp = 400%Z)
          /\ (fetched = false -> nth 3 (faults w) None <> None -> status resp = 400%Z)).
Proof.
  intros rj rje now req w Hm.
  unfold ManualCredit.serve. rewrite (not_options _ Hm).
  unfold try_catch, ManualCredit.process.
  destruct (rj (body req)) as [reference|] eqn:Hr.
  2:{ unfold throw. split.
      - intros _. split; [eexists; reflexivity | split; reflexivity].
      - intros ? ? [=]. }
  unfold_client. unfold hd, tl.
  destruct (faults w) as [|f0 [|f1 [|f2 [|f3 fs]]]] eqn:Hf; cbn;
    split_cases;
    (split;
     [ first [ discriminate
             | intros _; split; [eexists; reflexivity | split; reflexivity] ]
     | intros ? ? [= <-] Hh Hl; cbn in *; subst;
       try discriminate;
       rewrite ?Hl in *; try discriminate;
       match goal with H : [_] = [_] |- _ => injection H as -> | _ => idtac end;
       repeat match goal with H : filter _ _ = _ |- _ => rewrite H in * | _ => idtac end;
       repeat split; intros; try reflexivity; try discriminate; try congruence ]).
Qed.

(** The balance update is answered with an error: 400, the transaction
    stays pending and the ledger stays empty. *)
Lemma manual_credit_failure_witness :
  let req := {| method := "POST"; x_paystack_signature := None; body := "ref_1" |} in
  let w := Sample.world "wallet_topup" 100%float 50%float
             [None; None; Some Sample.outage] in
  let '(resp, w') := ManualCredit.serve Some Sample.parse_error Sample.now req w in
  status resp = 400%Z
  /\ mpesa_transactions (db w') = mpesa_transactions (db w)
  /\ wallet_transactions (db w') = wallet_transactions (db w).
Proof.
  intros req w.
  pose proof (manual_credit_failure Some Sample.parse_error Sample.now req w ltac:(discriminate)) as H.
  destruct (ManualCredit.serve Some Sample.parse_error Sample.now req w) as [resp w'].
  destruct H as [H400 Hfail].
  destruct (Hfail "ref_1" (Sample.pending "wallet_topup" 100%float) eq_refl eq_refl eq_refl)
    as (Hupdate & _).
  assert (Hs : status resp = 400%Z) by (apply Hupdate; [reflexivity | discriminate]).
  split; [exact Hs | exact (proj2 (H400 Hs))].
Defined.

(** ** What a credit writes *)

Section Crediting.
Import Ledger.

Lemma looked_up_spec (reference : string) (w : World) (tx : Tx.t) :
  looked_up reference w = Some tx <->
  hd None (faults w) = None
  /\ filter (PaystackCallback.by_reference reference) (mpesa_transactions (db w)) = [tx].
Proof.
  unfold looked_up. unfold_client. cbn.
  destruct (hd None (faults w)); cbn.
  - split; [discriminate | intros [[=] _]].
  - destruct (filter _ _) as [|t [|t' l]]; cbn.
    + split; [discriminate | intros [_ [=]]].
    + split; [intros [= ->]; split; reflexivity | intros [_ [= ->]]; reflexivity].
    + split; [discriminate | intros [_ [=]]].
Qed.

Lemma purpose_test (purpose : string) :
  (purpose =? "other") || (purpose =? "wallet_topup") = true <->
  purpose = "wallet_topup" \/ purpose = "other".
Proof. rewrite orb_true_iff, !String.eqb_eq. tauto. Qed.

(** The success branch when every call succeeds and the transaction is
    found with a purpose that is credited. *)
Lemma charge_success_credits now callbackData data w tx :
  faults w = [] ->
  filter (PaystackCallback.by_reference (cs_reference data))
    (mpesa_transactions (db w)) = [tx] ->
  Tx.purpose tx = "wallet_topup" \/ Tx.purpose tx = "other" ->
  let a := PaystackCallback.amountPaid (cs_amount data) in
  let fee := PaystackCallback.platformFee a in
  let net := PaystackCallback.netAmount a fee in
  let w' := snd (PaystackCallback.on_charge_success now callbackData data w) in
  faults w' = []
  /\ db w' =
     {| mpesa_transactions :=
          map (fun t => if PaystackCallback.by_reference (cs_reference data) t
                        then PaystackCallback.mark_success (cs_channel data)
                               (cs_reference data) (cs_paid_at data) callbackData now t
                        else t)
            (mpesa_transactions (db w));
        user_central_wallets :=
          credit_wallets now (Tx.user_id tx) net (user_central_wallets (db w));
        wallet_transactions := (wallet_transactions (db w) ++ [deposit_row tx data])%list;
        chama_notifications :=
          (chama_notifications (db w) ++ [success_notification tx data])%list;
        platform_fees :=
          (platform_fees (db w)
           ++ [ {| Fee.p_user_id := Tx.user_id tx;
                   Fee.p_fee_type := "transaction";
                   Fee.p_amount := fee;
                   Fee.p_source_transaction_id := Tx.metadata_transaction_id tx;
                   Fee.p_payment_reference := cs_reference data |} ])%list |}.
Proof.
  intros Hf Hl Hp a fee net w'. subst w'.
  apply purpose_test in Hp.
  unfold PaystackCallback.on_charge_success, PaystackCallback.credit_central_wallet.
  unfold_client. rewrite Hf. cbn. rewrite Hl. cbn. rewrite Hp. cbn.
  unfold credit_wallets.
  destruct (filter (PaystackCallback.by_user (Tx.user_id tx)) (user_central_wallets (db w)))
    as [|wl [|wl' l]] eqn:Hw; cbn; rewrite ?Hw; cbn; split; reflexivity.
Qed.

(** The success branch when the lookup hands over no transaction, or one
    whose purpose is not credited: wallets, ledger and notifications stay
    as they were, whatever the service answers. *)
Lemma charge_success_no_credit now callbackData data w :
  (forall tx, looked_up (cs_reference data) w = Some tx ->
              Tx.purpose tx <> "wallet_topup" /\ Tx.purpose tx <> "other") ->
  let w' := snd (PaystackCallback.on_charge_success now callbackData data w) in
  user_central_wallets (db w') = user_central_wallets (db w)
  /\ wallet_transactions (db w') = wallet_transactions (db w)
  /\ chama_notifications (db w') = chama_notifications (db w).
Proof.
  intros H w'. subst w'.
  assert (Hgate : forall tx, looked_up (cs_reference data) w = Some tx ->
                    (Tx.purpose tx =? "other") || (Tx.purpose tx =? "wallet_topup") = false).
  { intros tx Htx. destruct (H tx Htx) as [H1 H2].
    apply orb_false_iff. split; now apply String.eqb_neq. }
  clear H. revert Hgate. unfold looked_up.
  unfold PaystackCallback.on_charge_success. unfold_client. unfold hd, tl.
  destruct (faults w) as [|f0 [|f1 fs]] eqn:Hf; cbn;
    try destruct f0; cbn;
    try (destruct (filter _ _) as [|tx [|tx' l]] eqn:Hl; cbn);
    intros Hgate;
    try (rewrite (Hgate _ eq_refl); cbn);
    split_cases; repeat split; reflexivity.
Qed.

(** The manual credit function when every call succeeds and the
    transaction is found. *)
Lemma manual_credits req_json req_json_error now req reference w tx :
  method req <> "OPTIONS" ->
  req_json (body req) = Some reference ->
  faults w = [] ->
  filter (ManualCredit.by_reference reference) (mpesa_transactions (db w)) = [tx] ->
  let fee := ManualCredit.platformFee (Tx.amount tx) in
  let net := ManualCredit.netAmount (Tx.amount tx) fee in
  let '(resp, w') := ManualCredit.serve req_json req_json_error now req w in
  faults w' = []
  /\ db w' =
     {| mpesa_transactions :=
          map (fun t => if ManualCredit.by_reference reference t
                        then ManualCredit.mark_success reference now t else t)
            (mpesa_transactions (db w));
        user_central_wallets :=
          credit_wallets now (Tx.user_id tx) net (user_central_wallets (db w));
        wallet_transactions := (wallet_transactions (db w) ++ [manual_row tx reference])%list;
        chama_notifications := chama_notifications (db w);
        platform_fees := platform_fees (db w) |}
  /\ resp =
     {| status := 200;
        content :=
          Credited true "Payment credited successfully" net
            match filter (ManualCredit.by_user (Tx.user_id tx))
                    (user_central_wallets (db w)) with
            | [wallet] => (Wallet.balance wallet + net)%float
            | _ => (0 + net)%float
            end;
        headers := ManualCredit.jsonHeaders |}.
Proof.
  intros Hm Hr Hf Hl fee net.
  unfold ManualCredit.serve. rewrite (not_options _ Hm).
  unfold try_catch, ManualCredit.process. rewrite Hr.
  unfold_client. rewrite Hf. cbn. rewrite Hl. cbn.
  unfold credit_wallets.
  change (PaystackCallback.by_user (Tx.user_id tx))
    with (ManualCredit.by_user (Tx.user_id tx)).
  destruct (filter (ManualCredit.by_user (Tx.user_id tx)) (user_central_wallets (db w)))
    as [|wl [|wl' l]] eqn:Hw; cbn; rewrite ?Hw; cbn; repeat split; reflexivity.
Qed.

Lemma app_one_neq {A} (l : list A) (x : A) : (l ++ [x])%list <> l.
Proof.
  intros H. apply (f_equal (@List.length A)) in H.
  rewrite length_app in H. cbn in H. lia.
Qed.

End Crediting.

(** ** Which transactions the callback handler credits *)

Section CreditGate.
Import Ledger.

(** C5, as stated, fails on a transaction of purpose "other": it is not a
    wallet top-up, and yet the wallet goes from 50 to 147.5, the ledger
    gets its deposit row and the user a notification. *)
Lemma other_purpose_is_credited :
  let w := Sample.world "other" 100%float 50%float [] in
  let w' := snd (PaystackCallback.serve Sample.hmac Sample.parse Sample.now Sample.env
                   (Sample.signed "success") w) in
  looked_up "ref_1" w = Some (Sample.pending "other" 100%float)
  /\ Tx.purpose (Sample.pending "other" 100%float) <> "wallet_topup"
  /\ map Wallet.balance (user_central_wallets (db w')) = [147.5%float]
  /\ map WalletTx.amount (wallet_transactions (db w')) = [97.5%float]
  /\ map Notification.type (chama_notifications (db w')) = ["payment_success"].
Proof. repeat split. discriminate. Qed.

(** C5, amended.  For every verified [charge.success] event:
    when every call succeeds and the lookup by reference hands over a
    transaction whose purpose is "wallet_topup" or "other", the handler
    credits the wallet: the user's wallet is fetched, or created when
    missing, the net amount is added to its balance, a wallet transaction
    and a success notification are written;
    when the lookup hands over nothing, or a transaction of any other
    purpose, wallets, ledger and notifications are left as they were;
    so, when every call succeeds, a credit occurs if and only if the
    lookup succeeded and the purpose is one of these two. *)
Theorem wallet_credit_gate :
  forall hmac_sha512_hex JSON_parse now env req key data w,
    method req <> "OPTIONS" ->
    PaystackCallback.PAYSTACK_SECRET_KEY env = Some key -> key <> "" ->
    x_paystack_signature req = Some (hmac_sha512_hex key (body req)) ->
    JSON_parse (body req) = Some (charge_success data) ->
    let a := PaystackCallback.amountPaid (cs_amount data) in
    let net := PaystackCallback.netAmount a (PaystackCallback.platformFee a) in
    let w' := snd (PaystackCallback.serve hmac_sha512_hex JSON_parse now env req w) in
    (forall tx,
       faults w = [] ->
       looked_up (cs_reference data) w = Some tx ->
       Tx.purpose tx = "wallet_topup" \/ Tx.purpose tx = "other" ->
       user_central_wallets (db w')
       = credit_wallets now (Tx.user_id tx) net (user_central_wallets (db w))
       /\ wallet_transactions (db w')
          = (wallet_transactions (db w) ++ [deposit_row tx data])%list
       /\ chama_notifications (db w')
          = (chama_notifications (db w) ++ [success_notification tx data])%list)
    /\ ((forall tx,
           looked_up (cs_reference data) w = Some tx ->
           Tx.purpose tx <> "wallet_topup" /\ Tx.purpose tx <> "other") ->
        user_central_wallets (db w') = user_central_wallets (db w)
        /\ wallet_transactions (db w') = wallet_transactions (db w)
        /\ chama_notifications (db w') = chama_notifications (db w))
    /\ (faults w = [] ->
        (wallet_transactions (db w') <> wallet_transactions (db w) <->
         exists tx, looked_up (cs_reference data) w = Some tx
                    /\ (Tx.purpose tx = "wallet_topup" \/ Tx.purpose tx = "other"))).
Proof.
  intros hm jp now env req key data w Hm Hk Hne Hs Hp a net w'. subst w'.
  rewrite (serve_charge_success _ _ _ _ _ _ _ _ Hm Hk Hne Hs Hp). cbn [snd].
  split; [|split].
  - intros tx Hf Hl Hpu. apply looked_up_spec in Hl as [_ Hl].
    destruct (charge_success_credits now (charge_success data) data w tx Hf Hl Hpu)
      as [_ Hdb].
    cbn zeta in Hdb. rewrite Hdb. repeat split.
  - apply charge_success_no_credit.
  - intros Hf. split.
    + intros Hneq.
      destruct (looked_up (cs_reference data) w) as [tx|] eqn:Hl.
      * destruct (string_dec (Tx.purpose tx) "wallet_topup") as [H1|H1];
          [exists tx; auto|].
        destruct (string_dec (Tx.purpose tx) "other") as [H2|H2];
          [exists tx; auto|].
        exfalso. apply Hneq.
        apply (charge_success_no_credit now (charge_success data) data w).
        intros tx' Htx'. rewrite Hl in Htx'. injection Htx' as <-. split; assumption.
      * exfalso. apply Hneq.
        apply (charge_success_no_credit now (charge_success data) data w).
        intros tx' Htx'. rewrite Hl in Htx'. discriminate.
    + intros (tx & Hl & Hpu). apply looked_up_spec in Hl as [_ Hl].
      destruct (charge_success_credits now (charge_success data) data w tx Hf Hl Hpu)
        as [_ Hdb].
      cbn zeta in Hdb. rewrite Hdb. cbn. apply app_one_neq.
Qed.

Lemma wallet_credit_gate_witness :
  let w := Sample.world "wallet_topup" 100%float 50%float [] in
  let w' := snd (PaystackCallback.serve Sample.hmac Sample.parse Sample.now Sample.env
                   (Sample.signed "success") w) in
  map Wallet.balance (user_central_wallets (db w')) = [147.5%float].
Proof.
  intros w w'.
  destruct (wallet_credit_gate Sample.hmac Sample.parse Sample.now Sample.env
              (Sample.signed "success") "sk_test"
              {| cs_reference := "ref_1";
                 cs_amount := 10000%float;
                 cs_customer := {| email := "member@example.org" |};
                 cs_channel := "mobile_money";
                 cs_paid_at := "2024-05-01T10:00:00.000Z" |}
              w ltac:(discriminate) eq_refl ltac:(discriminate) eq_refl eq_refl)
    as [H _].
  destruct (H (Sample.pending "wallet_topup" 100%float) eq_refl eq_refl (or_introl eq_refl))
    as [Hw _].
  unfold w'. rewrite Hw. reflexivity.
Defined.

End CreditGate.

(** ** Repeated credits *)

Section Repetition.
Import Ledger.

Lemma by_reference_mark_success channel reference paid_at callbackData now ref (t : Tx.t) :
  PaystackCallback.by_reference ref
    (PaystackCallback.mark_success channel reference paid_at callbackData now t)
  = PaystackCallback.by_reference ref t.
Proof. reflexivity. Qed.

Lemma credit_wallets_found now user_id net wallets wallet :
  filter (PaystackCallback.by_user user_id) wallets = [wallet] ->
  filter (PaystackCallback.by_user user_id) (credit_wallets now user_id net wallets)
  = [PaystackCallback.set_balance (Wallet.balance wallet + net)%float now wallet].
Proof.
  intros H. unfold credit_wallets. rewrite H.
  rewrite filter_update by reflexivity. rewrite H. reflexivity.
Qed.

(** C3, as stated, fails in the arithmetic of the code: the second
    delivery adds N to X + N, and the binary64 sum (X + N) + N is not always
    X + 2N.  With X = 50 and a payment of KES 1.53, of net amount
    1.4917500000000001, the balance after two deliveries is
    52.983500000000006, where X + 2N is 52.983499999999999. *)
Lemma second_credit_is_not_x_plus_2n :
  let w := Sample.world "wallet_topup" 1.53%float 50%float [] in
  let w1 := snd (PaystackCallback.serve Sample.hmac Sample.parse Sample.now Sample.env
                   (Sample.signed "small") w) in
  let w2 := snd (PaystackCallback.serve Sample.hmac Sample.parse Sample.now Sample.env
                   (Sample.signed "small") w1) in
  let X := 50%float in
  let N := (1.53 - 1.53 * 0.025)%float in
  map WalletTx.amount (wallet_transactions (db w1)) = [N]
  /\ map Wallet.balance (user_central_wallets (db w1)) = [(X + N)%float]
  /\ map Wallet.balance (user_central_wallets (db w2)) = [52.983500000000006%float]
  /\ (X + 2 * N)%float = 52.983499999999999%float
  /\ map Wallet.balance (user_central_wallets (db w2)) <> [(X + 2 * N)%float].
Proof.
  repeat split.
  intros H.
  apply (f_equal (fun l => match l with
                           | [z] => (z =? 52.983499999999999)%float
                           | _ => false
                           end)) in H.
  vm_compute in H. discriminate.
Qed.

(** C3, amended.  Neither path deduplicates by reference.  With every call
    succeeding, a transaction found by its reference and a user with one
    wallet of balance X: a verified [charge.success] callback of amount A
    minor units, of net amount N = A/100 - A/100 * 0.025, brings the
    balance to X + N, and the same callback delivered again brings it to
    (X + N) + N, with two ledger rows of amount N for the one reference;
    likewise the manual credit function, for a stored amount A of net
    amount N = A - A * 0.025, brings the balance to X + N and marks the
    transaction success, and called again on that transaction, now marked
    success, it answers success again and brings the balance to
    (X + N) + N, with two ledger rows of amount N.  The sums are those of
    the code, in binary64: N is added twice, which need not be X + 2N. *)
Theorem credits_are_not_deduplicated :
  (forall hmac_sha512_hex JSON_parse now env req key data w tx wallet,
     method req <> "OPTIONS" ->
     PaystackCallback.PAYSTACK_SECRET_KEY env = Some key -> key <> "" ->
     x_paystack_signature req = Some (hmac_sha512_hex key (body req)) ->
     JSON_parse (body req) = Some (charge_success data) ->
     faults w = [] ->
     filter (PaystackCallback.by_reference (cs_reference data))
       (mpesa_transactions (db w)) = [tx] ->
     Tx.purpose tx = "wallet_topup" \/ Tx.purpose tx = "other" ->
     filter (PaystackCallback.by_user (Tx.user_id tx))
       (user_central_wallets (db w)) = [wallet] ->
     let X := Wallet.balance wallet in
     let a := (cs_amount data / 100)%float in
     let N := (a - a * 0.025)%float in
     let w1 := snd (PaystackCallback.serve hmac_sha512_hex JSON_parse now env req w) in
     let w2 := snd (PaystackCallback.serve hmac_sha512_hex JSON_parse now env req w1) in
     map Wallet.balance
       (filter (PaystackCallback.by_user (Tx.user_id tx)) (user_central_wallets (db w1)))
     = [(X + N)%float]
     /\ map Wallet.balance
          (filter (PaystackCallback.by_user (Tx.user_id tx)) (user_central_wallets (db w2)))
        = [((X + N) + N)%float]
     /\ wallet_transactions (db w2)
        = (wallet_transactions (db w) ++ [deposit_row tx data; deposit_row tx data])%list
     /\ map (fun r => (WalletTx.reference_id r, WalletTx.amount r))
          [deposit_row tx data; deposit_row tx data]
        = [(cs_reference data, N); (cs_reference data, N)])
  /\ (forall req_json req_json_error now req reference w tx wallet,
        method req <> "OPTIONS" ->
        req_json (body req) = Some reference ->
        faults w = [] ->
        filter (ManualCredit.by_reference reference) (mpesa_transactions (db w)) = [tx] ->
        filter (ManualCredit.by_user (Tx.user_id tx)) (user_central_wallets (db w))
        = [wallet] ->
        let X := Wallet.balance wallet in
        let A := Tx.amount tx in
        let N := (A - A * 0.025)%float in
        let '(resp1, w1) := ManualCredit.serve req_json req_json_error now req w in
        let '(resp2, w2) := ManualCredit.serve req_json req_json_error now req w1 in
        map Tx.status
          (filter (ManualCredit.by_reference reference) (mpesa_transactions (db w1)))
        = ["success"]
        /\ content resp1 = Credited true "Payment credited successfully" N (X + N)%float
        /\ content resp2
           = Credited true "Payment credited successfully" N ((X + N) + N)%float
        /\ map Wallet.balance
             (filter (ManualCredit.by_user (Tx.user_id tx)) (user_central_wallets (db w2)))
           = [((X + N) + N)%float]
        /\ wallet_transactions (db w2)
           = (wallet_transactions (db w)
              ++ [manual_row tx reference; manual_row tx reference])%list
        /\ map (fun r => (WalletTx.reference_id r, WalletTx.amount r))
             [manual_row tx reference; manual_row tx reference]
           = [(reference, N); (reference, N)]).
Proof.
  split.
  - intros hm jp now env req key data w tx wallet Hm Hk Hne Hs Hp Hf Hl Hpu Hw X a N w1 w2.
    subst w2 w1.
    rewrite !(serve_charge_success _ _ _ _ _ _ _ _ Hm Hk Hne Hs Hp). cbn [snd].
    destruct (charge_success_credits now (charge_success data) data w tx Hf Hl Hpu)
      as [Hf1 Hdb1]. cbn zeta in Hdb1.
    set (w1 := snd (PaystackCallback.on_charge_success now (charge_success data) data w)) in *.
    assert (Hl1 : filter (PaystackCallback.by_reference (cs_reference data))
                    (mpesa_transactions (db w1))
                  = [PaystackCallback.mark_success (cs_channel data) (cs_reference data)
                       (cs_paid_at data) (charge_success data) now tx]).
    { rewrite Hdb1. cbn [mpesa_transactions].
      rewrite filter_update by reflexivity. rewrite Hl. reflexivity. }
    assert (Hw1 : filter (PaystackCallback.by_user (Tx.user_id tx))
                    (user_central_wallets (db w1))
                  = [PaystackCallback.set_balance (X + N)%float now wallet]).
    { rewrite Hdb1. cbn [user_central_wallets]. now apply credit_wallets_found. }
    destruct (charge_success_credits now (charge_success data) data w1 _ Hf1 Hl1 Hpu)
      as [_ Hdb2]. cbn zeta in Hdb2.
    split; [rewrite Hw1; reflexivity|]. split; [|split; [|reflexivity]].
    + rewrite Hdb2. cbn [user_central_wallets Tx.user_id PaystackCallback.mark_success].
      rewrite (credit_wallets_found _ _ _ _ _ Hw1). reflexivity.
    + rewrite Hdb2. cbn [wallet_transactions]. rewrite Hdb1. cbn [wallet_transactions].
      rewrite <- app_assoc. reflexivity.
  - intros rj rje now req reference w tx wallet Hm Hr Hf Hl Hw X A N.
    pose proof (manual_credits rj rje now req reference w tx Hm Hr Hf Hl) as H1.
    cbn zeta in H1.
    destruct (ManualCredit.serve rj rje now req w) as [resp1 w1].
    destruct H1 as (Hf1 & Hdb1 & Hr1).
    assert (Hl1 : filter (ManualCredit.by_reference reference) (mpesa_transactions (db w1))
                  = [ManualCredit.mark_success reference now tx]).
    { rewrite Hdb1. cbn [mpesa_transactions].
      rewrite filter_update by reflexivity. rewrite Hl. reflexivity. }
    assert (Hw1 : filter (ManualCredit.by_user (Tx.user_id tx))
                    (user_central_wallets (db w1))
                  = [ManualCredit.set_balance (X + N)%float now wallet]).
    { rewrite Hdb1. cbn [user_central_wallets]. now apply credit_wallets_found. }
    pose proof (manual_credits rj rje now req reference w1 _ Hm Hr Hf1 Hl1) as H2.
    cbn zeta in H2.
    destruct (ManualCredit.serve rj rje now req w1) as [resp2 w2].
    destruct H2 as (Hf2 & Hdb2 & Hr2).
    cbn [Tx.user_id Tx.amount ManualCredit.mark_success] in Hdb2, Hr2.
    rewrite Hw1 in Hr2. rewrite Hw in Hr1.
    split; [rewrite Hl1; reflexivity|].
    split; [rewrite Hr1; reflexivity|].
    split; [rewrite Hr2; reflexivity|].
    split; [|split; [|reflexivity]].
    + rewrite Hdb2. cbn [user_central_wallets].
      change (ManualCredit.by_user (Tx.user_id tx))
        with (PaystackCallback.by_user (Tx.user_id tx)) in *.
      rewrite (credit_wallets_found _ _ _ _ _ Hw1). reflexivity.
    + rewrite Hdb2. cbn [wallet_transactions]. rewrite Hdb1. cbn [wallet_transactions].
      rewrite <- app_assoc. reflexivity.
Qed.

(** On the sample world, where the event's amount is 10000 minor units and
    the stored amount 100: either path brings the balance from 50 to 147.5
    and then to 245, with two ledger rows of 97.5. *)
Lemma credits_are_not_deduplicated_witness :
  let w := Sample.world "wallet_topup" 100%float 50%float [] in
  let req := {| method := "POST"; x_paystack_signature := None; body := "ref_1" |} in
  let c1 := snd (PaystackCallback.serve Sample.hmac Sample.parse Sample.now Sample.env
                   (Sample.signed "success") w) in
  let c2 := snd (PaystackCallback.serve Sample.hmac Sample.parse Sample.now Sample.env
                   (Sample.signed "success") c1) in
  let '(resp1, m1) := ManualCredit.serve Some Sample.parse_error Sample.now req w in
  let '(resp2, m2) := ManualCredit.serve Some Sample.parse_error Sample.now req m1 in
  (map Wallet.balance
     (filter (PaystackCallback.by_user "user_1") (user_central_wallets (db c1)))
   = [147.5%float]
   /\ map Wallet.balance
        (filter (PaystackCallback.by_user "user_1") (user_central_wallets (db c2)))
      = [245%float]
   /\ map WalletTx.amount (wallet_transactions (db c2)) = [97.5%float; 97.5%float])
  /\ (content resp1 = Credited true "Payment credited successfully" 97.5%float 147.5%float
      /\ content resp2 = Credited true "Payment credited successfully" 97.5%float 245%float
      /\ map Wallet.balance
           (filter (ManualCredit.by_user "user_1") (user_central_wallets (db m2)))
         = [245%float]
      /\ map WalletTx.amount (wallet_transactions (db m2)) = [97.5%float; 97.5%float]).
Proof.
  intros w req c1 c2.
  pose proof (proj2 credits_are_not_deduplicated Some Sample.parse_error Sample.now req
                "ref_1" w (Sample.pending "wallet_topup" 100%float)
                (Wallet.mk "user_1" 50%float None)
                ltac:(discriminate) eq_refl eq_refl eq_refl eq_refl) as Hm.
  cbn zeta in Hm.
  destruct (ManualCredit.serve Some Sample.parse_error Sample.now req w) as [resp1 m1].
  destruct (ManualCredit.serve Some Sample.parse_error Sample.now req m1) as [resp2 m2].
  destruct Hm as (_ & Hr1 & Hr2 & Hb & Hl & _).
  split.
  - destruct (proj1 credits_are_not_deduplicated
                Sample.hmac Sample.parse Sample.now Sample.env (Sample.signed "success")
                "sk_test"
                {| cs_reference := "ref_1";
                   cs_amount := 10000%float;
                   cs_customer := {| email := "member@example.org" |};
                   cs_channel := "mobile_money";
                   cs_paid_at := "2024-05-01T10:00:00.000Z" |}
                w (Sample.pending "wallet_topup" 100%float)
                (Wallet.mk "user_1" 50%float None)
                ltac:(discriminate) eq_refl ltac:(discriminate) eq_refl eq_refl
                eq_refl eq_refl (or_introl eq_refl) eq_refl)
      as (H1 & H2 & H3 & _).
    split; [exact H1|]. split; [exact H2|].
    unfold c2, c1. rewrite H3. reflexivity.
  - split; [exact Hr1|]. split; [exact Hr2|]. split; [exact Hb|].
    rewrite Hl. reflexivity.
Defined.

End Repetition.

(** ** The two crediting paths compared *)

Section TwoPaths.
Import Ledger.

(** C1, as stated, fails when the stored amount and the event's amount are
    the same number, here 10000: the callback credits 97.5 (the wallet goes
    from 50 to 147.5, fee 2.5), the manual credit function credits 9750
    (the wallet goes from 50 to 9800, fee 250). *)
Lemma same_amount_is_credited_differently :
  let w := Sample.world "wallet_topup" 10000%float 50%float [] in
  let by_callback :=
    snd (PaystackCallback.serve Sample.hmac Sample.parse Sample.now Sample.env
           (Sample.signed "success") w) in
  let by_hand :=
    snd (ManualCredit.serve Some Sample.parse_error Sample.now
           {| method := "POST"; x_paystack_signature := None; body := "ref_1" |} w) in
  map Tx.amount (mpesa_transactions (db w)) = [10000%float]
  /\ map WalletTx.amount (wallet_transactions (db by_callback)) = [97.5%float]
  /\ map WalletTx.amount (wallet_transactions (db by_hand)) = [9750%float]
  /\ map Wallet.balance (user_central_wallets (db by_callback)) = [147.5%float]
  /\ map Wallet.balance (user_central_wallets (db by_hand)) = [9800%float]
  /\ PaystackCallback.platformFee (PaystackCallback.amountPaid 10000%float) = 2.5%float
  /\ ManualCredit.platformFee 10000%float = 250%float.
Proof. repeat split. Qed.

(** C1, amended.  The manual credit function applies to the stored amount
    what the callback handler applies to the event's amount divided by 100:
    for a transaction whose stored amount is the amount paid of the event
    (its amount in minor units over 100), and which the callback credits,
    both paths compute the same platform fee and the same net amount and,
    every call succeeding, leave the same wallet table and write a ledger
    row of the same amount. *)
Theorem manual_credit_matches_callback :
  forall hmac_sha512_hex JSON_parse req_json req_json_error now env req req' key data w tx,
    method req <> "OPTIONS" ->
    PaystackCallback.PAYSTACK_SECRET_KEY env = Some key -> key <> "" ->
    x_paystack_signature req = Some (hmac_sha512_hex key (body req)) ->
    JSON_parse (body req) = Some (charge_success data) ->
    method req' <> "OPTIONS" ->
    req_json (body req') = Some (cs_reference data) ->
    faults w = [] ->
    filter (PaystackCallback.by_reference (cs_reference data))
      (mpesa_transactions (db w)) = [tx] ->
    Tx.purpose tx = "wallet_topup" \/ Tx.purpose tx = "other" ->
    Tx.amount tx = PaystackCallback.amountPaid (cs_amount data) ->
    let by_callback :=
      snd (PaystackCallback.serve hmac_sha512_hex JSON_parse now env req w) in
    let by_hand := snd (ManualCredit.serve req_json req_json_error now req' w) in
    ManualCredit.platformFee (Tx.amount tx)
    = PaystackCallback.platformFee (PaystackCallback.amountPaid (cs_amount data))
    /\ ManualCredit.netAmount (Tx.amount tx) (ManualCredit.platformFee (Tx.amount tx))
       = PaystackCallback.netAmount (PaystackCallback.amountPaid (cs_amount data))
           (PaystackCallback.platformFee (PaystackCallback.amountPaid (cs_amount data)))
    /\ user_central_wallets (db by_hand) = user_central_wallets (db by_callback)
    /\ map WalletTx.amount (wallet_transactions (db by_hand))
       = map WalletTx.amount (wallet_transactions (db by_callback)).
Proof.
  intros hm jp rj rje now env req req' key data w tx
    Hm Hk Hne Hs Hp Hm' Hr Hf Hl Hpu Ha by_callback by_hand.
  subst by_callback by_hand.
  rewrite (serve_charge_success _ _ _ _ _ _ _ _ Hm Hk Hne Hs Hp). cbn [snd].
  destruct (charge_success_credits now (charge_success data) data w tx Hf Hl Hpu)
    as [_ Hc]. cbn zeta in Hc.
  pose proof (manual_credits rj rje now req' (cs_reference data) w tx Hm' Hr Hf Hl) as H.
  cbn zeta in H.
  destruct (ManualCredit.serve rj rje now req' w) as [resp wm].
  destruct H as (_ & Hh & _). cbn [snd].
  rewrite Hc, Hh. cbn [user_central_wallets wallet_transactions].
  rewrite !map_app. cbn [map manual_row deposit_row WalletTx.amount].
  rewrite Ha. repeat split.
Qed.

Lemma manual_credit_matches_callback_witness :
  let w := Sample.world "wallet_topup" 100%float 50%float [] in
  map Wallet.balance
    (user_central_wallets
       (db (snd (ManualCredit.serve Some Sample.parse_error Sample.now
                   {| method := "POST"; x_paystack_signature := None; body := "ref_1" |}
                   w))))
  = map Wallet.balance
      (user_central_wallets
         (db (snd (PaystackCallback.serve Sample.hmac Sample.parse Sample.now Sample.env
                     (Sample.signed "success") w)))).
Proof.
  intros w.
  destruct (manual_credit_matches_callback
              Sample.hmac Sample.parse Some Sample.parse_error Sample.now Sample.env (Sample.signed "success")
              {| method := "POST"; x_paystack_signature := None; body := "ref_1" |}
              "sk_test"
              {| cs_reference := "ref_1";
                 cs_amount := 10000%float;
                 cs_customer := {| email := "member@example.org" |};
                 cs_channel := "mobile_money";
                 cs_paid_at := "2024-05-01T10:00:00.000Z" |}
              w (Sample.pending "wallet_topup" 100%float)
              ltac:(discriminate) eq_refl ltac:(discriminate) eq_refl eq_refl
              ltac:(discriminate) eq_refl eq_refl eq_refl (or_introl eq_refl) eq_refl)
    as (_ & _ & H & _).
  rewrite H. reflexivity.
Defined.

End TwoPaths.

(** ** Fee and net amount *)

Section FeeArithmetic.
Import PaystackCallback Rounding.
Local Open Scope float_scope.

Lemma check_range_sound (k : nat) :
  forall lo, check_range k lo = true ->
  forall A, (lo <= A < lo + 2 ^ Z.of_nat k)%Z -> fee_check (minor_units A) = true.
Proof.
  induction k as [|k IH]; intros lo H A HA.
  - cbn in HA. assert (A = lo) by lia. subst A. exact H.
  - cbn [check_range] in H. apply andb_true_iff in H as [H1 H2].
    rewrite Nat2Z.inj_succ, Z.pow_succ_r in HA by lia.
    destruct (Z_lt_le_dec A (lo + 2 ^ Z.of_nat k)) as [Hlt|Hge].
    + apply (IH lo H1). lia.
    + apply (IH _ H2). lia.
Qed.

Lemma fee_check_below_2_20 : check_range 20 0 = true.
Proof. vm_compute. reflexivity. Qed.

(** The example of the specification, evaluated in binary64. *)
Lemma fee_example_10000 :
  amountPaid 10000 = 100
  /\ platformFee (amountPaid 10000) = 2.5
  /\ netAmount (amountPaid 10000) (platformFee (amountPaid 10000)) = 97.5
  /\ 2.5 + 97.5 = 100.
Proof. repeat split. Qed.

(** C4, as stated, fails at the amount 153 (KES 1.53): the fee is
    0.038250000000000006, the net amount 1.4917500000000001, and their sum
    1.5300000000000002 is not the amount paid 1.53; at the amount 27 the net
    amount 0.26325000000000004 is not 0.27 * 0.975 = 0.26324999999999998. *)
Lemma fee_identities_inexact :
  (let a := amountPaid (minor_units 153) in
   let fee := platformFee a in
   let net := netAmount a fee in
   ~ (a = minor_units 153 / 100 /\ fee = a * 0.025 /\ fee + net = a))
  /\ (let a := amountPaid (minor_units 27) in
      let fee := platformFee a in
      let net := netAmount a fee in
      net <> a * 0.975).
Proof.
  split.
  - intros a fee net (_ & _ & H).
    apply (f_equal (fun z => z =? 1.53)) in H. vm_compute in H. discriminate.
  - intros a fee net H.
    apply (f_equal (fun z => z =? 0.26324999999999998)) in H.
    vm_compute in H. discriminate.
Qed.

(** C4, amended.  For every amount the handler computes, in binary64,
    amountPaid = amount / 100, fee = amountPaid * 0.025 and
    net = amountPaid - fee; on a credit, net is the amount of the ledger row
    and fee the amount handed to the fee collection.  The identities
    fee + net = amountPaid and net = amountPaid * 0.975 hold up to rounding:
    for every integer amount below 2^20 minor units each side is within one
    unit in the last place of the other.  At the amount 10000 the values are
    exactly 100, 2.5 and 97.5, and there fee + net = 100. *)
Theorem fee_and_net_amount :
  (forall amount,
     let a := amountPaid amount in
     let fee := platformFee a in
     let net := netAmount a fee in
     a = amount / 100 /\ fee = a * 0.025 /\ net = a - fee)
  /\ (forall hmac_sha512_hex JSON_parse now env req key data w tx,
        method req <> "OPTIONS" ->
        PAYSTACK_SECRET_KEY env = Some key -> key <> ""%string ->
        x_paystack_signature req = Some (hmac_sha512_hex key (body req)) ->
        JSON_parse (body req) = Some (charge_success data) ->
        faults w = [] ->
        filter (by_reference (cs_reference data)) (mpesa_transactions (db w)) = [tx] ->
        Tx.purpose tx = "wallet_topup"%string \/ Tx.purpose tx = "other"%string ->
        let a := cs_amount data / 100 in
        let w' := snd (serve hmac_sha512_hex JSON_parse now env req w) in
        map WalletTx.amount (wallet_transactions (db w'))
        = (map WalletTx.amount (wallet_transactions (db w)) ++ [a - a * 0.025])%list
        /\ map Fee.p_amount (platform_fees (db w'))
           = (map Fee.p_amount (platform_fees (db w)) ++ [a * 0.025])%list)
  /\ (forall A, (0 <= A < 2 ^ 20)%Z ->
        let a := amountPaid (minor_units A) in
        let fee := platformFee a in
        let net := netAmount a fee in
        within_one_ulp (fee + net) a = true
        /\ within_one_ulp net (a * 0.975) = true)
  /\ (let a := amountPaid 10000 in
      let fee := platformFee a in
      let net := netAmount a fee in
      a = 100 /\ fee = 2.5 /\ net = 97.5 /\ fee + net = a).
Proof.
  split; [|split; [|split]].
  - intros amount. repeat split.
  - intros hm jp now env req key data w tx Hm Hk Hne Hs Hp Hf Hl Hpu a w'. subst w'.
    rewrite (serve_charge_success _ _ _ _ _ _ _ _ Hm Hk Hne Hs Hp). cbn [snd].
    destruct (charge_success_credits now (charge_success data) data w tx Hf Hl Hpu)
      as [_ Hdb].
    cbn zeta in Hdb. rewrite Hdb. cbn [wallet_transactions platform_fees].
    rewrite !map_app. split; reflexivity.
  - intros A HA a fee net.
    apply andb_true_iff.
    exact (check_range_sound 20 0 fee_check_below_2_20 A HA).
  - repeat split.
Qed.

Lemma fee_and_net_amount_witness :
  (0 <= 153 < 2 ^ 20)%Z
  /\ within_one_ulp
       (platformFee (amountPaid (minor_units 153))
        + netAmount (amountPaid (minor_units 153))
            (platformFee (amountPaid (minor_units 153))))
       (amountPaid (minor_units 153)) = true.
Proof.
  split; [lia|].
  apply (proj1 (proj2 (proj2 fee_and_net_amount)) 153%Z). lia.
Defined.

End FeeArithmetic.

(** * Further properties of the handlers *)

(** ** What every request keeps *)

Section KeptHistory.
Import History.

Lemma continues_refl (d : DB) : continues d d.
Proof.
  repeat split; try (exists []; now rewrite app_nil_r).
Qed.

Lemma continues_trans (d1 d2 d3 : DB) :
  continues d1 d2 -> continues d2 d3 -> continues d1 d3.
Proof.
  intros (Ht & [a Ha] & [b Hb] & [c Hc] & [o Ho]) (Ht' & [a' Ha'] & [b' Hb'] & [c' Hc'] & [o' Ho']).
  repeat split.
  - congruence.
  - exists (a ++ a')%list. now rewrite Ha', Ha, app_assoc.
  - exists (b ++ b')%list. now rewrite Hb', Hb, app_assoc.
  - exists (c ++ c')%list. now rewrite Hc', Hc, app_assoc.
  - exists (o ++ o')%list. now rewrite Ho', Ho, app_assoc.
Qed.

Lemma keeps_ret {A} (a : A) : keeps_history (ret a).
Proof. intros w. apply continues_refl. Qed.

Lemma keeps_throw {A} (e : Thrown) : keeps_history (@throw A e).
Proof. intros w. apply continues_refl. Qed.

Lemma keeps_bind {A B} (m : M A) (k : A -> M B) :
  keeps_history m -> (forall a, keeps_history (k a)) -> keeps_history (bind m k).
Proof.
  intros Hm Hk w. unfold bind. specialize (Hm w).
  destruct (m w) as [[a|e] w1]; cbn in *.
  - eapply continues_trans; [exact Hm | apply Hk].
  - exact Hm.
Qed.

Lemma keeps_select_single {R} (T : Table R) (p : R -> bool) :
  keeps_history (select_single T p).
Proof.
  intros w. unfold_client. cbn.
  destruct (hd None (faults w)); cbn; [apply continues_refl|].
  destruct (filter p (rows T (db w))) as [|r [|r' l]]; apply continues_refl.
Qed.

Lemma keeps_update_transactions (p : Tx.t -> bool) (f : Tx.t -> Tx.t) :
  (forall t, tx_identity (f t) = tx_identity t) ->
  keeps_history (update mpesa_transactions_table p f).
Proof.
  intros Hf w. unfold_client. cbn.
  destruct (hd None (faults w)); cbn; [apply continues_refl|].
  repeat split; cbn; try (exists []; now rewrite app_nil_r).
  rewrite map_map. apply map_ext. intros t. destruct (p t); auto.
Qed.

Lemma keeps_update_wallets (p : Wallet.t -> bool) (f : Wallet.t -> Wallet.t) :
  (forall r, Wallet.user_id (f r) = Wallet.user_id r) ->
  keeps_history (update user_central_wallets_table p f).
Proof.
  intros Hf w. unfold_client. cbn.
  destruct (hd None (faults w)); cbn; [apply continues_refl|].
  repeat split; cbn; try (exists []; now rewrite app_nil_r).
  exists []. rewrite app_nil_r, map_map. apply map_ext. intros r. destruct (p r); auto.
Qed.

Lemma keeps_insert_wallet (r : Wallet.t) :
  keeps_history (insert_select_single user_central_wallets_table r).
Proof.
  intros w. unfold_client. cbn.
  destruct (hd None (faults w)); cbn; [apply continues_refl|].
  repeat split; cbn; try (exists []; now rewrite app_nil_r).
  exists [Wallet.user_id r]. now rewrite map_app.
Qed.

Lemma keeps_insert_wallet_transaction (r : WalletTx.t) :
  keeps_history (insert wallet_transactions_table r).
Proof.
  intros w. unfold_client. cbn.
  destruct (hd None (faults w)); cbn; [apply continues_refl|].
  repeat split; cbn; try (exists []; now rewrite app_nil_r).
  now exists [r].
Qed.

Lemma keeps_insert_notification (r : Notification.t) :
  keeps_history (insert chama_notifications_table r).
Proof.
  intros w. unfold_client. cbn.
  destruct (hd None (faults w)); cbn; [apply continues_refl|].
  repeat split; cbn; try (exists []; now rewrite app_nil_r).
  now exists [r].
Qed.

Lemma keeps_collect_fee (args : Fee.t) :
  keeps_history (rpc collect_platform_fee args).
Proof.
  intros w. unfold_client. cbn.
  destruct (hd None (faults w)); cbn; [apply continues_refl|].
  repeat split; cbn; try (exists []; now rewrite app_nil_r).
  now exists [args].
Qed.

Lemma keeps_charge_success now callbackData data :
  keeps_history (PaystackCallback.on_charge_success now callbackData data).
Proof.
  unfold PaystackCallback.on_charge_success, PaystackCallback.credit_central_wallet.
  repeat first
    [ apply keeps_ret
    | apply keeps_select_single
    | apply keeps_update_transactions; intros; reflexivity
    | apply keeps_update_wallets; intros; reflexivity
    | apply keeps_insert_wallet
    | apply keeps_insert_wallet_transaction
    | apply keeps_insert_notification
    | apply keeps_collect_fee
    | apply keeps_bind; [ | intros ? ]
    | match goal with
      | |- keeps_history (match ?x with _ => _ end) => destruct x
      end ].
Qed.

Lemma keeps_charge_failed now callbackData data :
  keeps_history (PaystackCallback.on_charge_failed now callbackData data).
Proof.
  unfold PaystackCallback.on_charge_failed.
  repeat first
    [ apply keeps_ret
    | apply keeps_select_single
    | apply keeps_update_transactions; intros; reflexivity
    | apply keeps_insert_notification
    | apply keeps_bind; [ | intros ? ]
    | match goal with
      | |- keeps_history (match ?x with _ => _ end) => destruct x
      end ].
Qed.

Lemma keeps_manual_credit req_json req_json_error now req :
  keeps_history (ManualCredit.process req_json req_json_error now req).
Proof.
  unfold ManualCredit.process.
  repeat first
    [ apply keeps_ret
    | apply keeps_throw
    | apply keeps_select_single
    | apply keeps_update_transactions; intros; reflexivity
    | apply keeps_update_wallets; intros; reflexivity
    | apply keeps_insert_wallet
    | apply keeps_insert_wallet_transaction
    | apply keeps_bind; [ | intros ? ]
    | match goal with
      | |- keeps_history (match ?x with _ => _ end) => destruct x
      end ].
Qed.

(** X1. Whatever the request, the secret, the tables and the answers of
    the service, each of the two functions leaves a database that continues
    the one it found: no transaction is added, removed or moved, and none
    changes its reference, owner, group, purpose, amount, type or creation
    time; wallet transactions, notifications and fee records only get rows
    appended; no wallet is removed or changes owner. *)
Theorem handlers_keep_history :
  forall hmac_sha512_hex JSON_parse req_json req_json_error now env req w,
    continues (db w)
      (db (snd (PaystackCallback.serve hmac_sha512_hex JSON_parse now env req w)))
    /\ continues (db w) (db (snd (ManualCredit.serve req_json req_json_error now req w))).
Proof.
  intros hm jp rj rje now env req w. split.
  - unfold PaystackCallback.serve.
    destruct (method req =? "OPTIONS"); [apply continues_refl|].
    unfold try_catch.
    assert (H : keeps_history (PaystackCallback.process hm jp now env req)).
    { unfold PaystackCallback.process.
      repeat first
        [ apply keeps_ret
        | apply keeps_throw
        | apply keeps_charge_success
        | apply keeps_charge_failed
        | apply keeps_bind; [ | intros ? ]
        | match goal with
          | |- keeps_history (match ?x with _ => _ end) => destruct x
          | |- keeps_history (if ?x then _ else _) => destruct x
          end ]. }
    specialize (H w).
    destruct (PaystackCallback.process hm jp now env req w) as [[r|e] w']; exact H.
  - unfold ManualCredit.serve.
    destruct (method req =? "OPTIONS"); [apply continues_refl|].
    unfold try_catch.
    pose proof (keeps_manual_credit rj rje now req w) as H.
    destruct (ManualCredit.process rj rje now req w) as [[r|e] w']; exact H.
Qed.

End KeptHistory.

(** ** The failure branch of the callback handler *)

Section FailureBranch.
Import Ledger.

(** A verified [charge.failed] request runs the failure branch and is
    answered OK. *)
Lemma serve_charge_failed hmac_sha512_hex JSON_parse now env req key data w :
  method req <> "OPTIONS" ->
  PaystackCallback.PAYSTACK_SECRET_KEY env = Some key -> key <> "" ->
  x_paystack_signature req = Some (hmac_sha512_hex key (body req)) ->
  JSON_parse (body req) = Some (charge_failed data) ->
  PaystackCallback.serve hmac_sha512_hex JSON_parse now env req w
  = (PaystackCallback.ok_response,
     snd (PaystackCallback.on_charge_failed now (charge_failed data) data w)).
Proof.
  intros Hm Hk Hne Hs Hp.
  unfold PaystackCallback.serve. rewrite (not_options _ Hm).
  unfold try_catch, PaystackCallback.process. rewrite Hk.
  destruct key as [|c key]; [contradiction|].
  rewrite (proj2 (same_signature_true _ _) Hs). cbn [negb]. rewrite Hp.
  unfold bind, ret.
  destruct (PaystackCallback.on_charge_failed now (charge_failed data) data w)
    as [[[]|e] w']; reflexivity.
Qed.

(** A verified request that is no [charge.success] or [charge.failed]
    event with its data, or whose body does not parse, leaves the world as
    it is. *)
Lemma serve_ignored hmac_sha512_hex JSON_parse now env req key w :
  method req <> "OPTIONS" ->
  PaystackCallback.PAYSTACK_SECRET_KEY env = Some key -> key <> "" ->
  x_paystack_signature req = Some (hmac_sha512_hex key (body req)) ->
  (forall data, JSON_parse (body req) <> Some (charge_success data)) ->
  (forall data, JSON_parse (body req) <> Some (charge_failed data)) ->
  PaystackCallback.serve hmac_sha512_hex JSON_parse now env req w
  = (PaystackCallback.ok_response, w).
Proof.
  intros Hm Hk Hne Hs Hps Hpf.
  unfold PaystackCallback.serve. rewrite (not_options _ Hm).
  unfold try_catch, PaystackCallback.process. rewrite Hk.
  destruct key as [|c key]; [contradiction|].
  rewrite (proj2 (same_signature_true _ _) Hs). cbn [negb].
  destruct (JSON_parse (body req)) as [[d|d|e| |]|]; try reflexivity.
  - now destruct (Hps d).
  - now destruct (Hpf d).
Qed.

(** The failure branch touches neither wallets, nor the ledger, nor the
    fees, whatever the service answers. *)
Lemma charge_failed_moves_no_money now callbackData data w :
  let w' := snd (PaystackCallback.on_charge_failed now callbackData data w) in
  user_central_wallets (db w') = user_central_wallets (db w)
  /\ wallet_transactions (db w') = wallet_transactions (db w)
  /\ platform_fees (db w') = platform_fees (db w).
Proof.
  unfold PaystackCallback.on_charge_failed. unfold_client. cbn.
  destruct (hd None (faults w)); cbn;
    destruct (hd None (tl (faults w))); cbn;
    try (destruct (filter _ _) as [|tx [|tx' l]]; cbn);
    split_cases; repeat split; reflexivity.
Qed.

(** X2. Only a [charge.success] event can move money: a verified request
    carrying anything else (a [charge.failed] event, another event, an
    event on which the handler throws, a body that does not parse)
    is answered 200 and leaves every wallet, the ledger of wallet
    transactions and the collected fees as they were, whatever the service
    answers. *)
Theorem only_success_events_move_money :
  forall hmac_sha512_hex JSON_parse now env req key w,
    method req <> "OPTIONS" ->
    PaystackCallback.PAYSTACK_SECRET_KEY env = Some key -> key <> "" ->
    x_paystack_signature req = Some (hmac_sha512_hex key (body req)) ->
    (forall data, JSON_parse (body req) <> Some (charge_success data)) ->
    let '(resp, w') := PaystackCallback.serve hmac_sha512_hex JSON_parse now env req w in
    status resp = 200%Z
    /\ user_central_wallets (db w') = user_central_wallets (db w)
    /\ wallet_transactions (db w') = wallet_transactions (db w)
    /\ platform_fees (db w') = platform_fees (db w).
Proof.
  intros hm jp now env req key w Hm Hk Hne Hs Hps.
  destruct (jp (body req)) as [[d|d|e| |]|] eqn:Hp.
  - now destruct (Hps d).
  - rewrite (serve_charge_failed _ _ _ _ _ _ _ _ Hm Hk Hne Hs Hp).
    split; [reflexivity|]. apply charge_failed_moves_no_money.
  - rewrite (serve_ignored hm jp now env req key w Hm Hk Hne Hs);
      [repeat split | congruence | congruence].
  - rewrite (serve_ignored hm jp now env req key w Hm Hk Hne Hs);
      [repeat split | congruence | congruence].
  - rewrite (serve_ignored hm jp now env req key w Hm Hk Hne Hs);
      [repeat split | congruence | congruence].
  - rewrite (serve_ignored hm jp now env req key w Hm Hk Hne Hs);
      [repeat split | congruence | congruence].
Qed.

Lemma only_success_events_move_money_witness :
  let w := Sample.world "wallet_topup" 100%float 50%float [] in
  let '(resp, w') :=
    PaystackCallback.serve Sample.hmac Sample.parse Sample.now Sample.env
      (Sample.signed "airtel") w in
  status resp = 200%Z
  /\ user_central_wallets (db w') = user_central_wallets (db w)
  /\ wallet_transactions (db w') = wallet_transactions (db w)
  /\ platform_fees (db w') = platform_fees (db w).
Proof.
  intros w.
  exact (only_success_events_move_money Sample.hmac Sample.parse Sample.now Sample.env
           (Sample.signed "airtel") "sk_test" w
           ltac:(discriminate) eq_refl ltac:(discriminate) eq_refl
           ltac:(intros data; discriminate)).
Defined.

(** The message that the failure branch builds from the event. *)
Lemma charge_failed_update now callbackData data w :
  let reference := cf_reference data in
  let message := PaystackCallback.parsedMessage (cf_gateway_response data) in
  let balance := PaystackCallback.availableBalance message in
  let w' := snd (PaystackCallback.on_charge_failed now callbackData data w) in
  (exists rest,
     calls w' = (calls w ++ [ {| target := "mpesa_transactions"; op := Update |};
                              {| target := "mpesa_transactions"; op := Select |} ]
                 ++ rest)%list)
  /\ (hd None (faults w) = None ->
      mpesa_transactions (db w')
      = map (fun t => if PaystackCallback.by_reference reference t
                      then PaystackCallback.mark_failed
                             (PaystackCallback.userMessage message (cf_channel data) balance)
                             callbackData balance (cf_gateway_response data) now t
                      else t)
          (mpesa_transactions (db w))).
Proof.
  intros reference message balance w'. subst w' reference message balance.
  unfold PaystackCallback.on_charge_failed. unfold_client. cbn.
  destruct (hd None (faults w)) eqn:Hf; cbn;
    destruct (hd None (tl (faults w))); cbn;
    try (destruct (filter _ _) as [|tx [|tx' l]]; cbn);
    split_cases;
    (split;
     [ eexists; repeat rewrite <- app_assoc; cbn; reflexivity
     | try (intros _; reflexivity); try discriminate ]).
Qed.

(** X3. For every verified [charge.failed] event that the handler can read
    (its data present, its gateway response a string or absent) the
    handler first issues the update of the rows with the event's reference,
    without looking at their current status; when the service accepts it,
    each such row gets status failed, result code 1, the message built for
    the user as its description, and as payload the event with the balance
    parsed from the gateway text (null when none was parsed or when it is
    not a finite number) and the gateway text; it keeps its receipt number
    and transaction date, so a row that a [charge.success] event had marked
    success reads failed with the receipt of the success. *)
Theorem failure_update_is_unconditional :
  forall hmac_sha512_hex JSON_parse now env req key data w,
    method req <> "OPTIONS" ->
    PaystackCallback.PAYSTACK_SECRET_KEY env = Some key -> key <> "" ->
    x_paystack_signature req = Some (hmac_sha512_hex key (body req)) ->
    JSON_parse (body req) = Some (charge_failed data) ->
    let reference := cf_reference data in
    let message := PaystackCallback.parsedMessage (cf_gateway_response data) in
    let balance := PaystackCallback.availableBalance message in
    let w' := snd (PaystackCallback.serve hmac_sha512_hex JSON_parse now env req w) in
    (exists rest,
       calls w' = (calls w ++ [ {| target := "mpesa_transactions"; op := Update |};
                                {| target := "mpesa_transactions"; op := Select |} ]
                   ++ rest)%list)
    /\ (hd None (faults w) = None ->
        mpesa_transactions (db w')
        = map (fun t =>
                 if Tx.checkout_request_id t =? reference
                 then {| Tx.checkout_request_id := Tx.checkout_request_id t;
                         Tx.user_id := Tx.user_id t;
                         Tx.chama_id := Tx.chama_id t;
                         Tx.purpose := Tx.purpose t;
                         Tx.metadata_transaction_id := Tx.metadata_transaction_id t;
                         Tx.amount := Tx.amount t;
                         Tx.status := "failed";
                         Tx.transaction_type := Tx.transaction_type t;
                         Tx.created_at := Tx.created_at t;
                         Tx.result_code := Some 1%Z;
                         Tx.result_desc :=
                           Some (PaystackCallback.userMessage message (cf_channel data)
                                   balance);
                         Tx.mpesa_receipt_number := Tx.mpesa_receipt_number t;
                         Tx.transaction_date := Tx.transaction_date t;
                         Tx.callback_data :=
                           Some (EnvelopeWith (charge_failed data) (JSON_number balance)
                                   (cf_gateway_response data));
                         Tx.updated_at := Some now |}
                 else t)
            (mpesa_transactions (db w))).
Proof.
  intros hm jp now env req key data w Hm Hk Hne Hs Hp reference message balance w'.
  subst w'. rewrite (serve_charge_failed _ _ _ _ _ _ _ _ Hm Hk Hne Hs Hp).
  exact (charge_failed_update now (charge_failed data) data w).
Qed.

(** A transaction that a [charge.success] event had settled, then a failure
    event with the Airtel Money text: every column of the row is read.
    With the text "... balance is Ksh ." the balance parsed is NaN, and the
    payload holds null. *)
Lemma failure_update_is_unconditional_witness :
  mpesa_transactions
    (db (snd (PaystackCallback.serve Sample.hmac Sample.parse Sample.now Sample.env
                (Sample.signed "airtel")
                (Sample.settled_world "wallet_topup" 100%float 50%float []))))
  = [ Tx.mk "ref_1" "user_1" None "wallet_topup" None 100%float "failed" "paystack"
        1714557300000 (Some 1%Z)
        (Some ("💳 Payment failed: Insufficient mobile money balance"
               ++ String "010" "💼 Available balance: KES 35.00"
               ++ String "010" "🔁 Please top up your account or try a smaller amount."))
        (Some "ref_1") (Some "2024-05-01T10:00:00.000Z")
        (Some (EnvelopeWith
                 (Sample.failed_event "Your Airtel Money balance is Ksh 35.00")
                 (Some 35%float) (Some "Your Airtel Money balance is Ksh 35.00")))
        (Some Sample.now) ]
  /\ map Tx.callback_data
       (mpesa_transactions
          (db (snd (PaystackCallback.serve Sample.hmac Sample.parse Sample.now
                      Sample.env (Sample.signed "dot")
                      (Sample.world "wallet_topup" 100%float 50%float [])))))
     = [ Some (EnvelopeWith (Sample.failed_event "Your Airtel Money balance is Ksh .")
                 None (Some "Your Airtel Money balance is Ksh .")) ].
Proof.
  split.
  - rewrite (proj2 (failure_update_is_unconditional Sample.hmac Sample.parse Sample.now
                      Sample.env (Sample.signed "airtel") "sk_test"
                      {| cf_reference := "ref_1";
                         cf_gateway_response :=
                           Some "Your Airtel Money balance is Ksh 35.00";
                         cf_channel := "mobile_money";
                         cf_customer := Some {| email := "member@example.org" |} |}
                      (Sample.settled_world "wallet_topup" 100%float 50%float [])
                      ltac:(discriminate) eq_refl ltac:(discriminate) eq_refl eq_refl)
              eq_refl).
    reflexivity.
  - rewrite (proj2 (failure_update_is_unconditional Sample.hmac Sample.parse Sample.now
                      Sample.env (Sample.signed "dot") "sk_test"
                      {| cf_reference := "ref_1";
                         cf_gateway_response := Some "Your Airtel Money balance is Ksh .";
                         cf_channel := "mobile_money";
                         cf_customer := Some {| email := "member@example.org" |} |}
                      (Sample.world "wallet_topup" 100%float 50%float [])
                      ltac:(discriminate) eq_refl ltac:(discriminate) eq_refl eq_refl)
              eq_refl).
    reflexivity.
Defined.

End FailureBranch.

(** ** What the failure branch writes, and after a success *)

Section FailureWrites.
Import Ledger.

Lemma update_without_match {R} (p : R -> bool) (f : R -> R) (l : list R) :
  filter p l = [] -> map (fun r => if p r then f r else r) l = l.
Proof.
  induction l as [|r l IH]; cbn; [reflexivity|].
  destruct (p r); [discriminate|]. intros H. now rewrite IH.
Qed.

(** The failure branch when every call succeeds. *)
Lemma charge_failed_run now callbackData data w :
  faults w = [] ->
  let reference := cf_reference data in
  let message := PaystackCallback.parsedMessage (cf_gateway_response data) in
  let balance := PaystackCallback.availableBalance message in
  let shown := PaystackCallback.userMessage message (cf_channel data) balance in
  let w' := snd (PaystackCallback.on_charge_failed now callbackData data w) in
  faults w' = []
  /\ mpesa_transactions (db w')
     = map (fun t => if PaystackCallback.by_reference reference t
                     then PaystackCallback.mark_failed shown callbackData balance
                            (cf_gateway_response data) now t
                     else t)
         (mpesa_transactions (db w))
  /\ chama_notifications (db w')
     = match filter (PaystackCallback.by_reference reference) (mpesa_transactions (db w)) with
       | [tx] =>
           if Tx.user_id tx =? "" then chama_notifications (db w)
           else (chama_notifications (db w)
                 ++ [ {| Notification.user_id := Tx.user_id tx;
                         Notification.chama_id := PaystackCallback.or_null (Tx.chama_id tx);
                         Notification.type := "payment_failed";
                         Notification.title := "❌ Payment Failed";
                         Notification.message := shown;
                         Notification.data :=
                           Notification.failure_data (Tx.amount tx) (cf_channel data)
                             reference (JSON_number balance)
                             (cf_gateway_response data) |} ])%list
       | _ => chama_notifications (db w)
       end.
Proof.
  intros Hf reference message balance shown w'. subst w'.
  unfold PaystackCallback.on_charge_failed. unfold_client. rewrite Hf. cbn.
  fold reference message balance shown.
  rewrite filter_update by reflexivity.
  destruct (filter (PaystackCallback.by_reference reference) (mpesa_transactions (db w)))
    as [|tx [|tx' l]]; cbn; try (repeat split; reflexivity).
  destruct (Tx.user_id tx =? ""); cbn; repeat split; reflexivity.
Qed.

(** X4. The failure branch, every call succeeding.  When exactly one
    transaction has the event's reference and it has an owner, the owner
    gets one notification whose message is the very text stored as the
    transaction's result description, with the transaction's stored amount
    and, as available balance, the balance parsed from the gateway text,
    null when none was parsed or when it is not a finite number.  When no
    transaction has the reference the event is dropped: no table changes at
    all, and the answer is still 200. *)
Theorem failure_is_recorded_and_notified :
  forall hmac_sha512_hex JSON_parse now env req key data w,
    method req <> "OPTIONS" ->
    PaystackCallback.PAYSTACK_SECRET_KEY env = Some key -> key <> "" ->
    x_paystack_signature req = Some (hmac_sha512_hex key (body req)) ->
    JSON_parse (body req) = Some (charge_failed data) ->
    faults w = [] ->
    let reference := cf_reference data in
    let message := PaystackCallback.parsedMessage (cf_gateway_response data) in
    let balance := PaystackCallback.availableBalance message in
    let '(resp, w') := PaystackCallback.serve hmac_sha512_hex JSON_parse now env req w in
    status resp = 200%Z
    /\ (forall tx,
          filter (PaystackCallback.by_reference reference) (mpesa_transactions (db w)) = [tx] ->
          Tx.user_id tx <> "" ->
          exists notification,
            chama_notifications (db w')
            = (chama_notifications (db w) ++ [notification])%list
            /\ Notification.user_id notification = Tx.user_id tx
            /\ Notification.type notification = "payment_failed"
            /\ Notification.message notification
               = PaystackCallback.userMessage message (cf_channel data) balance
            /\ map Tx.result_desc
                 (filter (PaystackCallback.by_reference reference)
                    (mpesa_transactions (db w')))
               = [Some (Notification.message notification)]
            /\ Notification.data notification
               = Notification.failure_data (Tx.amount tx) (cf_channel data) reference
                   (JSON_number balance) (cf_gateway_response data))
    /\ (filter (PaystackCallback.by_reference reference) (mpesa_transactions (db w)) = [] ->
        mpesa_transactions (db w') = mpesa_transactions (db w)
        /\ user_central_wallets (db w') = user_central_wallets (db w)
        /\ wallet_transactions (db w') = wallet_transactions (db w)
        /\ chama_notifications (db w') = chama_notifications (db w)
        /\ platform_fees (db w') = platform_fees (db w)).
Proof.
  intros hm jp now env req key data w Hm Hk Hne Hs Hp Hf reference message balance.
  rewrite (serve_charge_failed _ _ _ _ _ _ _ _ Hm Hk Hne Hs Hp).
  destruct (charge_failed_run now (charge_failed data) data w Hf) as (_ & Ht & Hn).
  destruct (charge_failed_moves_no_money now (charge_failed data) data w) as (Hw & Hl & Hfee).
  cbn zeta in *. fold reference message balance in Ht, Hn.
  split; [reflexivity|]. split.
  - intros tx Htx Hu. rewrite Ht, Hn, Htx.
    rewrite filter_update by reflexivity. rewrite Htx.
    apply String.eqb_neq in Hu. rewrite Hu.
    eexists. split; [reflexivity|]. repeat split.
  - intros Hnone. rewrite Ht, Hn, Hnone.
    rewrite (update_without_match _ _ _ Hnone). repeat split; assumption.
Qed.

(** On the Airtel Money text the owner is told the balance 35, in the text
    that is stored as the result description; on the text
    "... balance is Ksh ." the message reads "KES NaN" and the data hold a
    null balance; a no-break space before the amount is white space. *)
Lemma failure_is_recorded_and_notified_witness :
  let w := Sample.world "wallet_topup" 100%float 50%float [] in
  let run body :=
    db (snd (PaystackCallback.serve Sample.hmac Sample.parse Sample.now Sample.env
               (Sample.signed body) w)) in
  let told d := map (fun n => (Notification.user_id n, Notification.data n))
                  (chama_notifications d) in
  (told (run "airtel")
   = [("user_1", Notification.failure_data 100%float "mobile_money" "ref_1"
                   (Some 35%float) (Some "Your Airtel Money balance is Ksh 35.00"))]
   /\ map Tx.result_desc
        (filter (PaystackCallback.by_reference "ref_1") (mpesa_transactions (run "airtel")))
      = map (fun n => Some (Notification.message n)) (chama_notifications (run "airtel"))
   /\ map (fun n => includes "Available balance: KES 35.00" (Notification.message n))
        (chama_notifications (run "airtel")) = [true])
  /\ (told (run "dot")
      = [("user_1", Notification.failure_data 100%float "mobile_money" "ref_1"
                      None (Some "Your Airtel Money balance is Ksh ."))]
      /\ map (fun n => includes "Available balance: KES NaN" (Notification.message n))
           (chama_notifications (run "dot")) = [true])
  /\ told (run "no-break space")
     = [("user_1", Notification.failure_data 100%float "mobile_money" "ref_1"
                     (Some 35%float)
                     (Some ("Your Airtel Money balance is Ksh" ++ Sample.nbsp ++ "35.00")))].
Proof.
  intros w run told.
  assert (H : forall body text,
            Sample.parse body = Some (Sample.failed_event text) ->
            told (run body)
            = [("user_1",
                Notification.failure_data 100%float "mobile_money" "ref_1"
                  (JSON_number
                     (PaystackCallback.availableBalance
                        (PaystackCallback.parsedMessage (Some text))))
                  (Some text))]
            /\ map Tx.result_desc
                 (filter (PaystackCallback.by_reference "ref_1")
                    (mpesa_transactions (run body)))
               = map (fun n => Some (Notification.message n))
                   (chama_notifications (run body))
            /\ map Notification.message (chama_notifications (run body))
               = [PaystackCallback.userMessage
                    (PaystackCallback.parsedMessage (Some text)) "mobile_money"
                    (PaystackCallback.availableBalance
                       (PaystackCallback.parsedMessage (Some text)))]).
  { intros body text Hb.
    pose proof (failure_is_recorded_and_notified Sample.hmac Sample.parse Sample.now
                  Sample.env (Sample.signed body) "sk_test"
                  {| cf_reference := "ref_1";
                     cf_gateway_response := Some text;
                     cf_channel := "mobile_money";
                     cf_customer := Some {| email := "member@example.org" |} |}
                  w ltac:(discriminate) eq_refl ltac:(discriminate) eq_refl Hb eq_refl)
      as H.
    cbn zeta in H. unfold told, run.
    destruct (PaystackCallback.serve Sample.hmac Sample.parse Sample.now Sample.env
                (Sample.signed body) w) as [resp w1].
    destruct H as (_ & H & _).
    destruct (H (Sample.pending "wallet_topup" 100%float) eq_refl ltac:(discriminate))
      as (n & Hn & Hu & _ & Hmsg & Hdesc & Hd).
    cbn [snd]. cbn [cf_reference] in Hdesc. rewrite Hdesc, Hn.
    cbn [chama_notifications db w Sample.world app map].
    rewrite Hu, Hd, Hmsg. repeat split. }
  split; [|split].
  - destruct (H "airtel" _ eq_refl) as (H1 & H2 & H3).
    split; [exact H1|]. split; [exact H2|].
    rewrite <- map_map, H3. reflexivity.
  - destruct (H "dot" _ eq_refl) as (H1 & _ & H3).
    split; [exact H1|]. rewrite <- map_map, H3. reflexivity.
  - exact (proj1 (H "no-break space" _ eq_refl)).
Defined.

(** X17. A [charge.failed] event delivered twice.  Every call succeeding,
    with one owned transaction for the reference: the second delivery,
    served at the same time, leaves the transactions exactly as the first
    left them, and sends the owner the same notification a second time. *)
Theorem redelivered_failure_notifies_again :
  forall hmac_sha512_hex JSON_parse now env req key data w tx,
    method req <> "OPTIONS" ->
    PaystackCallback.PAYSTACK_SECRET_KEY env = Some key -> key <> "" ->
    x_paystack_signature req = Some (hmac_sha512_hex key (body req)) ->
    JSON_parse (body req) = Some (charge_failed data) ->
    faults w = [] ->
    filter (PaystackCallback.by_reference (cf_reference data)) (mpesa_transactions (db w))
    = [tx] ->
    Tx.user_id tx <> "" ->
    let w1 := snd (PaystackCallback.serve hmac_sha512_hex JSON_parse now env req w) in
    let w2 := snd (PaystackCallback.serve hmac_sha512_hex JSON_parse now env req w1) in
    mpesa_transactions (db w2) = mpesa_transactions (db w1)
    /\ exists notification,
         chama_notifications (db w1) = (chama_notifications (db w) ++ [notification])%list
         /\ chama_notifications (db w2)
            = (chama_notifications (db w) ++ [notification; notification])%list.
Proof.
  intros hm jp now env req key data w tx Hm Hk Hne Hs Hp Hf Hl Hu w1 w2.
  subst w2 w1.
  rewrite !(serve_charge_failed _ _ _ _ _ _ _ _ Hm Hk Hne Hs Hp). cbn [snd].
  destruct (charge_failed_run now (charge_failed data) data w Hf) as (Hf1 & Ht1 & Hn1).
  cbn zeta in *.
  set (w1 := snd (PaystackCallback.on_charge_failed now (charge_failed data) data w)) in *.
  destruct (charge_failed_run now (charge_failed data) data w1 Hf1) as (_ & Ht2 & Hn2).
  cbn zeta in *.
  apply String.eqb_neq in Hu.
  rewrite Hl, Hu in Hn1.
  rewrite Ht1 in Hn2. rewrite filter_update in Hn2 by reflexivity.
  rewrite Hl in Hn2. cbn [map Tx.user_id PaystackCallback.mark_failed] in Hn2.
  rewrite Hu in Hn2.
  split.
  - rewrite Ht2, Ht1, map_map. apply map_ext. intros t.
    destruct (PaystackCallback.by_reference (cf_reference data) t) eqn:E.
    + change (PaystackCallback.by_reference (cf_reference data)
                (PaystackCallback.mark_failed
                   (PaystackCallback.userMessage
                      (PaystackCallback.parsedMessage (cf_gateway_response data))
                      (cf_channel data)
                      (PaystackCallback.availableBalance
                         (PaystackCallback.parsedMessage (cf_gateway_response data))))
                   (charge_failed data)
                   (PaystackCallback.availableBalance
                      (PaystackCallback.parsedMessage (cf_gateway_response data)))
                   (cf_gateway_response data) now t))
        with (PaystackCallback.by_reference (cf_reference data) t).
      rewrite E. reflexivity.
    + rewrite E. reflexivity.
  - eexists. split; [exact Hn1|].
    rewrite Hn2, Hn1, <- app_assoc. reflexivity.
Qed.

Lemma redelivered_failure_notifies_again_witness :
  let w := Sample.world "wallet_topup" 100%float 50%float [] in
  let w1 := snd (PaystackCallback.serve Sample.hmac Sample.parse Sample.now Sample.env
                   (Sample.signed "airtel") w) in
  let w2 := snd (PaystackCallback.serve Sample.hmac Sample.parse Sample.now Sample.env
                   (Sample.signed "airtel") w1) in
  mpesa_transactions (db w2) = mpesa_transactions (db w1).
Proof.
  intros w w1 w2.
  exact (proj1 (redelivered_failure_notifies_again Sample.hmac Sample.parse Sample.now
                  Sample.env (Sample.signed "airtel") "sk_test"
                  {| cf_reference := "ref_1";
                     cf_gateway_response := Some "Your Airtel Money balance is Ksh 35.00";
                     cf_channel := "mobile_money";
                     cf_customer := Some {| email := "member@example.org" |} |}
                  w (Sample.pending "wallet_topup" 100%float)
                  ltac:(discriminate) eq_refl ltac:(discriminate) eq_refl eq_refl
                  eq_refl eq_refl ltac:(discriminate))).
Defined.

End FailureWrites.

(** ** Fee collection and failed credits in the success branch *)

Section SuccessBranch.
Import Ledger History.

Lemma filter_after_update {R} (p q : R -> bool) (f : R -> R) (l : list R) :
  (forall r, q (f r) = false) ->
  filter q (map (fun r => if p r then f r else r) l)
  = filter (fun r => negb (p r)) (filter q l).
Proof.
  intros Hq. induction l as [|r l IH]; [reflexivity|].
  cbn [map filter]. destruct (p r) eqn:Hp.
  - rewrite Hq. destruct (q r); cbn [filter]; rewrite ?Hp; cbn [negb]; exact IH.
  - destruct (q r); cbn [filter]; rewrite ?Hp; cbn [negb]; rewrite IH; reflexivity.
Qed.

Lemma purpose_test_false (purpose : string) :
  purpose <> "wallet_topup" -> purpose <> "other" ->
  (purpose =? "other") || (purpose =? "wallet_topup") = false.
Proof.
  intros H1 H2. apply orb_false_iff. split; now apply String.eqb_neq.
Qed.

(** The success branch, every call succeeding, on a transaction whose
    purpose is not credited. *)
Lemma charge_success_other_purpose now callbackData data w tx :
  faults w = [] ->
  filter (PaystackCallback.by_reference (cs_reference data))
    (mpesa_transactions (db w)) = [tx] ->
  Tx.purpose tx <> "wallet_topup" -> Tx.purpose tx <> "other" ->
  let w' := snd (PaystackCallback.on_charge_success now callbackData data w) in
  faults w' = []
  /\ mpesa_transactions (db w')
     = map (fun t => if PaystackCallback.by_reference (cs_reference data) t
                     then PaystackCallback.mark_success (cs_channel data)
                            (cs_reference data) (cs_paid_at data) callbackData now t
                     else t)
         (mpesa_transactions (db w))
  /\ platform_fees (db w') = (platform_fees (db w) ++ [fee_record tx data])%list.
Proof.
  intros Hf Hl H1 H2 w'. subst w'.
  unfold PaystackCallback.on_charge_success. unfold_client. rewrite Hf. cbn.
  rewrite Hl. cbn. rewrite (purpose_test_false _ H1 H2). cbn.
  repeat split; reflexivity.
Qed.

(** X5. The platform fee does not depend on the purpose: every call
    succeeding, a verified [charge.success] event whose transaction is
    found has its fee, 2.5% of the amount paid, handed to the fee
    collection once, whatever the purpose.  For a purpose other than
    "wallet_topup" and "other" the transaction is marked success and the fee
    collected although no wallet is credited, no wallet transaction written
    and no notification sent. *)
Theorem fee_is_collected_for_every_purpose :
  forall hmac_sha512_hex JSON_parse now env req key data w tx,
    method req <> "OPTIONS" ->
    PaystackCallback.PAYSTACK_SECRET_KEY env = Some key -> key <> "" ->
    x_paystack_signature req = Some (hmac_sha512_hex key (body req)) ->
    JSON_parse (body req) = Some (charge_success data) ->
    faults w = [] ->
    filter (PaystackCallback.by_reference (cs_reference data))
      (mpesa_transactions (db w)) = [tx] ->
    let w' := snd (PaystackCallback.serve hmac_sha512_hex JSON_parse now env req w) in
    platform_fees (db w') = (platform_fees (db w) ++ [fee_record tx data])%list
    /\ (Tx.purpose tx <> "wallet_topup" -> Tx.purpose tx <> "other" ->
        map Tx.status
          (filter (PaystackCallback.by_reference (cs_reference data))
             (mpesa_transactions (db w')))
        = ["success"]
        /\ user_central_wallets (db w') = user_central_wallets (db w)
        /\ wallet_transactions (db w') = wallet_transactions (db w)
        /\ chama_notifications (db w') = chama_notifications (db w)).
Proof.
  intros hm jp now env req key data w tx Hm Hk Hne Hs Hp Hf Hl w'. subst w'.
  rewrite (serve_charge_success _ _ _ _ _ _ _ _ Hm Hk Hne Hs Hp). cbn [snd].
  split.
  - destruct (string_dec (Tx.purpose tx) "wallet_topup") as [H1|H1].
    { destruct (charge_success_credits now (charge_success data) data w tx Hf Hl
                  (or_introl H1)) as [_ Hdb].
      cbn zeta in Hdb. rewrite Hdb. reflexivity. }
    destruct (string_dec (Tx.purpose tx) "other") as [H2|H2].
    { destruct (charge_success_credits now (charge_success data) data w tx Hf Hl
                  (or_intror H2)) as [_ Hdb].
      cbn zeta in Hdb. rewrite Hdb. reflexivity. }
    apply (charge_success_other_purpose now (charge_success data) data w tx Hf Hl H1 H2).
  - intros H1 H2.
    destruct (charge_success_other_purpose now (charge_success data) data w tx Hf Hl H1 H2)
      as (_ & Ht & _).
    cbn zeta in Ht. split.
    + rewrite Ht, filter_update by reflexivity. rewrite Hl. reflexivity.
    + apply charge_success_no_credit. intros tx' Htx'.
      apply looked_up_spec in Htx' as [_ Htx']. rewrite Hl in Htx'.
      injection Htx' as <-. split; assumption.
Qed.

Lemma fee_is_collected_for_every_purpose_witness :
  let w := Sample.world "contribution" 100%float 50%float [] in
  let w' := snd (PaystackCallback.serve Sample.hmac Sample.parse Sample.now Sample.env
                   (Sample.signed "success") w) in
  map Fee.p_amount (platform_fees (db w')) = [2.5%float]
  /\ user_central_wallets (db w') = user_central_wallets (db w).
Proof.
  intros w w'.
  destruct (fee_is_collected_for_every_purpose Sample.hmac Sample.parse Sample.now
              Sample.env (Sample.signed "success") "sk_test"
              {| cs_reference := "ref_1";
                 cs_amount := 10000%float;
                 cs_customer := {| email := "member@example.org" |};
                 cs_channel := "mobile_money";
                 cs_paid_at := "2024-05-01T10:00:00.000Z" |}
              w (Sample.pending "contribution" 100%float)
              ltac:(discriminate) eq_refl ltac:(discriminate) eq_refl eq_refl
              eq_refl eq_refl)
    as [Hfee Hrest].
  destruct (Hrest ltac:(discriminate) ltac:(discriminate)) as (_ & Hw & _).
  split; [unfold w'; rewrite Hfee; reflexivity | exact Hw].
Defined.

(** The success branch when the balance update is answered with an error:
    lookup, status update and wallet fetch having succeeded. *)
Lemma charge_success_update_refused now callbackData data w tx wallet e rest :
  faults w = (None :: None :: None :: Some e :: rest)%list ->
  filter (PaystackCallback.by_reference (cs_reference data))
    (mpesa_transactions (db w)) = [tx] ->
  Tx.purpose tx = "wallet_topup" \/ Tx.purpose tx = "other" ->
  filter (PaystackCallback.by_user (Tx.user_id tx)) (user_central_wallets (db w))
  = [wallet] ->
  let w' := snd (PaystackCallback.on_charge_success now callbackData data w) in
  mpesa_transactions (db w')
  = map (fun t => if PaystackCallback.by_reference (cs_reference data) t
                  then PaystackCallback.mark_success (cs_channel data)
                         (cs_reference data) (cs_paid_at data) callbackData now t
                  else t)
      (mpesa_transactions (db w))
  /\ user_central_wallets (db w') = user_central_wallets (db w)
  /\ wallet_transactions (db w') = wallet_transactions (db w)
  /\ chama_notifications (db w') = chama_notifications (db w)
  /\ platform_fees (db w')
     = match hd None rest with
       | None => (platform_fees (db w) ++ [fee_record tx data])%list
       | Some _ => platform_fees (db w)
       end.
Proof.
  intros Hf Hl Hp Hw w'. subst w'. apply purpose_test in Hp.
  unfold PaystackCallback.on_charge_success, PaystackCallback.credit_central_wallet.
  unfold_client. rewrite Hf. cbn. rewrite Hl. cbn. rewrite Hp. cbn. rewrite Hw. cbn.
  destruct (hd None rest); cbn; repeat split; reflexivity.
Qed.

(** X6. A credit that fails is not undone.  When the lookup, the status
    update and the wallet fetch succeed but the service refuses the balance
    update, the handler still answers 200: the transaction stays marked
    success, the fee is still handed to the fee collection, and the wallet,
    the ledger and the notifications are as before; marked success, the
    transaction is then never returned by the stuck-payment query, so the
    reconciler does not repair it. *)
Theorem refused_credit_is_marked_success :
  forall hmac_sha512_hex JSON_parse now env req key data w tx wallet e,
    method req <> "OPTIONS" ->
    PaystackCallback.PAYSTACK_SECRET_KEY env = Some key -> key <> "" ->
    x_paystack_signature req = Some (hmac_sha512_hex key (body req)) ->
    JSON_parse (body req) = Some (charge_success data) ->
    faults w = [None; None; None; Some e] ->
    filter (PaystackCallback.by_reference (cs_reference data))
      (mpesa_transactions (db w)) = [tx] ->
    Tx.purpose tx = "wallet_topup" \/ Tx.purpose tx = "other" ->
    filter (PaystackCallback.by_user (Tx.user_id tx)) (user_central_wallets (db w))
    = [wallet] ->
    let '(resp, w') := PaystackCallback.serve hmac_sha512_hex JSON_parse now env req w in
    status resp = 200%Z
    /\ map Tx.status
         (filter (PaystackCallback.by_reference (cs_reference data))
            (mpesa_transactions (db w')))
       = ["success"]
    /\ user_central_wallets (db w') = user_central_wallets (db w)
    /\ wallet_transactions (db w') = wallet_transactions (db w)
    /\ chama_notifications (db w') = chama_notifications (db w)
    /\ platform_fees (db w') = (platform_fees (db w) ++ [fee_record tx data])%list
    /\ (forall user Date_now,
          fst (Reconciler.queryFn (Some user) Date_now w')
          = Returned
              (filter (fun t => negb (PaystackCallback.by_reference (cs_reference data) t))
                 (filter (Reconciler.is_stuck user (Date_now - 5 * 60 * 1000))
                    (mpesa_transactions (db w))))).
Proof.
  intros hm jp now env req key data w tx wallet e Hm Hk Hne Hs Hp Hf Hl Hpu Hw.
  rewrite (serve_charge_success _ _ _ _ _ _ _ _ Hm Hk Hne Hs Hp).
  destruct (charge_success_update_refused now (charge_success data) data w tx wallet e []
              Hf Hl Hpu Hw) as (Ht & Hws & Hlg & Hn & Hfee).
  cbn zeta in *. cbn [hd] in Hfee.
  split; [reflexivity|]. split.
  { rewrite Ht, filter_update by reflexivity. rewrite Hl. reflexivity. }
  repeat (split; [assumption|]).
  intros user Date_now.
  assert (Hq : faults (snd (PaystackCallback.on_charge_success now (charge_success data)
                              data w)) = []).
  { unfold PaystackCallback.on_charge_success, PaystackCallback.credit_central_wallet.
    unfold_client. rewrite Hf. cbn. rewrite Hl. cbn.
    rewrite (proj2 (purpose_test _) Hpu). cbn. rewrite Hw. reflexivity. }
  unfold Reconciler.queryFn, Db.select, bind, request, read_db, ret. rewrite Hq. cbn.
  rewrite Ht. f_equal.
  apply filter_after_update. intros t. unfold Reconciler.is_stuck. cbn.
  now rewrite andb_false_r.
Qed.

Lemma refused_credit_is_marked_success_witness :
  let w := Sample.world "wallet_topup" 100%float 50%float
             [None; None; None; Some Sample.outage] in
  let '(resp, w') :=
    PaystackCallback.serve Sample.hmac Sample.parse Sample.now Sample.env
      (Sample.signed "success") w in
  status resp = 200%Z
  /\ map Wallet.balance (user_central_wallets (db w')) = [50%float]
  /\ fst (Reconciler.queryFn (Some {| Reconciler.id := "user_1" |}) 1714557700000 w')
     = Returned [].
Proof.
  intros w.
  pose proof (refused_credit_is_marked_success Sample.hmac Sample.parse Sample.now
                Sample.env (Sample.signed "success") "sk_test"
                {| cs_reference := "ref_1";
                   cs_amount := 10000%float;
                   cs_customer := {| email := "member@example.org" |};
                   cs_channel := "mobile_money";
                   cs_paid_at := "2024-05-01T10:00:00.000Z" |}
                w (Sample.pending "wallet_topup" 100%float)
                (Wallet.mk "user_1" 50%float None) Sample.outage
                ltac:(discriminate) eq_refl ltac:(discriminate) eq_refl eq_refl
                eq_refl eq_refl (or_introl eq_refl) eq_refl) as H.
  destruct (PaystackCallback.serve Sample.hmac Sample.parse Sample.now Sample.env
              (Sample.signed "success") w) as [resp w'].
  destruct H as (Hr & _ & Hw & _ & _ & _ & Hq).
  split; [exact Hr|]. split.
  - rewrite Hw. reflexivity.
  - rewrite Hq. reflexivity.
Defined.

End SuccessBranch.

(** ** Events, the repair path and the stuck-payment query together *)

Section Together.
Import Ledger History.

(** X7. A reference that the callback handler has processed is out of the
    reconciler's reach: after a verified [charge.success] or
    [charge.failed] event whose status update the service accepted, the
    transactions that the stuck-payment filter selects, for any user and at
    any time, are those it selected before less the ones with the event's
    reference. *)
Theorem processed_reference_is_not_stuck :
  forall hmac_sha512_hex JSON_parse now env req key w,
    method req <> "OPTIONS" ->
    PaystackCallback.PAYSTACK_SECRET_KEY env = Some key -> key <> "" ->
    x_paystack_signature req = Some (hmac_sha512_hex key (body req)) ->
    let w' := snd (PaystackCallback.serve hmac_sha512_hex JSON_parse now env req w) in
    (forall data user fiveMinutesAgo,
       JSON_parse (body req) = Some (charge_success data) ->
       nth 1 (faults w) None = None ->
       filter (Reconciler.is_stuck user fiveMinutesAgo) (mpesa_transactions (db w'))
       = filter (fun t => negb (PaystackCallback.by_reference (cs_reference data) t))
           (filter (Reconciler.is_stuck user fiveMinutesAgo) (mpesa_transactions (db w))))
    /\ (forall data user fiveMinutesAgo,
          JSON_parse (body req) = Some (charge_failed data) ->
          hd None (faults w) = None ->
          filter (Reconciler.is_stuck user fiveMinutesAgo) (mpesa_transactions (db w'))
          = filter (fun t => negb (PaystackCallback.by_reference (cf_reference data) t))
              (filter (Reconciler.is_stuck user fiveMinutesAgo) (mpesa_transactions (db w)))).
Proof.
  intros hm jp now env req key w Hm Hk Hne Hs w'. subst w'. split.
  - intros data user T Hp Hu.
    rewrite (serve_charge_success _ _ _ _ _ _ _ _ Hm Hk Hne Hs Hp). cbn [snd].
    rewrite (proj2 (charge_success_update now (charge_success data) data w) Hu).
    apply filter_after_update. intros t. unfold Reconciler.is_stuck. cbn.
    now rewrite andb_false_r.
  - intros data user T Hp Hu.
    rewrite (serve_charge_failed _ _ _ _ _ _ _ _ Hm Hk Hne Hs Hp). cbn [snd].
    rewrite (proj2 (charge_failed_update now (charge_failed data) data w) Hu).
    apply filter_after_update. intros t. unfold Reconciler.is_stuck. cbn.
    now rewrite andb_false_r.
Qed.

Lemma processed_reference_is_not_stuck_witness :
  let w := Sample.world "wallet_topup" 100%float 50%float [] in
  let w' := snd (PaystackCallback.serve Sample.hmac Sample.parse Sample.now Sample.env
                   (Sample.signed "airtel") w) in
  filter (Reconciler.is_stuck {| Reconciler.id := "user_1" |} 1714557400000)
    (mpesa_transactions (db w)) = [Sample.pending "wallet_topup" 100%float]
  /\ filter (Reconciler.is_stuck {| Reconciler.id := "user_1" |} 1714557400000)
       (mpesa_transactions (db w')) = [].
Proof.
  intros w w'. split; [reflexivity|].
  destruct (processed_reference_is_not_stuck Sample.hmac Sample.parse Sample.now
              Sample.env (Sample.signed "airtel") "sk_test" w
              ltac:(discriminate) eq_refl ltac:(discriminate) eq_refl) as [_ H].
  unfold w'.
  rewrite (H {| cf_reference := "ref_1";
                cf_gateway_response := Some "Your Airtel Money balance is Ksh 35.00";
                cf_channel := "mobile_money";
                cf_customer := Some {| email := "member@example.org" |} |}
             {| Reconciler.id := "user_1" |} 1714557400000%Z eq_refl eq_refl).
  reflexivity.
Defined.

(** X8. A failure event that arrives after the success event of the same
    reference is applied on top of it.  Every call succeeding, with the
    transaction found, credited and owned by a user with one wallet of
    balance X: after the [charge.success] event of net amount N and then a
    [charge.failed] event for the same reference, the transaction reads
    failed while the wallet keeps X + N and the ledger keeps the deposit:
    the credit is not reversed. *)
Theorem late_failure_keeps_the_credit :
  forall hmac_sha512_hex JSON_parse now env req req' key data data' w tx wallet,
    method req <> "OPTIONS" -> method req' <> "OPTIONS" ->
    PaystackCallback.PAYSTACK_SECRET_KEY env = Some key -> key <> "" ->
    x_paystack_signature req = Some (hmac_sha512_hex key (body req)) ->
    x_paystack_signature req' = Some (hmac_sha512_hex key (body req')) ->
    JSON_parse (body req) = Some (charge_success data) ->
    JSON_parse (body req') = Some (charge_failed data') ->
    cf_reference data' = cs_reference data ->
    faults w = [] ->
    filter (PaystackCallback.by_reference (cs_reference data))
      (mpesa_transactions (db w)) = [tx] ->
    Tx.purpose tx = "wallet_topup" \/ Tx.purpose tx = "other" ->
    filter (PaystackCallback.by_user (Tx.user_id tx)) (user_central_wallets (db w))
    = [wallet] ->
    let a := PaystackCallback.amountPaid (cs_amount data) in
    let N := PaystackCallback.netAmount a (PaystackCallback.platformFee a) in
    let w1 := snd (PaystackCallback.serve hmac_sha512_hex JSON_parse now env req w) in
    let w2 := snd (PaystackCallback.serve hmac_sha512_hex JSON_parse now env req' w1) in
    map Tx.status
      (filter (PaystackCallback.by_reference (cs_reference data)) (mpesa_transactions (db w2)))
    = ["failed"]
    /\ map Wallet.balance
         (filter (PaystackCallback.by_user (Tx.user_id tx)) (user_central_wallets (db w2)))
       = [(Wallet.balance wallet + N)%float]
    /\ wallet_transactions (db w2)
       = (wallet_transactions (db w) ++ [deposit_row tx data])%list.
Proof.
  intros hm jp now env req req' key data data' w tx wallet
    Hm Hm' Hk Hne Hs Hs' Hp Hp' Href Hf Hl Hpu Hw a N w1 w2.
  subst w2 w1.
  rewrite (serve_charge_success _ _ _ _ _ _ _ _ Hm Hk Hne Hs Hp). cbn [snd].
  rewrite (serve_charge_failed _ _ _ _ _ _ _ _ Hm' Hk Hne Hs' Hp'). cbn [snd].
  destruct (charge_success_credits now (charge_success data) data w tx Hf Hl Hpu)
    as [Hf1 Hdb1]. cbn zeta in Hdb1.
  set (w1 := snd (PaystackCallback.on_charge_success now (charge_success data) data w)) in *.
  destruct (charge_failed_run now (charge_failed data') data' w1 Hf1) as (_ & Ht & _).
  destruct (charge_failed_moves_no_money now (charge_failed data') data' w1)
    as (Hws & Hlg & _).
  cbn zeta in *. rewrite Href in Ht.
  split; [|split].
  - rewrite Ht, filter_update by reflexivity.
    rewrite Hdb1. cbn [mpesa_transactions].
    rewrite filter_update by reflexivity. rewrite Hl. reflexivity.
  - rewrite Hws, Hdb1. cbn [user_central_wallets].
    rewrite (credit_wallets_found _ _ _ _ _ Hw). reflexivity.
  - rewrite Hlg, Hdb1. reflexivity.
Qed.

Lemma late_failure_keeps_the_credit_witness :
  let w := Sample.world "wallet_topup" 100%float 50%float [] in
  let w1 := snd (PaystackCallback.serve Sample.hmac Sample.parse Sample.now Sample.env
                   (Sample.signed "success") w) in
  let w2 := snd (PaystackCallback.serve Sample.hmac Sample.parse Sample.now Sample.env
                   (Sample.signed "airtel") w1) in
  map Tx.status
    (filter (PaystackCallback.by_reference "ref_1") (mpesa_transactions (db w2)))
  = ["failed"]
  /\ map Wallet.balance
       (filter (PaystackCallback.by_user "user_1") (user_central_wallets (db w2)))
     = [147.5%float].
Proof.
  intros w w1 w2.
  destruct (late_failure_keeps_the_credit Sample.hmac Sample.parse Sample.now Sample.env
              (Sample.signed "success") (Sample.signed "airtel") "sk_test"
              {| cs_reference := "ref_1";
                 cs_amount := 10000%float;
                 cs_customer := {| email := "member@example.org" |};
                 cs_channel := "mobile_money";
                 cs_paid_at := "2024-05-01T10:00:00.000Z" |}
              {| cf_reference := "ref_1";
                 cf_gateway_response := Some "Your Airtel Money balance is Ksh 35.00";
                 cf_channel := "mobile_money";
                 cf_customer := Some {| email := "member@example.org" |} |}
              w (Sample.pending "wallet_topup" 100%float) (Wallet.mk "user_1" 50%float None)
              ltac:(discriminate) ltac:(discriminate) eq_refl ltac:(discriminate)
              eq_refl eq_refl eq_refl eq_refl eq_refl eq_refl eq_refl
              (or_introl eq_refl) eq_refl)
    as (H1 & H2 & _).
  split; [exact H1 | exact H2].
Defined.

(** X9. The two paths do not see each other's credits.  Every call
    succeeding, with the transaction found, credited by the callback and
    owned by a user with one wallet of balance X: after a verified
    [charge.success] event of net amount N, a call of the manual credit
    function for the same reference, on the transaction now marked
    success, answers success and adds its own net amount M of the stored
    amount: the balance is (X + N) + M and the ledger has two deposits for
    the one reference. *)
Theorem manual_credit_after_callback_credits_again :
  forall hmac_sha512_hex JSON_parse req_json req_json_error now env req req' key data w tx wallet,
    method req <> "OPTIONS" ->
    PaystackCallback.PAYSTACK_SECRET_KEY env = Some key -> key <> "" ->
    x_paystack_signature req = Some (hmac_sha512_hex key (body req)) ->
    JSON_parse (body req) = Some (charge_success data) ->
    method req' <> "OPTIONS" ->
    req_json (body req') = Some (cs_reference data) ->
    faults w = [] ->
    filter (PaystackCallback.by_reference (cs_reference data))
      (mpesa_transactions (db w)) = [tx] ->
    Tx.purpose tx = "wallet_topup" \/ Tx.purpose tx = "other" ->
    filter (PaystackCallback.by_user (Tx.user_id tx)) (user_central_wallets (db w))
    = [wallet] ->
    let X := Wallet.balance wallet in
    let a := PaystackCallback.amountPaid (cs_amount data) in
    let N := PaystackCallback.netAmount a (PaystackCallback.platformFee a) in
    let M := ManualCredit.netAmount (Tx.amount tx) (ManualCredit.platformFee (Tx.amount tx)) in
    let w1 := snd (PaystackCallback.serve hmac_sha512_hex JSON_parse now env req w) in
    let '(resp, w2) := ManualCredit.serve req_json req_json_error now req' w1 in
    map Tx.status
      (filter (PaystackCallback.by_reference (cs_reference data)) (mpesa_transactions (db w1)))
    = ["success"]
    /\ content resp = Credited true "Payment credited successfully" M ((X + N) + M)%float
    /\ map Wallet.balance
         (filter (PaystackCallback.by_user (Tx.user_id tx)) (user_central_wallets (db w2)))
       = [((X + N) + M)%float]
    /\ map WalletTx.reference_id (wallet_transactions (db w2))
       = (map WalletTx.reference_id (wallet_transactions (db w))
          ++ [cs_reference data; cs_reference data])%list.
Proof.
  intros hm jp rj rje now env req req' key data w tx wallet
    Hm Hk Hne Hs Hp Hm' Hr Hf Hl Hpu Hw X a N M w1.
  subst w1.
  rewrite (serve_charge_success _ _ _ _ _ _ _ _ Hm Hk Hne Hs Hp). cbn [snd].
  destruct (charge_success_credits now (charge_success data) data w tx Hf Hl Hpu)
    as [Hf1 Hdb1]. cbn zeta in Hdb1.
  set (w1 := snd (PaystackCallback.on_charge_success now (charge_success data) data w)) in *.
  assert (Hl1 : filter (ManualCredit.by_reference (cs_reference data))
                  (mpesa_transactions (db w1))
                = [PaystackCallback.mark_success (cs_channel data) (cs_reference data)
                     (cs_paid_at data) (charge_success data) now tx]).
  { rewrite Hdb1. cbn [mpesa_transactions].
    change (ManualCredit.by_reference (cs_reference data))
      with (PaystackCallback.by_reference (cs_reference data)).
    rewrite filter_update by reflexivity. rewrite Hl. reflexivity. }
  assert (Hw1 : filter (PaystackCallback.by_user (Tx.user_id tx))
                  (user_central_wallets (db w1))
                = [PaystackCallback.set_balance (X + N)%float now wallet]).
  { rewrite Hdb1. cbn [user_central_wallets]. now apply credit_wallets_found. }
  pose proof (manual_credits rj rje now req' (cs_reference data) w1 _ Hm' Hr Hf1 Hl1) as H2.
  cbn zeta in H2.
  destruct (ManualCredit.serve rj rje now req' w1) as [resp w2].
  destruct H2 as (_ & Hdb2 & Hr2).
  cbn [Tx.user_id Tx.amount PaystackCallback.mark_success] in Hdb2, Hr2.
  change (ManualCredit.by_user (Tx.user_id tx))
    with (PaystackCallback.by_user (Tx.user_id tx)) in Hr2.
  rewrite Hw1 in Hr2.
  split; [|split; [|split]].
  - change (PaystackCallback.by_reference (cs_reference data))
      with (ManualCredit.by_reference (cs_reference data)).
    rewrite Hl1. reflexivity.
  - rewrite Hr2. reflexivity.
  - rewrite Hdb2. cbn [user_central_wallets].
    rewrite (credit_wallets_found _ _ _ _ _ Hw1). reflexivity.
  - rewrite Hdb2. cbn [wallet_transactions]. rewrite Hdb1. cbn [wallet_transactions].
    rewrite !map_app, <- app_assoc. reflexivity.
Qed.

Lemma manual_credit_after_callback_credits_again_witness :
  let w := Sample.world "wallet_topup" 100%float 50%float [] in
  let w1 := snd (PaystackCallback.serve Sample.hmac Sample.parse Sample.now Sample.env
                   (Sample.signed "success") w) in
  let '(resp, w2) :=
    ManualCredit.serve Some Sample.parse_error Sample.now
      {| method := "POST"; x_paystack_signature := None; body := "ref_1" |} w1 in
  map Wallet.balance
    (filter (PaystackCallback.by_user "user_1") (user_central_wallets (db w2)))
  = [245%float].
Proof.
  intros w w1.
  pose proof (manual_credit_after_callback_credits_again
                Sample.hmac Sample.parse Some Sample.parse_error Sample.now Sample.env
                (Sample.signed "success")
                {| method := "POST"; x_paystack_signature := None; body := "ref_1" |}
                "sk_test"
                {| cs_reference := "ref_1";
                   cs_amount := 10000%float;
                   cs_customer := {| email := "member@example.org" |};
                   cs_channel := "mobile_money";
                   cs_paid_at := "2024-05-01T10:00:00.000Z" |}
                w (Sample.pending "wallet_topup" 100%float)
                (Wallet.mk "user_1" 50%float None)
                ltac:(discriminate) eq_refl ltac:(discriminate) eq_refl eq_refl
                ltac:(discriminate) eq_refl eq_refl eq_refl (or_introl eq_refl) eq_refl)
    as H.
  cbn zeta in H. fold w w1 in H.
  destruct (ManualCredit.serve Some Sample.parse_error Sample.now
              {| method := "POST"; x_paystack_signature := None; body := "ref_1" |} w1)
    as [resp w2].
  destruct H as (_ & _ & H & _). exact H.
Defined.

End Together.

(** ** Edges of the manual credit function *)

Section ManualEdges.
Import Ledger History.

(** X10. When the lookup by reference does not hand over exactly one
    transaction (the service answers with an error, no row has the
    reference, or several have it), the manual credit function answers 400
    with the error "Transaction not found" after that single call, and no
    table is changed. *)
Theorem unknown_reference_is_refused :
  forall req_json req_json_error now req reference w,
    method req <> "OPTIONS" ->
    req_json (body req) = Some reference ->
    (forall tx, looked_up reference w <> Some tx) ->
    let '(resp, w') := ManualCredit.serve req_json req_json_error now req w in
    status resp = 400%Z
    /\ content resp = Failure false "Transaction not found"
    /\ db w' = db w
    /\ calls w' = (calls w ++ [ {| target := "mpesa_transactions"; op := Select |} ])%list.
Proof.
  intros rj rje now req reference w Hm Hr Hnone.
  unfold ManualCredit.serve. rewrite (not_options _ Hm).
  unfold try_catch, ManualCredit.process. rewrite Hr.
  revert Hnone. unfold looked_up. unfold_client. cbn.
  change (ManualCredit.by_reference reference)
    with (PaystackCallback.by_reference reference).
  destruct (hd None (faults w)); cbn; [repeat split|].
  destruct (filter (PaystackCallback.by_reference reference) (mpesa_transactions (db w)))
    as [|tx [|tx' l]]; cbn; intros Hnone; try (repeat split; fail).
  now destruct (Hnone tx).
Qed.

Lemma unknown_reference_is_refused_witness :
  let w := Sample.world "wallet_topup" 100%float 50%float [] in
  let '(resp, w') :=
    ManualCredit.serve Some Sample.parse_error Sample.now
      {| method := "POST"; x_paystack_signature := None; body := "ref_2" |} w in
  status resp = 400%Z /\ db w' = db w.
Proof.
  intros w.
  pose proof (unknown_reference_is_refused Some Sample.parse_error Sample.now
                {| method := "POST"; x_paystack_signature := None; body := "ref_2" |}
                "ref_2" w ltac:(discriminate) eq_refl ltac:(intros tx; discriminate)) as H.
  destruct (ManualCredit.serve Some Sample.parse_error Sample.now
              {| method := "POST"; x_paystack_signature := None; body := "ref_2" |} w)
    as [resp w'].
  destruct H as (H1 & _ & H2 & _). split; assumption.
Defined.

(** The manual credit function when the lookup, the wallet fetch and the
    balance update succeed: what the two last calls are answered does not
    reach the response. *)
Lemma manual_credit_tail req_json req_json_error now req reference w tx wallet insert_fault update_fault :
  method req <> "OPTIONS" ->
  req_json (body req) = Some reference ->
  faults w = [None; None; None; insert_fault; update_fault] ->
  filter (ManualCredit.by_reference reference) (mpesa_transactions (db w)) = [tx] ->
  filter (ManualCredit.by_user (Tx.user_id tx)) (user_central_wallets (db w)) = [wallet] ->
  let net := ManualCredit.netAmount (Tx.amount tx) (ManualCredit.platformFee (Tx.amount tx)) in
  let '(resp, w') := ManualCredit.serve req_json req_json_error now req w in
  resp = {| status := 200;
            content := Credited true "Payment credited successfully" net
                         (Wallet.balance wallet + net)%float;
            headers := ManualCredit.jsonHeaders |}
  /\ faults w' = []
  /\ user_central_wallets (db w')
     = credit_wallets now (Tx.user_id tx) net (user_central_wallets (db w))
  /\ wallet_transactions (db w')
     = match insert_fault with
       | None => (wallet_transactions (db w) ++ [manual_row tx reference])%list
       | Some _ => wallet_transactions (db w)
       end
  /\ mpesa_transactions (db w')
     = match update_fault with
       | None => map (fun t => if ManualCredit.by_reference reference t
                               then ManualCredit.mark_success reference now t else t)
                   (mpesa_transactions (db w))
       | Some _ => mpesa_transactions (db w)
       end.
Proof.
  intros Hm Hr Hf Hl Hw net.
  unfold ManualCredit.serve. rewrite (not_options _ Hm).
  unfold try_catch, ManualCredit.process. rewrite Hr.
  unfold_client. rewrite Hf. cbn. rewrite Hl. cbn. rewrite Hw. cbn.
  unfold credit_wallets.
  change (PaystackCallback.by_user (Tx.user_id tx))
    with (ManualCredit.by_user (Tx.user_id tx)).
  rewrite Hw.
  destruct insert_fault, update_fault; cbn; repeat split; reflexivity.
Qed.

(** X11. The manual credit function reports success as soon as the balance
    update has succeeded: the answers to the ledger insert and to the
    status update are not looked at.  When the service refuses both, the
    answer is still 200 with success true, the wallet is credited, no
    wallet transaction records it, and the transaction keeps its status: a
    transaction that the stuck-payment filter selected is selected again,
    so the next poll credits it once more. *)
Theorem success_is_reported_before_the_ledger_is_written :
  forall req_json req_json_error now req reference w tx wallet e e',
    method req <> "OPTIONS" ->
    req_json (body req) = Some reference ->
    faults w = [None; None; None; Some e; Some e'] ->
    filter (ManualCredit.by_reference reference) (mpesa_transactions (db w)) = [tx] ->
    filter (ManualCredit.by_user (Tx.user_id tx)) (user_central_wallets (db w)) = [wallet] ->
    let net := ManualCredit.netAmount (Tx.amount tx) (ManualCredit.platformFee (Tx.amount tx)) in
    let '(resp, w') := ManualCredit.serve req_json req_json_error now req w in
    status resp = 200%Z
    /\ content resp
       = Credited true "Payment credited successfully" net (Wallet.balance wallet + net)%float
    /\ map Wallet.balance
         (filter (ManualCredit.by_user (Tx.user_id tx)) (user_central_wallets (db w')))
       = [(Wallet.balance wallet + net)%float]
    /\ wallet_transactions (db w') = wallet_transactions (db w)
    /\ mpesa_transactions (db w') = mpesa_transactions (db w)
    /\ (forall user Date_now,
          fst (Reconciler.queryFn (Some user) Date_now w')
          = Returned (filter (Reconciler.is_stuck user (Date_now - 5 * 60 * 1000))
                        (mpesa_transactions (db w)))).
Proof.
  intros rj rje now req reference w tx wallet e e' Hm Hr Hf Hl Hw net.
  pose proof (manual_credit_tail rj rje now req reference w tx wallet (Some e) (Some e')
                Hm Hr Hf Hl Hw) as H.
  cbn zeta in H.
  destruct (ManualCredit.serve rj rje now req w) as [resp w'].
  destruct H as (Hresp & Hf' & Hws & Hlg & Ht).
  rewrite Hresp. split; [reflexivity|]. split; [reflexivity|]. split.
  { rewrite Hws.
    change (ManualCredit.by_user (Tx.user_id tx))
      with (PaystackCallback.by_user (Tx.user_id tx)) in *.
    rewrite (credit_wallets_found _ _ _ _ _ Hw). reflexivity. }
  split; [exact Hlg|]. split; [exact Ht|].
  intros user Date_now.
  unfold Reconciler.queryFn, Db.select, bind, request, read_db, ret. rewrite Hf'. cbn.
  rewrite Ht. reflexivity.
Qed.

Lemma success_is_reported_before_the_ledger_is_written_witness :
  let w := Sample.world "wallet_topup" 100%float 50%float
             [None; None; None; Some Sample.outage; Some Sample.outage] in
  let '(resp, w') :=
    ManualCredit.serve Some Sample.parse_error Sample.now
      {| method := "POST"; x_paystack_signature := None; body := "ref_1" |} w in
  status resp = 200%Z
  /\ wallet_transactions (db w') = []
  /\ fst (Reconciler.queryFn (Some {| Reconciler.id := "user_1" |}) 1714557700000 w')
     = Returned [Sample.pending "wallet_topup" 100%float].
Proof.
  intros w.
  pose proof (success_is_reported_before_the_ledger_is_written Some Sample.parse_error Sample.now
                {| method := "POST"; x_paystack_signature := None; body := "ref_1" |}
                "ref_1" w (Sample.pending "wallet_topup" 100%float)
                (Wallet.mk "user_1" 50%float None) Sample.outage Sample.outage
                ltac:(discriminate) eq_refl eq_refl eq_refl eq_refl) as H.
  cbn zeta in H.
  destruct (ManualCredit.serve Some Sample.parse_error Sample.now
              {| method := "POST"; x_paystack_signature := None; body := "ref_1" |} w)
    as [resp w'].
  destruct H as (H1 & _ & _ & H2 & _ & H3).
  split; [exact H1|]. split; [exact H2|]. rewrite H3. reflexivity.
Defined.

(** X12. The manual credit function has no gate on the purpose.  Every
    call succeeding, for a transaction found whose purpose is neither
    "wallet_topup" nor "other": a verified [charge.success] event for it
    leaves every wallet and the ledger as they were, while the manual
    credit function for the same reference credits the owner's wallet with
    the net amount of the stored amount and writes a wallet transaction. *)
Theorem manual_credit_has_no_purpose_gate :
  forall hmac_sha512_hex JSON_parse req_json req_json_error now env req req' key data w tx,
    method req <> "OPTIONS" ->
    PaystackCallback.PAYSTACK_SECRET_KEY env = Some key -> key <> "" ->
    x_paystack_signature req = Some (hmac_sha512_hex key (body req)) ->
    JSON_parse (body req) = Some (charge_success data) ->
    method req' <> "OPTIONS" ->
    req_json (body req') = Some (cs_reference data) ->
    faults w = [] ->
    filter (PaystackCallback.by_reference (cs_reference data))
      (mpesa_transactions (db w)) = [tx] ->
    Tx.purpose tx <> "wallet_topup" -> Tx.purpose tx <> "other" ->
    let net := ManualCredit.netAmount (Tx.amount tx) (ManualCredit.platformFee (Tx.amount tx)) in
    let by_callback :=
      snd (PaystackCallback.serve hmac_sha512_hex JSON_parse now env req w) in
    let by_hand := snd (ManualCredit.serve req_json req_json_error now req' w) in
    (user_central_wallets (db by_callback) = user_central_wallets (db w)
     /\ wallet_transactions (db by_callback) = wallet_transactions (db w))
    /\ (user_central_wallets (db by_hand)
        = credit_wallets now (Tx.user_id tx) net (user_central_wallets (db w))
        /\ wallet_transactions (db by_hand)
           = (wallet_transactions (db w) ++ [manual_row tx (cs_reference data)])%list).
Proof.
  intros hm jp rj rje now env req req' key data w tx
    Hm Hk Hne Hs Hp Hm' Hr Hf Hl H1 H2 net by_callback by_hand.
  subst by_callback by_hand. split.
  - rewrite (serve_charge_success _ _ _ _ _ _ _ _ Hm Hk Hne Hs Hp). cbn [snd].
    assert (H : forall tx', looked_up (cs_reference data) w = Some tx' ->
                  Tx.purpose tx' <> "wallet_topup" /\ Tx.purpose tx' <> "other").
    { intros tx' Htx'. apply looked_up_spec in Htx' as [_ Htx'].
      rewrite Hl in Htx'. injection Htx' as <-. split; assumption. }
    destruct (charge_success_no_credit now (charge_success data) data w H) as (Ha & Hb & _).
    split; assumption.
  - pose proof (manual_credits rj rje now req' (cs_reference data) w tx Hm' Hr Hf Hl) as H.
    cbn zeta in H.
    destruct (ManualCredit.serve rj rje now req' w) as [resp wm].
    destruct H as (_ & Hdb & _). cbn [snd]. rewrite Hdb. split; reflexivity.
Qed.

Lemma manual_credit_has_no_purpose_gate_witness :
  let w := Sample.world "contribution" 100%float 50%float [] in
  map Wallet.balance
    (user_central_wallets
       (db (snd (PaystackCallback.serve Sample.hmac Sample.parse Sample.now Sample.env
                   (Sample.signed "success") w))))
  = [50%float]
  /\ map Wallet.balance
       (user_central_wallets
          (db (snd (ManualCredit.serve Some Sample.parse_error Sample.now
                      {| method := "POST"; x_paystack_signature := None; body := "ref_1" |}
                      w))))
     = [147.5%float].
Proof.
  intros w.
  destruct (manual_credit_has_no_purpose_gate
              Sample.hmac Sample.parse Some Sample.parse_error Sample.now Sample.env (Sample.signed "success")
              {| method := "POST"; x_paystack_signature := None; body := "ref_1" |}
              "sk_test"
              {| cs_reference := "ref_1";
                 cs_amount := 10000%float;
                 cs_customer := {| email := "member@example.org" |};
                 cs_channel := "mobile_money";
                 cs_paid_at := "2024-05-01T10:00:00.000Z" |}
              w (Sample.pending "contribution" 100%float)
              ltac:(discriminate) eq_refl ltac:(discriminate) eq_refl eq_refl
              ltac:(discriminate) eq_refl eq_refl eq_refl
              ltac:(discriminate) ltac:(discriminate))
    as [[Ha _] [Hb _]].
  split; [rewrite Ha | rewrite Hb]; reflexivity.
Defined.

End ManualEdges.

(** ** Whose wallets a credit touches *)

Section Isolation.
Import Ledger.

Lemma other_user_test (u v : string) (r : Wallet.t) :
  u <> v -> PaystackCallback.by_user u r = true -> PaystackCallback.by_user v r = false.
Proof.
  unfold PaystackCallback.by_user. intros Huv Hu.
  apply String.eqb_eq in Hu. apply String.eqb_neq. congruence.
Qed.

Lemma filter_other_user (u v now : string) (b : number) (l : list Wallet.t) :
  u <> v ->
  filter (PaystackCallback.by_user v)
    (map (fun r => if PaystackCallback.by_user u r
                   then PaystackCallback.set_balance b now r else r) l)
  = filter (PaystackCallback.by_user v) l.
Proof.
  intros Huv. induction l as [|r l IH]; [reflexivity|].
  cbn [map filter]. destruct (PaystackCallback.by_user u r) eqn:Hu.
  - change (PaystackCallback.by_user v (PaystackCallback.set_balance b now r))
      with (PaystackCallback.by_user v r).
    rewrite (other_user_test u v r Huv Hu). exact IH.
  - destruct (PaystackCallback.by_user v r); rewrite IH; reflexivity.
Qed.

Lemma filter_other_new (u v : string) (b : number) (l : list Wallet.t) :
  u <> v ->
  filter (PaystackCallback.by_user v)
    (l ++ [ {| Wallet.user_id := u; Wallet.balance := b; Wallet.updated_at := None |} ])
  = filter (PaystackCallback.by_user v) l.
Proof.
  intros Huv. rewrite filter_app. cbn.
  replace (u =? v) with false by (symmetry; now apply String.eqb_neq).
  apply app_nil_r.
Qed.

Lemma charge_success_isolation now callbackData data w v :
  (forall tx, looked_up (cs_reference data) w = Some tx -> Tx.user_id tx <> v) ->
  let w' := snd (PaystackCallback.on_charge_success now callbackData data w) in
  filter (PaystackCallback.by_user v) (user_central_wallets (db w'))
  = filter (PaystackCallback.by_user v) (user_central_wallets (db w)).
Proof.
  intros H w'. subst w'. revert H. unfold looked_up.
  unfold PaystackCallback.on_charge_success, PaystackCallback.credit_central_wallet.
  unfold_client. unfold hd, tl.
  destruct (faults w) as [|f0 [|f1 fs]] eqn:Hf; cbn;
    try destruct f0; cbn;
    try (destruct (filter (PaystackCallback.by_reference (cs_reference data))
                     (mpesa_transactions (db w))) as [|tx [|tx' l]] eqn:Hl; cbn);
    intros H;
    try (specialize (H _ eq_refl));
    split_cases;
    rewrite ?filter_other_user, ?filter_other_new by assumption;
    reflexivity.
Qed.

Lemma manual_credit_isolation req_json req_json_error now req reference w v :
  req_json (body req) = Some reference ->
  (forall tx, looked_up reference w = Some tx -> Tx.user_id tx <> v) ->
  let w' := snd (ManualCredit.process req_json req_json_error now req w) in
  filter (PaystackCallback.by_user v) (user_central_wallets (db w'))
  = filter (PaystackCallback.by_user v) (user_central_wallets (db w)).
Proof.
  intros Hr H w'. subst w'. revert H. unfold looked_up.
  unfold ManualCredit.process. rewrite Hr.
  unfold_client. unfold hd, tl.
  change (ManualCredit.by_reference reference)
    with (PaystackCallback.by_reference reference).
  destruct (faults w) as [|f0 fs] eqn:Hf; cbn;
    try destruct f0; cbn;
    try (destruct (filter (PaystackCallback.by_reference reference)
                     (mpesa_transactions (db w))) as [|tx [|tx' l]] eqn:Hl; cbn);
    intros H;
    try (specialize (H _ eq_refl));
    split_cases;
    change ManualCredit.by_user with PaystackCallback.by_user;
    change ManualCredit.set_balance with PaystackCallback.set_balance;
    rewrite ?filter_other_user, ?filter_other_new by assumption;
    reflexivity.
Qed.

Lemma snd_try_catch {A} (m : M A) (handler : Thrown -> A) (w : World) :
  snd (try_catch m handler w) = snd (m w).
Proof. unfold try_catch. now destruct (m w) as [[a|e] w']. Qed.

Lemma snd_bind_ret {A B} (m : M A) (b : B) (w : World) :
  snd (bind m (fun _ => ret b) w) = snd (m w).
Proof. unfold bind, ret. now destruct (m w) as [[a|e] w']. Qed.

(** X13. A credit touches the wallets of the transaction's owner only.
    Whatever the request and whatever the service answers, the callback
    handler and the manual credit function leave the wallets of a user [v]
    exactly as they were, unless the request is a [charge.success] event,
    or a manual credit, for a reference whose lookup hands over a
    transaction owned by [v]. *)
Theorem credits_touch_the_owner_only :
  (forall hmac_sha512_hex JSON_parse now env req w v,
     (forall data tx,
        JSON_parse (body req) = Some (charge_success data) ->
        looked_up (cs_reference data) w = Some tx -> Tx.user_id tx <> v) ->
     filter (PaystackCallback.by_user v)
       (user_central_wallets
          (db (snd (PaystackCallback.serve hmac_sha512_hex JSON_parse now env req w))))
     = filter (PaystackCallback.by_user v) (user_central_wallets (db w)))
  /\ (forall req_json req_json_error now req w v,
        (forall reference tx,
           req_json (body req) = Some reference ->
           looked_up reference w = Some tx -> Tx.user_id tx <> v) ->
        filter (PaystackCallback.by_user v)
          (user_central_wallets (db (snd (ManualCredit.serve req_json req_json_error now req w))))
        = filter (PaystackCallback.by_user v) (user_central_wallets (db w))).
Proof.
  split.
  - intros hm jp now env req w v H.
    unfold PaystackCallback.serve.
    destruct (method req =? "OPTIONS"); [reflexivity|].
    rewrite snd_try_catch. unfold PaystackCallback.process.
    destruct (PaystackCallback.PAYSTACK_SECRET_KEY env) as [[|c key]|]; try reflexivity.
    destruct (PaystackCallback.same_signature _ _); [|reflexivity]. cbn [negb].
    destruct (jp (body req)) as [[d|d|e| |]|] eqn:Hp; try reflexivity.
    + rewrite snd_bind_ret. apply charge_success_isolation. intros tx. now apply H.
    + rewrite snd_bind_ret.
      now rewrite (proj1 (charge_failed_moves_no_money now (charge_failed d) d w)).
  - intros rj rje now req w v H. unfold ManualCredit.serve.
    destruct (method req =? "OPTIONS"); [reflexivity|].
    rewrite snd_try_catch.
    destruct (rj (body req)) as [reference|] eqn:Hr.
    + apply (manual_credit_isolation rj rje now req reference w v Hr).
      intros tx. now apply H.
    + unfold ManualCredit.process. rewrite Hr. reflexivity.
Qed.

(** Two members, each with a wallet: the payment of the first is credited,
    by the callback handler and by the manual credit function, to the
    wallet of the first (50 becomes 147.5); the wallet of the second is the
    row it was. *)
Lemma credits_touch_the_owner_only_witness :
  let w := Sample.two_members "wallet_topup" 100%float 50%float [] in
  let by_callback :=
    db (snd (PaystackCallback.serve Sample.hmac Sample.parse Sample.now Sample.env
               (Sample.signed "success") w)) in
  let by_hand :=
    db (snd (ManualCredit.serve Some Sample.parse_error Sample.now
               {| method := "POST"; x_paystack_signature := None; body := "ref_1" |}
               w)) in
  (map Wallet.balance (user_central_wallets by_callback) = [147.5%float; 70%float]
   /\ filter (PaystackCallback.by_user "user_2") (user_central_wallets by_callback)
      = [Wallet.mk "user_2" 70%float None])
  /\ (map Wallet.balance (user_central_wallets by_hand) = [147.5%float; 70%float]
      /\ filter (PaystackCallback.by_user "user_2") (user_central_wallets by_hand)
         = [Wallet.mk "user_2" 70%float None]).
Proof.
  intros w by_callback by_hand. split; (split; [reflexivity|]).
  - unfold by_callback.
    rewrite (proj1 credits_touch_the_owner_only Sample.hmac Sample.parse Sample.now
               Sample.env (Sample.signed "success") w "user_2").
    + reflexivity.
    + intros data tx [= <-] [= <-]. discriminate.
  - unfold by_hand.
    rewrite (proj2 credits_touch_the_owner_only Some Sample.parse_error Sample.now
               {| method := "POST"; x_paystack_signature := None; body := "ref_1" |}
               w "user_2").
    + reflexivity.
    + intros reference tx [= <-] [= <-]. discriminate.
Defined.

End Isolation.

(** ** What the balance pattern captures *)

Section CapturedText.
Import PaystackCallback Text.

Lemma length_append (a b : string) : length (a ++ b) = (length a + length b)%nat.
Proof. induction a as [|c a IH]; cbn; [reflexivity | now rewrite IH]. Qed.

Lemma substring_prefix (a b : string) : substring 0 (length a) (a ++ b) = a.
Proof.
  induction a as [|c a IH]; cbn.
  - now destruct b.
  - now rewrite IH.
Qed.

Lemma plus_class_inv (p : ascii -> bool) (s : string) (c : capture) k r :
  plus_class p s c k = Some r ->
  exists pre s', s = pre ++ s' /\ pre <> "" /\ all_chars p pre = true /\ k s' c = Some r.
Proof.
  induction s as [|a s IH]; cbn; [discriminate|].
  destruct (p a) eqn:Hp; [|discriminate].
  destruct (plus_class p s c k) as [r'|] eqn:Hrec.
  - intros [= ->]. destruct (IH eq_refl) as (pre & s' & -> & _ & Hall & Hk).
    exists (String a pre), s'. cbn. rewrite Hp, Hall. repeat split; auto. discriminate.
  - intros Hk. exists (String a ""), s. cbn. rewrite Hp. repeat split; auto. discriminate.
Qed.

Lemma lit_ci_passes (w s : string) (c : capture) k r :
  lit_ci w s c k = Some r -> exists s', k s' c = Some r.
Proof.
  revert s. induction w as [|a w IH]; intros s; cbn.
  - intros H. now exists s.
  - destruct s as [|b s]; [discriminate|].
    destruct (Ascii.eqb (to_lower a) (to_lower b)); [apply IH | discriminate].
Qed.

Lemma spaces_passes (s : string) :
  forall skip c k r, spaces skip s c k = Some r -> exists s', k s' c = Some r.
Proof.
  induction s as [|a s IH]; intros skip c k r; destruct skip as [|skip];
    cbn [spaces]; try discriminate.
  - cbn. eauto.
  - destruct (space_width (String a s)) as [|skip'].
    + eauto.
    + destruct (spaces skip' s c k) as [r'|] eqn:Hrec.
      * intros [= ->]. eapply IH, Hrec.
      * eauto.
  - apply IH.
Qed.

Lemma plus_space_passes (s : string) (c : capture) k r :
  plus_space s c k = Some r -> exists s', k s' c = Some r.
Proof.
  unfold plus_space. destruct (space_width s); [discriminate|].
  destruct s as [|a s]; [discriminate|]. apply spaces_passes.
Qed.

Lemma group1_plus_class_inv (p : ascii -> bool) (s : string) (c : capture) k r :
  group1 (plus_class p) s c k = Some r ->
  exists g s', g <> "" /\ all_chars p g = true /\ k s' (Some g) = Some r.
Proof.
  unfold group1. intros H.
  apply plus_class_inv in H as (pre & s' & -> & Hne & Hall & Hk).
  exists pre, s'. repeat split; auto.
  rewrite length_append in Hk.
  replace (length pre + length s' - length s')%nat with (length pre) in Hk by lia.
  now rewrite substring_prefix in Hk.
Qed.

Lemma balance_regex_inv (s : string) (r : capture) :
  balance_regex s None (fun _ c => Some c) = Some r ->
  exists g, r = Some g /\ g <> "" /\ all_chars amount_char g = true.
Proof.
  unfold balance_regex, seq, alt. intros H.
  apply lit_ci_passes in H as (s1 & H).
  apply plus_space_passes in H as (s2 & H).
  assert (Hg : exists s3 c3, group1 (plus_class amount_char) s3 c3 (fun _ c => Some c) = Some r).
  { destruct (lit_ci "Ksh" s2 None _) as [r1|] eqn:H1.
    - injection H as ->. apply lit_ci_passes in H1 as (s3 & H1). eauto.
    - destruct (lit_ci "KES" s2 None _) as [r2|] eqn:H2.
      + injection H as ->. apply lit_ci_passes in H2 as (s3 & H2). eauto.
      + apply lit_ci_passes in H as (s3 & H).
        apply plus_space_passes in H as (s4 & H). eauto. }
  destruct Hg as (s3 & c3 & Hg).
  apply group1_plus_class_inv in Hg as (g & s' & Hne & Hall & [= <-]).
  now exists g.
Qed.

Lemma regex_match_inv (s : string) (r : capture) :
  regex_match balance_regex s = Some r ->
  exists g, r = Some g /\ g <> "" /\ all_chars amount_char g = true.
Proof.
  induction s as [|a s IH]; cbn [regex_match].
  - destruct (balance_regex "" None _) as [c|] eqn:H; [|discriminate].
    intros [= <-]. now apply balance_regex_inv in H.
  - destruct (balance_regex (String a s) None _) as [c|] eqn:H.
    + intros [= <-]. now apply balance_regex_inv in H.
    + exact IH.
Qed.

Lemma span_digit_dots (t : string) :
  all_chars (Ascii.eqb ".") t = true -> span is_digit t = ("", t).
Proof.
  destruct t as [|c t]; [reflexivity|]. cbn [all_chars].
  intros H. apply andb_true_iff in H as [Hc _].
  apply Ascii.eqb_eq in Hc. subst c. reflexivity.
Qed.

Lemma space_width_dot (t : string) : space_width (String "." t) = 0%nat.
Proof. destruct t as [|b [|c t]]; reflexivity. Qed.

Lemma parseFloat_dots (d : string) :
  all_chars (Ascii.eqb ".") d = true -> parseFloat d = nan.
Proof.
  destruct d as [|c t]; [reflexivity|].
  cbn [all_chars]. intros H. apply andb_true_iff in H as [Hc Ht].
  apply Ascii.eqb_eq in Hc. subst c.
  unfold parseFloat. cbn [trim_start]. rewrite space_width_dot.
  cbv beta iota.
  change (prefix "Infinity" (String "." t)) with false.
  cbv beta iota.
  change (span is_digit (String "." t)) with (""%string, String "." t).
  cbv beta iota.
  rewrite (span_digit_dots t Ht). reflexivity.
Qed.

Lemma remove_commas_dots (g : string) :
  all_chars amount_char g = true -> some_char is_digit g = false ->
  all_chars (Ascii.eqb ".") (remove_commas g) = true.
Proof.
  induction g as [|c g IH]; [reflexivity|].
  cbn [all_chars some_char remove_commas].
  intros Ha Hd. apply andb_true_iff in Ha as [Hc Ha].
  apply orb_false_iff in Hd as [Hcd Hd].
  unfold amount_char in Hc. rewrite Hcd in Hc. cbn [orb] in Hc.
  destruct (Ascii.eqb c ",") eqn:Hcomma.
  - now apply IH.
  - cbn [orb] in Hc. cbn [all_chars]. rewrite Ascii.eqb_sym, Hc. now apply IH.
Qed.

(** X14. Whenever the failure branch extracts a balance, it parses it from
    a non-empty run of digits, commas and dots captured by the pattern,
    with the commas removed: no sign, letter or space reaches [parseFloat].
    When that run holds no digit (a lone dot or comma after the currency),
    the balance is NaN, it is not null, and the message for the user reads
    "KES NaN". *)
Theorem extracted_balance_comes_from_amount_text :
  forall message channel b,
    availableBalance message = Some b ->
    exists g,
      balanceMatch message = Some (Some g)
      /\ g <> ""
      /\ all_chars amount_char g = true
      /\ b = parseFloat (remove_commas g)
      /\ (some_char is_digit g = false ->
          b = nan
          /\ includes "KES NaN" (userMessage message channel (availableBalance message))
             = true).
Proof.
  intros message channel b Hb.
  assert (Hg : exists g, balanceMatch message = Some (Some g) /\ g <> ""
                         /\ all_chars amount_char g = true
                         /\ b = parseFloat (remove_commas g)).
  { unfold availableBalance in Hb.
    destruct (balanceMatch message) as [r|] eqn:Hm; [|discriminate].
    pose proof Hm as Hm'. unfold balanceMatch in Hm'.
    apply regex_match_inv in Hm' as (g & -> & Hne & Hall).
    destruct g as [|c g]; [contradiction|].
    exists (String c g). repeat split; auto.
    injection Hb as <-. reflexivity. }
  destruct Hg as (g & Hm & Hne & Hall & ->).
  exists g. repeat split; auto.
  - apply parseFloat_dots. now apply remove_commas_dots.
  - pose proof (matched_balance_is_reported message channel g Hm Hne) as [_ Hi].
    rewrite (parseFloat_dots _ (remove_commas_dots _ Hall H)) in Hi. exact Hi.
Qed.

Lemma extracted_balance_comes_from_amount_text_witness :
  exists g,
    balanceMatch "Insufficient funds, balance is Ksh ." = Some (Some g)
    /\ availableBalance "Insufficient funds, balance is Ksh ." = Some nan.
Proof.
  destruct (extracted_balance_comes_from_amount_text
              "Insufficient funds, balance is Ksh ." "card" nan eq_refl)
    as (g & Hg & _).
  exists g. split; [exact Hg | reflexivity].
Defined.

End CapturedText.
